(** * rec_sys: the rating predictor and the content-based recommender

    A shallow embedding of the two variants of the matrix-factorization
    predictor that the repository holds:

    - [Part000]: [src/unnamed/part_000] (script) with the first half of
      [src/week3/data.js] (raw 1-based MovieLens ids, tables with one spare
      row, single-flight flag, try/catch around training and prediction,
      clamped display);
    - [Week3]: [src/week3/script.js] with the second half of
      [src/week3/data.js] (ids shifted to 0-based, layers of exactly
      [numUsers] and [numMovies] rows, inputs declared without an axis so
      that [createModel] throws at [flatten], no flag, no guard, no clamp);

    and of the two variants of its content-based recommender:

    - [Week2]: [src/week2/script.js] with [src/week2/data.js] (Jaccard
      index over genre sets, two recommendations);
    - [Content]: [src/unnamed/part_001] (genre vectors, a choice of cosine
      or Jaccard similarity, five recommendations with their scores).

    Conventions of the embedding.
    - JavaScript numbers that hold ids are [Z]; [NaN] out of [parseInt] is
      [None]. The functions that parse the files are embedded from the
      fields of the lines on. Ratings and weights are rationals [Q]. What
      the library computes from them (a prediction, a loss) is a [Number]
      that the library hands over: finite, [NaN] or infinite; its float32
      arithmetic is the library's and is not recomputed here.
    - The globals of the scripts and the parts of the page they touch are the
      fields of a [State] record; a function is a computation in the monad
      [Js], which threads the state and a completion (normal or thrown).
    - TensorFlow.js is not part of the repository. Building layers, looking
      rows up, the dot product and training are the interface [TfBackend]:
      what the scripts ask of it, with the laws the layers API documents
      for inputs it accepts, and nothing about inputs it may reject. The
      rank check of [tf.layers.flatten] is written out ([flatten]), since
      the two variants differ by it. [refBackend] is one instance (strict
      lookups, no learning). *)

From Stdlib Require Import String ZArith QArith Qminmax Qround Qabs.
From Stdlib Require Import List Bool Lia Permutation.
Import ListNotations.
Local Open Scope Z_scope.

(** ** JavaScript completions *)

(** A thrown [Error]; the scripts read only its [message]. *)
Record Error := mkError { message : string }.

Inductive completion (A : Type) : Type :=
| Normal (a : A)
| Throw (e : Error).
Arguments Normal {A} a.
Arguments Throw {A} e.

Definition isThrow {A} (c : completion A) : bool :=
  match c with Throw _ => true | Normal _ => false end.

(** [!x] on the result of [parseInt]: true for [NaN] and for [0]. *)
Definition js_not (x : option Z) : bool :=
  match x with
  | None => true
  | Some n => n =? 0
  end.

(** ** Numbers *)

(** A number read out of a tensor or a training log: a finite value (a
    float32 value is a rational, and the double it is widened to is the same
    rational), [NaN], or an infinity. *)
Inductive Number :=
| NaN
| Infinity (negative : bool)
| Fin (q : Q).

(** [Math.max(a, b)] and [Math.min(a, b)]: [NaN] as soon as an argument is
    [NaN]. *)
Definition Math_max (a b : Number) : Number :=
  match a, b with
  | NaN, _ | _, NaN => NaN
  | Infinity false, _ | _, Infinity false => Infinity false
  | Infinity true, x | x, Infinity true => x
  | Fin x, Fin y => Fin (Qmax x y)
  end.

Definition Math_min (a b : Number) : Number :=
  match a, b with
  | NaN, _ | _, NaN => NaN
  | Infinity true, _ | _, Infinity true => Infinity true
  | Infinity false, x | x, Infinity false => x
  | Fin x, Fin y => Fin (Qmin x y)
  end.

(** The string [x.toFixed(fractionDigits)] returns: a sign and the numeral
    of [n / 10^fractionDigits], or the plain [String(x)] when [x] is no
    finite number or is of magnitude [10^21] and more. *)
Inductive FixedText :=
| Digits (negative : bool) (n : Z)
| NumberText (x : Number).

(** [x.toFixed(fractionDigits)]: for [x < 0] the sign is set aside and [x]
    negated; then [n] is the integer with [n / 10^fractionDigits] nearest to
    [x], the larger one on a tie. *)
Definition toFixed (fractionDigits : nat) (x : Number) : FixedText :=
  match x with
  | Fin q =>
      if Qle_bool (inject_Z (10 ^ 21)) (Qabs q) then NumberText x
      else
        Digits (negb (Qle_bool 0 q))
          (Qfloor (Qabs q * inject_Z (10 ^ Z.of_nat fractionDigits) + (1 # 2))%Q)
  | _ => NumberText x
  end.

Definition toFixed2 (x : Number) : FixedText := toFixed 2 x.

(** ** The TensorFlow.js backend *)

Definition Vector := list Q.
Definition Table := list Vector.

Inductive Optimizer := Adam (learningRate : Q).
Inductive Loss := MeanSquaredError.

(** The part of a [tf.LayersModel] the scripts depend on: the weights of the
    two embedding layers and what [compile] recorded. *)
Record LayersModel := mkModel {
  userEmbedding : Table;
  movieEmbedding : Table;
  optimizer : option Optimizer;
  loss : option Loss
}.

(** The configuration object passed to [model.fit]. *)
Record FitArgs := mkFitArgs {
  epochs : option Z;
  batchSize : option Z;
  validationSplit : option Q
}.

(** [logs] handed to [onEpochEnd]: [logs.loss] is a number, or [undefined]
    ([None]) when the epoch ran no training batch. *)
Record Logs := mkLogs { logs_loss : option Number }.

(** What a call of [model.fit] leaves behind: the model object as mutated so
    far, the logs of the epochs that ended, and the error if it rejected. *)
Record FitOutcome := mkFitOutcome {
  trained : LayersModel;
  epochLogs : list Logs;
  failure : option Error
}.

Definition rowsOf (t : Table) : Z := Z.of_nat (length t).

Definition shape (t : Table) : list nat := map (@length Q) t.

Definition sameShape (m m' : LayersModel) : Prop :=
  shape (userEmbedding m') = shape (userEmbedding m) /\
  shape (movieEmbedding m') = shape (movieEmbedding m).

Class TfBackend := {
  (** [tf.layers.embedding({inputDim, outputDim})], applied: the weight table. *)
  embedding : Z -> Z -> completion Table;
  (** The lookup of one row that an embedding layer does on an index. *)
  gather : Table -> Z -> completion Vector;
  (** [model.fit(inputs, targets, args)] run to its end. *)
  fit : LayersModel -> list Z -> list Z -> list Q -> FitArgs -> FitOutcome;
  (** [tf.layers.dot({axes: 1})] on two flattened rows, as the library
      computes it in float32: the number that [data()] then holds. *)
  dot : Vector -> Vector -> Number;

  (** A layer with positive dimensions is built, and a layer that is built
      holds [inputDim] rows of [outputDim] weights. *)
  embedding_accepts : forall inputDim outputDim,
    0 < inputDim -> 0 < outputDim ->
    isThrow (embedding inputDim outputDim) = false;
  embedding_shape : forall inputDim outputDim t,
    embedding inputDim outputDim = Normal t ->
    rowsOf t = inputDim /\
    Forall (fun row => Z.of_nat (length row) = outputDim) t;
  (** A lookup inside the table returns the row. *)
  gather_ok : forall t i,
    0 <= i < rowsOf t ->
    gather t i = Normal (nth (Z.to_nat i) t []);
  (** Training changes weights, not the size of a table nor what
      [compile] recorded. *)
  fit_shape : forall m us ms ys args,
    sameShape m (trained (fit m us ms ys args));
  fit_compiled : forall m us ms ys args,
    optimizer (trained (fit m us ms ys args)) = optimizer m /\
    loss (trained (fit m us ms ys args)) = loss m
}.

(** [model.predict([[userId]], [[movieId]])] followed by [data()[0]]. *)
Definition modelPredict `{TfBackend} (m : LayersModel) (userId movieId : Z)
  : completion Number :=
  match gather (userEmbedding m) userId with
  | Throw e => Throw e
  | Normal uvec =>
      match gather (movieEmbedding m) movieId with
      | Throw e => Throw e
      | Normal mvec => Normal (dot uvec mvec)
      end
  end.

(** *** The axes of symbolic tensors

    [tf.input({shape})] stands for tensors with a batch axis and the axes
    of [shape]; applying an embedding layer adds the axis of the weights;
    [tf.layers.flatten()] declares that its input has at least three axes
    and refuses one with fewer when it is applied (the library's message
    names the layer and the number of axes found), and returns two axes. *)

Definition tf_input (shape : list Z) : nat := S (length shape).

Definition embeddingOutput (inputAxes : nat) : nat := S inputAxes.

Definition flatten (axes : nat) : completion nat :=
  if (axes <? 3)%nat
  then Throw (mkError "Input 0 is incompatible with layer flatten: expected min_ndim=3")
  else Normal 2%nat.

(** [model.compile({optimizer, loss})]: records both on the model object. *)
Definition compile (o : Optimizer) (l : Loss) (m : LayersModel) : LayersModel :=
  mkModel (userEmbedding m) (movieEmbedding m) (Some o) (Some l).

(** ** The monad of script code

    A function of a script is a state transformer that completes normally
    with a value or throws; what it wrote before throwing stays written. *)

Definition Js (S A : Type) : Type := S -> completion A * S.

Definition ret {S A} (a : A) : Js S A := fun st => (Normal a, st).

Definition bind {S A B} (c : Js S A) (k : A -> Js S B) : Js S B :=
  fun st =>
    match c st with
    | (Normal a, st') => k a st'
    | (Throw e, st') => (Throw e, st')
    end.

Definition throw {S A} (e : Error) : Js S A := fun st => (Throw e, st).

Definition get {S} : Js S S := fun st => (Normal st, st).

Definition modify {S} (f : S -> S) : Js S unit := fun st => (Normal tt, f st).

Definition liftC {S A} (c : completion A) : Js S A := fun st => (c, st).

Declare Scope js_scope.
Delimit Scope js_scope with js.
Notation "x <- c ;; k" := (bind c (fun x => k))
  (at level 61, c at next level, right associativity) : js_scope.
Notation "c ;; k" := (bind c (fun _ => k))
  (at level 61, right associativity) : js_scope.

(** [try { body } catch (error) { handler }] *)
Definition tryCatch {S A} (body : Js S A) (handler : Error -> Js S A) : Js S A :=
  fun st =>
    match body st with
    | (Normal a, st') => (Normal a, st')
    | (Throw e, st') => handler e st'
    end.

(** [try { body } finally { fin }]: [fin] runs on both completions of
    [body]; the completion of [body] stands unless [fin] throws. *)
Definition tryFinally {S A} (body : Js S A) (fin : Js S unit) : Js S A :=
  fun st =>
    match body st with
    | (c, st') =>
        match fin st' with
        | (Normal _, st'') => (c, st'')
        | (Throw e, st'') => (Throw e, st'')
        end
    end.

(** [forEach] with the index, as [onEpochEnd] is called epoch after epoch. *)
Fixpoint forEachFrom {S A} (i : Z) (xs : list A) (f : Z -> A -> Js S unit)
  : Js S unit :=
  match xs with
  | [] => ret tt
  | x :: rest => bind (f i x) (fun _ => forEachFrom (i + 1) rest f)
  end.

(** ** Arrays *)

(** [[...new Set(xs)]]: the distinct elements in order of first occurrence. *)
Fixpoint uniq (xs : list Z) : list Z :=
  match xs with
  | [] => []
  | x :: rest => x :: filter (fun y => negb (y =? x)) (uniq rest)
  end.

(** [xs.sort(compare)], as a stable insertion sort: an element stays before
    a later one unless [compare] puts it after ([compare(a, b) > 0]). *)
Fixpoint insertBy {A} (compare : A -> A -> Z) (x : A) (sorted : list A) : list A :=
  match sorted with
  | [] => [x]
  | y :: rest =>
      if compare x y <=? 0 then x :: y :: rest
      else y :: insertBy compare x rest
  end.

Definition sortBy {A} (compare : A -> A -> Z) (xs : list A) : list A :=
  fold_right (insertBy compare) [] xs.

(** ** Data shared by the variants ([data.js]) *)

Record Rating := mkRating { userId : Z; movieId : Z; rating : Q }.

(** ** Variant [src/unnamed/part_000] *)

Module Part000.

(** [movies] of the first [data.js]: an array of [{id, title}]. *)
Record Movie := mkMovie { id : Z; title : string }.

(** The title shown for a movie id: [movie.title], or [`Movie ${movieId}`]
    when [movies.find] found none. *)
Inductive MovieTitle :=
| Titled (t : string)
| MovieNo (movieId : Z).

(** What [updateResult] puts into [#result]. Fixed texts are the strings of
    the source; a template is a constructor that keeps the values put into
    it (elapsed times, which read the wall clock, are left out). *)
Inductive Html :=
| Text (s : string)
| TrainingOn (n : nat)
    (* `Training model on ${ratings.length} ratings...` *)
| TrainingEpoch (epoch : Z) (lossShown : FixedText)
    (* `Training epoch ${epoch + 1}/10 - Loss: ${logs.loss.toFixed(4)} - Time: ...s` *)
| Trained
    (* `Model trained successfully! Ready for predictions. Training time: ...s` *)
| TrainingFailed (cause : string)
    (* `Training failed: ${error.message}` *)
| Predicting (user : Z) (movie : MovieTitle)
    (* `Predicting rating for User ${userId} and "${movieTitle}"...` *)
| Predicted (user : Z) (movie : MovieTitle) (displayRating : FixedText)
    (* `Predicted rating for User ${userId} and "${movieTitle}": ${displayRating} / 5.00` *)
| PredictionFailed (cause : string)
    (* `Prediction failed: ${error.message}` *)
| InitError (cause : string).
    (* `Error: ${error.message}` *)

Inductive ConsoleEntry :=
| log (s : string)
| logPopulatedUsers (n : nat)
| logPopulatedMovies (n : nat)
| logParsed (what : string) (n : nat)
| logLoaded (numUsers numMovies : Z) (nRatings : nat)
| logCreating (numUsers numMovies latentDim : Z)
| logTrainingOn (n : nat)
| logEpoch (epoch : Z) (loss : Number)     (* `Epoch ${epoch + 1}, Loss: ${logs.loss}` *)
| logCompleted
| logPrediction (user movie : Z) (displayRating : FixedText)
| error (label : string) (e : Error).

Record State := mkState {
  (* data.js *)
  movies : list Movie;
  ratings : list Rating;
  numUsers : Z;
  numMovies : Z;
  (* script globals *)
  model : option LayersModel;
  isTraining : bool;
  trainingStartTime : option Z;
  (* the page *)
  result : Html;                 (* innerHTML of #result *)
  predictBtnDisabled : bool;     (* #predict-btn .disabled *)
  userOptions : list Z;          (* values of the options of #user-select *)
  movieOptions : list (Z * string);
  userSelect : option Z;         (* parseInt(#user-select .value) *)
  movieSelect : option Z;        (* parseInt(#movie-select .value), both as
                                    the page reports them when
                                    [predictRating] reads them *)
  console : list ConsoleEntry;
  now : Z                        (* Date.now() *)
}.

Definition set_model (v : option LayersModel) (s : State) : State :=
  mkState (movies s) (ratings s) (numUsers s) (numMovies s) v (isTraining s)
    (trainingStartTime s) (result s) (predictBtnDisabled s) (userOptions s)
    (movieOptions s) (userSelect s) (movieSelect s) (console s) (now s).

Definition set_isTraining (v : bool) (s : State) : State :=
  mkState (movies s) (ratings s) (numUsers s) (numMovies s) (model s) v
    (trainingStartTime s) (result s) (predictBtnDisabled s) (userOptions s)
    (movieOptions s) (userSelect s) (movieSelect s) (console s) (now s).

Definition set_trainingStartTime (v : option Z) (s : State) : State :=
  mkState (movies s) (ratings s) (numUsers s) (numMovies s) (model s)
    (isTraining s) v (result s) (predictBtnDisabled s) (userOptions s)
    (movieOptions s) (userSelect s) (movieSelect s) (console s) (now s).

Definition set_result (v : Html) (s : State) : State :=
  mkState (movies s) (ratings s) (numUsers s) (numMovies s) (model s)
    (isTraining s) (trainingStartTime s) v (predictBtnDisabled s)
    (userOptions s) (movieOptions s) (userSelect s) (movieSelect s)
    (console s) (now s).

Definition set_predictBtnDisabled (v : bool) (s : State) : State :=
  mkState (movies s) (ratings s) (numUsers s) (numMovies s) (model s)
    (isTraining s) (trainingStartTime s) (result s) v (userOptions s)
    (movieOptions s) (userSelect s) (movieSelect s) (console s) (now s).

Definition set_userOptions (v : list Z) (s : State) : State :=
  mkState (movies s) (ratings s) (numUsers s) (numMovies s) (model s)
    (isTraining s) (trainingStartTime s) (result s) (predictBtnDisabled s) v
    (movieOptions s) (userSelect s) (movieSelect s) (console s) (now s).

Definition set_movieOptions (v : list (Z * string)) (s : State) : State :=
  mkState (movies s) (ratings s) (numUsers s) (numMovies s) (model s)
    (isTraining s) (trainingStartTime s) (result s) (predictBtnDisabled s)
    (userOptions s) v (userSelect s) (movieSelect s) (console s) (now s).

Definition set_console (v : list ConsoleEntry) (s : State) : State :=
  mkState (movies s) (ratings s) (numUsers s) (numMovies s) (model s)
    (isTraining s) (trainingStartTime s) (result s) (predictBtnDisabled s)
    (userOptions s) (movieOptions s) (userSelect s) (movieSelect s) v (now s).

(** The visitor picks an entry of each dropdown (or none: [NaN]). *)
Definition select (user movie : option Z) (s : State) : State :=
  mkState (movies s) (ratings s) (numUsers s) (numMovies s) (model s)
    (isTraining s) (trainingStartTime s) (result s) (predictBtnDisabled s)
    (userOptions s) (movieOptions s) user movie (console s) (now s).

Definition set_data (ms : list Movie) (rs : list Rating) (nu nm : Z) (s : State)
  : State :=
  mkState ms rs nu nm (model s) (isTraining s) (trainingStartTime s) (result s)
    (predictBtnDisabled s) (userOptions s) (movieOptions s) (userSelect s)
    (movieSelect s) (console s) (now s).

Local Open Scope js_scope.

(** [updateResult(message)] *)
Definition updateResult (h : Html) : Js State unit := modify (set_result h).

(** The console with further entries. *)
Definition logged (entries : list ConsoleEntry) (st : State) : State :=
  set_console (console st ++ entries) st.

Definition console_log (e : ConsoleEntry) : Js State unit :=
  modify (logged [e]).

(** [loadData()] of the first [data.js], from what fetching and parsing the
    two files gave (or the error that threw): [numUsers] counts the distinct
    user ids of the ratings, [numMovies] the movies; an error is logged and
    thrown again. *)
Definition loadData (fetched : completion (list Movie * list Rating))
  : Js State unit :=
  tryCatch
    (console_log (log "Starting data loading process...") ;;
     d <- liftC fetched ;;
     console_log (log "Raw data fetched, starting parsing...") ;;
     console_log (logParsed "movies" (length (fst d))) ;;
     console_log (logParsed "ratings" (length (snd d))) ;;
     let nu := Z.of_nat (length (uniq (map userId (snd d)))) in
     let nm := Z.of_nat (length (fst d)) in
     modify (set_data (fst d) (snd d) nu nm) ;;
     console_log (logLoaded nu nm (length (snd d))))
    (fun e =>
       console_log (error "Error loading data:" e) ;;
       throw e).

(** [populateUserDropdown()] *)
Definition populateUserDropdown : Js State unit :=
  st <- get ;;
  let uniqueUserIds := sortBy (fun a b => a - b) (uniq (map userId (ratings st))) in
  modify (set_userOptions uniqueUserIds) ;;
  console_log (logPopulatedUsers (length uniqueUserIds)).

(** [populateMovieDropdown()]; [localeCompare] is the browser's. *)
Definition populateMovieDropdown (localeCompare : string -> string -> Z)
  : Js State unit :=
  st <- get ;;
  let sortedMovies :=
    sortBy (fun a b => localeCompare (title a) (title b)) (movies st) in
  modify (set_movieOptions (map (fun m => (id m, title m)) sortedMovies)) ;;
  console_log (logPopulatedMovies (length sortedMovies)).

(** [movie ? movie.title : `Movie ${movieId}`] for
    [movie = movies.find(m => m.id === movieId)]. *)
Definition titleOf (st : State) (movieId : Z) : MovieTitle :=
  match find (fun mv => id mv =? movieId) (movies st) with
  | Some movie => Titled (title movie)
  | None => MovieNo movieId
  end.

Section WithBackend.
Context {tf : TfBackend}.

(** [createModel(numUsers, numMovies, latentDim = 10)]. The inputs are
    declared with [shape: [1]], so an embedding has three axes when it is
    handed to [flatten]. *)
Definition createModel (numUsers numMovies : Z) (latentDim : option Z)
  : Js State LayersModel :=
  let latentDim := match latentDim with Some d => d | None => 10 end in
  console_log (logCreating numUsers numMovies latentDim) ;;
  let userInput := tf_input [1] in
  let movieInput := tf_input [1] in
  userTable <- liftC (embedding (numUsers + 1) latentDim) ;;
  movieTable <- liftC (embedding (numMovies + 1) latentDim) ;;
  userVector <- liftC (flatten (embeddingOutput userInput)) ;;
  movieVector <- liftC (flatten (embeddingOutput movieInput)) ;;
  console_log (log "Model architecture created successfully") ;;
  ret (mkModel userTable movieTable None None).

(** The object literal passed to [model.fit] (lines 171-183). *)
Definition fitArgs : FitArgs :=
  mkFitArgs (Some 10) (Some 64) (Some (1 # 10)%Q).

(** [onEpochEnd: (epoch, logs) => ...]: with [logs.loss] undefined,
    [logs.loss.toFixed(4)] throws a [TypeError] while the message is being
    put together, before anything is written. *)
Definition onEpochEnd (epoch : Z) (logs : Logs) : Js State unit :=
  match logs_loss logs with
  | None =>
      throw (mkError "Cannot read properties of undefined (reading 'toFixed')")
  | Some loss =>
      updateResult (TrainingEpoch (epoch + 1) (toFixed 4 loss)) ;;
      console_log (logEpoch (epoch + 1) loss)
  end.

(** The [try] block of [trainModel] up to the call of [model.fit]
    (lines 136-165): the state it leaves is the one the page is in while
    [await model.fit(...)] is pending. *)
Definition trainSetup : Js State (LayersModel * (list Z * list Z * list Q)) :=
  modify (set_isTraining true) ;;
  st <- get ;;
  modify (set_trainingStartTime (Some (now st))) ;;
  updateResult (Text "Creating model architecture...") ;;
  m <- createModel (numUsers st) (numMovies st) (Some 15) ;;
  modify (set_model (Some m)) ;;
  let m := compile (Adam (1 # 1000)%Q) MeanSquaredError m in
  modify (set_model (Some m)) ;;
  console_log (log "Model compiled, preparing training data...") ;;
  updateResult (Text "Preparing training data...") ;;
  let userInputs := map userId (ratings st) in
  let movieInputs := map movieId (ratings st) in
  let ratingTargets := map rating (ratings st) in
  console_log (logTrainingOn (length (ratings st))) ;;
  updateResult (TrainingOn (length (ratings st))) ;;
  ret (m, (userInputs, movieInputs, ratingTargets)).

(** [await model.fit(...)] with its [onEpochEnd] calls (lines 168-184): the
    global [model] is the object [fit] mutates. An error thrown by the
    callback ends the fit and is what the [await] throws. *)
Definition trainFit (m : LayersModel) (data : list Z * list Z * list Q)
  : Js State unit :=
  let '(userInputs, movieInputs, ratingTargets) := data in
  let out := fit m userInputs movieInputs ratingTargets fitArgs in
  modify (set_model (Some (trained out))) ;;
  forEachFrom 0 (epochLogs out) onEpochEnd ;;
  match failure out with
  | Some e => throw e
  | None => ret tt
  end.

(** After the fit (lines 186-196). *)
Definition trainDone : Js State unit :=
  console_log logCompleted ;;
  modify (set_predictBtnDisabled false) ;;
  updateResult Trained.

(** The [try] block of [trainModel] (lines 136-196). *)
Definition trainBody : Js State unit :=
  r <- trainSetup ;;
  trainFit (fst r) (snd r) ;;
  trainDone.

(** The [catch (error)] block of [trainModel] (lines 199-200). *)
Definition trainCatch (e : Error) : Js State unit :=
  console_log (error "Training error:" e) ;;
  updateResult (TrainingFailed (message e)).

(** [trainModel()] *)
Definition trainModel : Js State unit :=
  st <- get ;;
  if isTraining st then
    console_log (log "Model training already in progress")
  else
    tryFinally
      (tryCatch trainBody trainCatch)
      (modify (set_isTraining false)).

(** [predictRating()] *)
Definition predictRating : Js State unit :=
  st <- get ;;
  match model st with
  | None =>
      updateResult
        (Text "Model is not ready yet. Please wait for training to complete.")
  | Some m =>
      tryCatch
        (let userId := userSelect st in
         let movieId := movieSelect st in
         if js_not userId || js_not movieId then
           updateResult (Text "Please select both a user and a movie.")
         else
           match userId, movieId with
           | Some userId, Some movieId =>
               let movieTitle := titleOf st movieId in
               updateResult (Predicting userId movieTitle) ;;
               rating <- liftC (modelPredict m userId movieId) ;;
               let displayRating :=
                 toFixed2 (Math_min (Math_max rating (Fin 1)) (Fin 5)) in
               updateResult (Predicted userId movieTitle displayRating) ;;
               console_log (logPrediction userId movieId displayRating)
           | _, _ => ret tt   (* not reached: [!NaN] is true *)
           end)
        (fun e =>
           console_log (error "Prediction error:" e) ;;
           updateResult (PredictionFailed (message e)))
  end.

(** [window.onload] *)
Definition onload (fetched : completion (list Movie * list Rating))
    (localeCompare : string -> string -> Z) : Js State unit :=
  tryCatch
    (updateResult (Text "Loading MovieLens dataset...") ;;
     loadData fetched ;;
     populateUserDropdown ;;
     populateMovieDropdown localeCompare ;;
     updateResult (Text "Data loaded! Starting model training...") ;;
     trainModel)
    (fun e =>
       console_log (error "Initialization error:" e) ;;
       updateResult (InitError (message e))).

End WithBackend.

(** The page before [window.onload] ran: no data, no model, and the
    markup's own text and button state. *)
Definition freshPage (markupText : Html) (btnDisabled : bool) (clock : Z) : State :=
  mkState [] [] 0 0 None false None markupText btnDisabled [] [] None None [] clock.

(** *** Notions the properties are stated with *)

(** What the scripts never write after loading: the data. *)
Definition sameData (st st' : State) : Prop :=
  movies st' = movies st /\ ratings st' = ratings st /\
  numUsers st' = numUsers st /\ numMovies st' = numMovies st.

(** The state in which [await model.fit(...)] is reached. *)
Definition atAwait (m : LayersModel) (st s1 : State) : State :=
  set_result (TrainingOn (length (ratings st)))
    (logged [logTrainingOn (length (ratings st))]
       (set_result (Text "Preparing training data...")
          (logged [log "Model compiled, preparing training data..."]
             (set_model (Some m) s1)))).

Definition entered (st : State) : State :=
  set_result (Text "Creating model architecture...")
    (set_trainingStartTime (Some (now st)) (set_isTraining true st)).

(** The model the page holds, if any, has one row per id in
    [0 .. numUsers] and in [0 .. numMovies]. *)
Definition tablesFit (st : State) : Prop :=
  forall m, model st = Some m ->
    rowsOf (userEmbedding m) = numUsers st + 1 /\
    rowsOf (movieEmbedding m) = numMovies st + 1.

Definition compiledForTraining (m : LayersModel) : Prop :=
  optimizer m = Some (Adam (1 # 1000)%Q) /\ loss m = Some MeanSquaredError.

End Part000.

(** ** Variant [src/week3/script.js] *)

Module Week3.

(** [tf.tensor2d(values, shape, "int32")] stores each value in an
    [Int32Array]: [NaN] becomes 0, an integer wraps modulo 2^32 into
    [-2^31, 2^31). *)
Definition toInt32 (x : option Z) : Z :=
  match x with
  | None => 0
  | Some n => (n + 2 ^ 31) mod 2 ^ 32 - 2 ^ 31
  end.

(** A property name of the object [movies], as [movies[movieId] = ...]
    makes it from a number: the numeral of an integer, or ['NaN']
    ([None]). *)
Definition Key := option Z.

Definition keyEq (a b : Key) : bool :=
  match a, b with
  | Some x, Some y => x =? y
  | None, None => true
  | _, _ => false
  end.

(** A name that is an array index. An object lists these names first, in
    ascending order, and the other names after them in the order in which
    they were created. *)
Definition isIndex (k : Key) : bool :=
  match k with
  | Some n => (0 <=? n) && (n <? 2 ^ 32 - 1)
  | None => false
  end.

(** Whether the new name [k] is listed before the name [k'] already there. *)
Definition listedBefore (k k' : Key) : bool :=
  match k, k' with
  | Some n, Some n' => isIndex k && (negb (isIndex k') || (n <? n'))
  | Some _, None => isIndex k
  | None, _ => false
  end.

(** The object [movies]: its properties in the order in which [for ... in]
    and [Object.keys] list them; a value is a title or [undefined]. *)
Definition Obj := list (Key * option string).

(** [movies[movieId] = title] *)
Fixpoint objSet (k : Key) (v : option string) (o : Obj) : Obj :=
  match o with
  | [] => [(k, v)]
  | (k', v') :: rest =>
      if keyEq k k' then (k, v) :: rest
      else if listedBefore k k' then (k, v) :: (k', v') :: rest
      else (k', v') :: objSet k v rest
  end.

(** [movies[movieId]]; [None] is [undefined], the value of a name that is
    missing as well as a stored [undefined]. *)
Fixpoint objGet (k : Key) (o : Obj) : option string :=
  match o with
  | [] => None
  | (k', v) :: rest => if keyEq k k' then v else objGet k rest
  end.

(** What the script writes into [#result] ([innerText]). *)
Inductive ResultText :=
| Text (s : string)
| Predicted (userShown : option Z) (movieTitle : option string)
    (rating : FixedText).
    (* `Predicted rating for User ${userId+1} on "${movies[movieId+1]}" = ${rating.toFixed(2)} / 5` *)

Record State := mkState {
  (* data.js *)
  ratings : list Rating;
  movies : Obj;                 (* the object movieId -> title *)
  numUsers : Z;
  numMovies : Z;
  (* script global *)
  model : option LayersModel;   (* [undefined] until trainModel assigns it *)
  (* the page *)
  result : ResultText;
  userOptions : list Z;         (* the values of the options of #user-select *)
  movieOptions : list (option Z * option string);
                                (* value ([NaN] as [None]) and text of the
                                   options of #movie-select *)
  userSelect : option Z;        (* parseInt(#user-select .value) *)
  movieSelect : option Z        (* parseInt(#movie-select .value) *)
}.

Definition set_model (v : option LayersModel) (s : State) : State :=
  mkState (ratings s) (movies s) (numUsers s) (numMovies s) v (result s)
    (userOptions s) (movieOptions s) (userSelect s) (movieSelect s).

Definition set_result (v : ResultText) (s : State) : State :=
  mkState (ratings s) (movies s) (numUsers s) (numMovies s) (model s) v
    (userOptions s) (movieOptions s) (userSelect s) (movieSelect s).

Definition set_options (us : list Z) (ms : list (option Z * option string))
    (s : State) : State :=
  mkState (ratings s) (movies s) (numUsers s) (numMovies s) (model s) (result s)
    us ms (userSelect s) (movieSelect s).

Definition set_movies (ms : Obj) (nm : Z) (s : State) : State :=
  mkState (ratings s) ms (numUsers s) nm (model s) (result s)
    (userOptions s) (movieOptions s) (userSelect s) (movieSelect s).

Definition set_ratings (rs : list Rating) (nu : Z) (s : State) : State :=
  mkState rs (movies s) nu (numMovies s) (model s) (result s)
    (userOptions s) (movieOptions s) (userSelect s) (movieSelect s).

Local Open Scope js_scope.

(** [parseItemData], from the lines already split: [parseInt(parts[0])]
    ([NaN] as [None]) and [parts[1]] ([undefined] as [None]). *)
Definition parseItemData (items : list (Key * option string)) : Js State unit :=
  modify (fun s =>
    let ms := fold_left (fun o it => objSet (fst it) (snd it) o) items (movies s) in
    set_movies ms (Z.of_nat (length ms)) s).

(** [parseRatingData], from the lines already split into numbers: ids are
    shifted to start at 0 and [numUsers] is raised to the raw user id. *)
Definition parseRatingData (lines : list Rating) : Js State unit :=
  modify (fun s =>
    fold_left
      (fun s line =>
         set_ratings
           (ratings s ++ [mkRating (userId line - 1) (movieId line - 1) (rating line)])
           (Z.max (numUsers s) (userId line)) s)
      lines s).

(** [populateDropdowns()]: options are appended to what the two selects
    already hold. *)
Definition populateDropdowns : Js State unit :=
  modify (fun s =>
    set_options
      (userOptions s ++ map Z.of_nat (seq 0 (Z.to_nat (numUsers s))))
      (movieOptions s ++
       map (fun kv => (option_map (fun movieId => movieId - 1) (fst kv), snd kv))
           (movies s))
      s).

Section WithBackend.
Context {tf : TfBackend}.

(** [createModel(numUsers, numMovies, latentDim = 20)]; the initializer
    ["randomNormal"] decides values the interface leaves open. The inputs
    are declared with [shape: []], so an embedding has two axes when it is
    handed to [flatten]. *)
Definition createModel (numUsers numMovies : Z) (latentDim : option Z)
  : Js State LayersModel :=
  let latentDim := match latentDim with Some d => d | None => 20 end in
  let userInput := tf_input [] in
  let movieInput := tf_input [] in
  userTable <- liftC (embedding numUsers latentDim) ;;
  movieTable <- liftC (embedding numMovies latentDim) ;;
  userVec <- liftC (flatten (embeddingOutput userInput)) ;;
  movieVec <- liftC (flatten (embeddingOutput movieInput)) ;;
  ret (mkModel userTable movieTable None None).

(** The object literal passed to [model.fit] (lines 96-100; [verbose]
    only affects logging). *)
Definition fitArgs : FitArgs := mkFitArgs (Some 5) (Some 64) None.

(** [trainModel()] from the assignment of line 78 on, for the model that
    [createModel] returned. *)
Definition trainCreated (m : LayersModel) : Js State unit :=
  modify (set_model (Some m)) ;;
  let m := compile (Adam (1 # 1000)%Q) MeanSquaredError m in
  modify (set_model (Some m)) ;;
  st <- get ;;
  let userIds := map (fun r => toInt32 (Some (userId r))) (ratings st) in
  let movieIds := map (fun r => toInt32 (Some (movieId r))) (ratings st) in
  let labels := map rating (ratings st) in
  let out := fit m userIds movieIds labels fitArgs in
  modify (set_model (Some (trained out))) ;;
  match failure out with
  | Some e => throw e
  | None =>
      modify (set_result (Text "Model trained! Select user and movie to predict."))
  end.

(** [trainModel()] *)
Definition trainModel : Js State unit :=
  modify (set_result (Text "Training model...")) ;;
  st <- get ;;
  m <- createModel (numUsers st) (numMovies st) None ;;
  trainCreated m.

(** [predictRating()] *)
Definition predictRating : Js State unit :=
  st <- get ;;
  let userId := userSelect st in
  let movieId := movieSelect st in
  match model st with
  | None =>
      throw (mkError "Cannot read properties of undefined (reading 'predict')")
  | Some m =>
      rating <- liftC (modelPredict m (toInt32 userId) (toInt32 movieId)) ;;
      modify (set_result
        (Predicted
           (option_map (fun u => u + 1) userId)
           (objGet (option_map (fun mv => mv + 1) movieId) (movies st))
           (toFixed2 rating)))
  end.

(** [window.onload] *)
Definition onload (items : list (Key * option string)) (lines : list Rating)
  : Js State unit :=
  modify (set_result (Text "Loading dataset...")) ;;
  parseItemData items ;;
  parseRatingData lines ;;
  populateDropdowns ;;
  trainModel.

End WithBackend.

Definition select (user movie : option Z) (s : State) : State :=
  mkState (ratings s) (movies s) (numUsers s) (numMovies s) (model s) (result s)
    (userOptions s) (movieOptions s) user movie.

Definition freshPage (markupText : ResultText) : State :=
  mkState [] [] 0 0 None markupText [] [] None None.

(** What [predictRating] writes for the rating [r]. *)
Definition shown (st : State) (r : Number) : ResultText :=
  Predicted
    (option_map (fun u => u + 1) (userSelect st))
    (objGet (option_map (fun mv => mv + 1) (movieSelect st)) (movies st))
    (toFixed2 r).

End Week3.

(** ** A reference backend

    One inhabitant of [TfBackend], used where a statement needs a concrete
    run: weights start at 1/32 (inside the range of the default uniform
    initializer, and a float32 value, as are the sums of its products), a
    layer refuses a non-positive dimension, a lookup refuses an index
    outside the table, the dot product is the exact one, and [fit] looks
    every training id up, then reports once per epoch the mean squared
    error over the samples left for training, or no loss when none is
    left, without changing a weight (the optimizer's arithmetic is outside
    the embedding). *)

Module Ref.

Definition embedding (inputDim outputDim : Z) : completion Table :=
  if (0 <? inputDim) && (0 <? outputDim)
  then Normal (repeat (repeat (1 # 32)%Q (Z.to_nat outputDim)) (Z.to_nat inputDim))
  else Throw (mkError "embedding: dimension is not a positive integer").

Definition inRange (t : Table) (i : Z) : bool :=
  (0 <=? i) && (i <? rowsOf t).

Definition gather (t : Table) (i : Z) : completion Vector :=
  if inRange t i
  then Normal (nth (Z.to_nat i) t [])
  else Throw (mkError "GatherV2: the index value is not in range").

Fixpoint dotQ (u v : Vector) : Q :=
  match u, v with
  | x :: u', y :: v' => (x * y + dotQ u' v')%Q
  | _, _ => 0%Q
  end.

Definition dot (u v : Vector) : Number := Fin (Qred (dotQ u v)).

Fixpoint squaredErrors (m : LayersModel) (us ms : list Z) (ys : list Q) : Q :=
  match us, ms, ys with
  | u :: us', mv :: ms', y :: ys' =>
      let p := dotQ (nth (Z.to_nat u) (userEmbedding m) [])
                    (nth (Z.to_nat mv) (movieEmbedding m) []) in
      ((p - y) * (p - y) + squaredErrors m us' ms' ys')%Q
  | _, _, _ => 0%Q
  end.

Definition meanSquaredError (m : LayersModel) (us ms : list Z) (ys : list Q) : Q :=
  match ys with
  | [] => 0%Q
  | _ => Qred (squaredErrors m us ms ys / inject_Z (Z.of_nat (length ys)))
  end.

(** The samples left for training once the validation slice is taken off
    the end: [floor(n * (1 - validationSplit))]. *)
Definition trainCount (n : nat) (args : FitArgs) : nat :=
  match validationSplit args with
  | Some v => Z.to_nat (Qfloor (inject_Z (Z.of_nat n) * (1 - v))%Q)
  | None => n
  end.

Definition fit (m : LayersModel) (us ms : list Z) (ys : list Q) (args : FitArgs)
  : FitOutcome :=
  if forallb (inRange (userEmbedding m)) us
     && forallb (inRange (movieEmbedding m)) ms
  then
    let n := match epochs args with Some n => n | None => 1 end in
    let k := trainCount (length ys) args in
    let loss :=
      match k with
      | O => None
      | _ => Some (Fin (meanSquaredError m (firstn k us) (firstn k ms) (firstn k ys)))
      end in
    mkFitOutcome m (repeat (mkLogs loss) (Z.to_nat n)) None
  else
    mkFitOutcome m [] (Some (mkError "GatherV2: the index value is not in range")).

Lemma embedding_accepts inputDim outputDim :
  0 < inputDim -> 0 < outputDim ->
  isThrow (embedding inputDim outputDim) = false.
Proof.
  intros Hi Ho. unfold embedding.
  destruct (Z.ltb_spec 0 inputDim) as [_|]; [|lia].
  destruct (Z.ltb_spec 0 outputDim) as [_|]; [reflexivity|lia].
Qed.

Lemma embedding_shape inputDim outputDim t :
  embedding inputDim outputDim = Normal t ->
  rowsOf t = inputDim /\
  Forall (fun row => Z.of_nat (length row) = outputDim) t.
Proof.
  unfold embedding.
  destruct (Z.ltb_spec 0 inputDim) as [Hi|]; [|discriminate].
  destruct (Z.ltb_spec 0 outputDim) as [Ho|]; [|discriminate].
  simpl. intros E. injection E as <-. split.
  - unfold rowsOf. rewrite repeat_length. lia.
  - apply Forall_forall. intros row Hin.
    apply repeat_spec in Hin. subst row. rewrite repeat_length. lia.
Qed.

Lemma gather_ok t i :
  0 <= i < rowsOf t -> gather t i = Normal (nth (Z.to_nat i) t []).
Proof.
  intros [Hlo Hhi]. unfold gather, inRange.
  destruct (Z.leb_spec 0 i); [|lia].
  destruct (Z.ltb_spec i (rowsOf t)); [reflexivity|lia].
Qed.

Lemma fit_shape m us ms ys args : sameShape m (trained (fit m us ms ys args)).
Proof. unfold fit. destruct (_ && _); split; reflexivity. Qed.

Lemma fit_compiled m us ms ys args :
  optimizer (trained (fit m us ms ys args)) = optimizer m /\
  loss (trained (fit m us ms ys args)) = loss m.
Proof. unfold fit. destruct (_ && _); split; reflexivity. Qed.

End Ref.

#[export] Instance refBackend : TfBackend := {
  embedding := Ref.embedding;
  gather := Ref.gather;
  fit := Ref.fit;
  dot := Ref.dot;
  embedding_accepts := Ref.embedding_accepts;
  embedding_shape := Ref.embedding_shape;
  gather_ok := Ref.gather_ok;
  fit_shape := Ref.fit_shape;
  fit_compiled := Ref.fit_compiled
}.

(** ** The content-based recommender ([src/unnamed/part_001]) *)

Module Content.

Local Open Scope string_scope.

Definition TOP_N : nat := 5.

Definition GENRES_18 : list string :=
  ["Action"; "Adventure"; "Animation"; "Children's"; "Comedy"; "Crime";
   "Documentary"; "Drama"; "Fantasy"; "Film-Noir"; "Horror"; "Musical";
   "Mystery"; "Romance"; "Sci-Fi"; "Thriller"; "War"; "Western"].

Local Close Scope string_scope.

(** [GENRE_TO_IDX[g]] for a genre name: its index in [GENRES_18]. (A
    string that is no genre name gives [undefined], or an inherited member
    of the object under which [v[idx] = 1] writes no element of [v]:
    [None] stands for both.) *)
Fixpoint indexIn (g : string) (names : list string) (i : nat) : option nat :=
  match names with
  | [] => None
  | n :: rest => if String.eqb g n then Some i else indexIn g rest (S i)
  end.

Definition GENRE_TO_IDX (g : string) : option nat := indexIn g GENRES_18 0.

(** [v[idx] = 1] on an array, for an index inside it. *)
Fixpoint setOne (idx : nat) (v : list Z) : list Z :=
  match v, idx with
  | [], _ => []
  | _ :: rest, O => 1 :: rest
  | x :: rest, S i => x :: setOne i rest
  end.

(** [toGenreVector(genres)]; [None] is an argument that is not an array. *)
Definition toGenreVector (genres : option (list string)) : list Z :=
  let v := repeat 0 (length GENRES_18) in
  match genres with
  | None => v
  | Some gs =>
      fold_left
        (fun v g =>
           match GENRE_TO_IDX g with
           | Some idx => setOne idx v
           | None => v
           end)
        gs v
  end.

(** [x & y]: both operands are brought into 32 bits, two's complement. *)
Definition int32 (n : Z) : Z := (n + 2 ^ 31) mod 2 ^ 32 - 2 ^ 31.

Definition bitAnd (x y : Z) : Z := Z.land (int32 x) (int32 y).

(** The loop of [jaccardSimilarity(a, b)] over [i < a.length]. Past the
    end of [b], [b[i]] is [undefined]: [ai & undefined] is 0 and
    [sumB += undefined] makes [sumB] [NaN] ([None]). *)
Fixpoint jaccardLoop (a b : list Z) (dot sumA : Z) (sumB : option Z)
  : Z * Z * option Z :=
  match a with
  | [] => (dot, sumA, sumB)
  | ai :: a' =>
      match b with
      | bi :: b' =>
          jaccardLoop a' b' (dot + bitAnd ai bi) (sumA + ai)
            (option_map (fun s => s + bi) sumB)
      | [] => jaccardLoop a' [] (dot + 0) (sumA + ai) None
      end
  end.

(** [jaccardSimilarity(a, b)]; [None] is [NaN]. The quotient is exact. *)
Definition jaccardSimilarity (a b : list Z) : option Q :=
  match jaccardLoop a b 0 0 (Some 0) with
  | (dot, sumA, Some sumB) =>
      let union := sumA + sumB - dot in
      if union =? 0 then Some 0%Q
      else Some (inject_Z dot / inject_Z union)%Q
  | (_, _, None) => None
  end.

Record Movie := mkMovie { id : Z; title : string; genres : list string }.

(** A candidate with its score (the object [{ ...cand, score }]). *)
Record Scored := mkScored { movie : Movie; score : option Q }.

(** [score.toFixed(3)] as a count of thousandths. *)
Definition toFixed3 (x : Q) : Z :=
  if Qle_bool 0 x
  then Qfloor (x * 1000 + (1 # 2))%Q
  else - Qfloor (- x * 1000 + (1 # 2))%Q.

(** [fmt(score)] *)
Definition fmt (score : option Q) : Z :=
  match score with
  | Some x => toFixed3 x
  | None => 0
  end.

(** The value of [#movie-select]: the empty string, or a string with what
    [Number.parseInt(value, 10)] makes of it. *)
Inductive SelectValue :=
| Empty
| Value (parsed : option Z).

Inductive ResultText :=
| Text (s : string)
| NoSimilar (likedTitle : string)
    (* `We couldn't find any similar titles to "${likedMovie.title}". Try another movie.` *)
| Recommend (likedTitle : string) (label : string) (list_ : list (string * Z)).
    (* `Because you liked "${likedMovie.title}", we recommend (${metricLabel(metric)}): ` + listText *)

Record State := mkState {
  movies : list Movie;
  movieSelect : option SelectValue;   (* [None]: no element #movie-select *)
  result : option ResultText;         (* [None]: no element #result *)
  checkedMetric : option string       (* the value of the checked radio button *)
}.

Definition set_result (r : ResultText) (s : State) : State :=
  mkState (movies s) (movieSelect s) (Some r) (checkedMetric s).

(** [getSelectedMetric()] *)
Definition getSelectedMetric (s : State) : string :=
  match checkedMetric s with
  | Some value => value
  | None => "cosine"
  end.

(** [metricLabel(metric)] *)
Definition metricLabel (metric : string) : string :=
  if String.eqb metric "jaccard" then "Jaccard" else "Cosine".

Section WithMath.
(** [cosineSimilarity] divides by [Math.sqrt] of the norms: its value is a
    float that the embedding does not compute. [localeCompare] is the
    browser's. *)
Variable cosineSimilarity : list Z -> list Z -> option Q.
Variable localeCompare : string -> string -> Z.

(** The comparison handed to [scoredMovies.sort]; a result that is [NaN]
    counts as 0 there. *)
Definition byScoreThenTitle (a b : Scored) : Z :=
  match score b, score a with
  | Some sb, Some sa =>
      if negb (Qeq_bool sb sa)
      then (if Qle_bool sb sa then -1 else 1)     (* the sign of b.score - a.score *)
      else localeCompare (title (movie a)) (title (movie b))
  | _, _ => 0
  end.

(** The scored and sorted candidates of [getRecommendations]. *)
Definition scoredCandidates (s : State) (likedMovie : Movie) : list Scored :=
  let metric := getSelectedMetric s in
  let likedVec := toGenreVector (Some (genres likedMovie)) in
  let candidateMovies :=
    filter (fun m => negb (id m =? id likedMovie)) (movies s) in
  let simFn :=
    if String.eqb metric "jaccard" then jaccardSimilarity
    else cosineSimilarity in
  let scoredMovies :=
    map (fun cand =>
           mkScored cand (simFn likedVec (toGenreVector (Some (genres cand)))))
        candidateMovies in
  sortBy byScoreThenTitle scoredMovies.

(** [getRecommendations()] *)
Definition getRecommendations (s : State) : State :=
  match movieSelect s, result s with
  | Some selectedVal, Some _ =>
      match selectedVal with
      | Empty => set_result (Text "Please choose a movie first.") s
      | Value selectedId =>
          match
            match selectedId with
            | Some n => find (fun m => id m =? n) (movies s)
            | None => None                      (* [m.id === NaN] never holds *)
            end
          with
          | None =>
              set_result
                (Text "Selected movie was not found. Please try another.") s
          | Some likedMovie =>
              let topN := firstn TOP_N (scoredCandidates s likedMovie) in
              match topN with
              | [] => set_result (NoSimilar (title likedMovie)) s
              | _ =>
                  set_result
                    (Recommend (title likedMovie)
                       (metricLabel (getSelectedMetric s))
                       (map (fun x => (title (movie x), fmt (score x))) topN))
                    s
              end
          end
      end
  | _, _ => s
  end.

End WithMath.

End Content.

(** * [Week2]: the first content-based recommender

    [src/week2/script.js] with [src/week2/data.js]: genre sets instead of
    genre vectors, one metric, two recommendations. *)

Module Week2.

Local Open Scope string_scope.

(** The constant of [parseItemData]. *)
Definition GENRES_18 : list string :=
  ["Action"; "Adventure"; "Animation"; "Children's"; "Comedy"; "Crime";
   "Documentary"; "Drama"; "Fantasy"; "Film-Noir"; "Horror"; "Musical";
   "Mystery"; "Romance"; "Sci-Fi"; "Thriller"; "War"; "Western"].

(** One turn of the flag loop of [parseItemData], for [i] from 0 to 18:
    a field that is the string ['1'] at a position after the first pushes
    the genre name of the position before. *)
Definition pushGenre (parts : list string) (flagsStartIndex : nat)
    (genres : list string) (i : nat) : list string :=
  match nth_error parts (flagsStartIndex + i) with
  | Some flag =>
      if String.eqb flag "1" then
        if (0 <? i)%nat then
          match nth_error GENRES_18 (i - 1) with
          | Some gName =>
              if negb (String.eqb gName "") then genres ++ [gName] else genres
          | None => genres
          end
        else genres
      else genres
  | None => genres                       (* [undefined === '1'] is false *)
  end.

(** The genres [parseItemData] reads off the fields [parts] of one line
    ([line.split('|')]); [None] when the line is skipped for having fewer
    than 19 fields. *)
Definition genresOf (parts : list string) : option (list string) :=
  let flagsStartIndex := (Z.of_nat (length parts) - 19)%Z in
  if (flagsStartIndex <? 0)%Z then None
  else
    Some (fold_left (pushGenre parts (Z.to_nat flagsStartIndex)) (seq 0 19) []).

Local Close Scope string_scope.

(** [new Set(xs)], its elements in the order a [for ... of] visits them:
    the order of first insertion. *)
Fixpoint setOf (xs : list string) : list string :=
  match xs with
  | [] => []
  | x :: rest => x :: filter (fun y => negb (String.eqb y x)) (setOf rest)
  end.

(** [set.has(g)] *)
Definition has (set : list string) (g : string) : bool :=
  existsb (String.eqb g) set.

Record Movie := mkMovie { id : Z; title : string; genres : list string }.

Record Rating := mkRating { userId : Z; itemId : Z; rating : Z; timestamp : Z }.

(** A candidate with its score (the object [{ ...cand, score }]). *)
Record Scored := mkScored { movie : Movie; score : Q }.

(** The score the callback of [candidateMovies.map] computes from the two
    sets. The quotient is exact. *)
Definition jaccard (likedSet candSet : list string) : Q :=
  let intersectCount := Z.of_nat (length (filter (has candSet) likedSet)) in
  let unionSize :=
    Z.of_nat (length likedSet) + Z.of_nat (length candSet) - intersectCount in
  if unionSize =? 0 then 0%Q
  else (inject_Z intersectCount / inject_Z unionSize)%Q.

(** The value of [#movie-select]: the empty string, or a string with what
    [Number.parseInt(value, 10)] makes of it. *)
Inductive SelectValue :=
| Empty
| Value (parsed : option Z).

Inductive ResultText :=
| Text (s : string)
| LoadingData                       (* 'Loading data...', with an ellipsis sign *)
| LoadError (message : string)      (* `Error loading data: ${err.message}` *)
| NoSimilar (likedTitle : string)
    (* `We couldn't find any similar titles to "${likedMovie.title}". Try another movie.` *)
| Recommend (likedTitle : string) (recTitles : list string).
    (* `Because you liked "${likedMovie.title}", we recommend: ${recTitles}`,
       the titles joined by ', ' *)

(** The globals [movies] and [ratings] and the two elements of the page.
    [movieSelect] holds the value the select reports. Its markup is not
    among the sources: [listBox] says whether it has the [multiple]
    attribute or a [size] above 1. *)
Record State := mkState {
  movies : list Movie;
  ratings : list Rating;
  movieSelect : option SelectValue;      (* [None]: no element #movie-select *)
  listBox : bool;
  movieOptions : list (Z * string);      (* its options: value and text *)
  result : option ResultText             (* [None]: no element #result *)
}.

Definition set_movies (ms : list Movie) (s : State) : State :=
  mkState ms (ratings s) (movieSelect s) (listBox s) (movieOptions s) (result s).

Definition set_ratings (rs : list Rating) (s : State) : State :=
  mkState (movies s) rs (movieSelect s) (listBox s) (movieOptions s) (result s).

(** The value a select reports once its options have been replaced and
    before the visitor picks one: a drop-down chooses its first option, a
    list box none. *)
Definition chosenAfterFill (listBox : bool) (os : list (Z * string))
  : SelectValue :=
  if listBox then Empty
  else
    match os with
    | [] => Empty
    | (id, _) :: _ => Value (Some id)
    end.

(** [select.innerHTML = ''] followed by [select.appendChild(opt)] for each
    option. *)
Definition set_movieOptions (os : list (Z * string)) (s : State) : State :=
  mkState (movies s) (ratings s)
    (option_map (fun _ => chosenAfterFill (listBox s) os) (movieSelect s))
    (listBox s) os (result s).

(** [if (el) el.innerText = r] *)
Definition set_result (r : ResultText) (s : State) : State :=
  match result s with
  | Some _ =>
      mkState (movies s) (ratings s) (movieSelect s) (listBox s)
        (movieOptions s) (Some r)
  | None => s
  end.

Local Open Scope js_scope.

(** [loadData()], from what fetching and parsing each of the two files
    gave (or the error that threw): [movies] is assigned before [u.data] is
    fetched; an error is shown in [#result] and thrown again. *)
Definition loadData (item : completion (list Movie))
    (data : completion (list Rating)) : Js State unit :=
  tryCatch
    (ms <- liftC item ;;
     modify (set_movies ms) ;;
     rs <- liftC data ;;
     modify (set_ratings rs))
    (fun err =>
       modify (set_result (LoadError (message err))) ;;
       throw err).

(** [populateMoviesDropdown()]; [localeCompare] is the browser's. *)
Definition populateMoviesDropdown (localeCompare : string -> string -> Z)
  : Js State unit :=
  s <- get ;;
  match movieSelect s with
  | None => ret tt
  | Some _ =>
      let sorted :=
        sortBy (fun a b => localeCompare (title a) (title b)) (movies s) in
      modify (set_movieOptions (map (fun m => (id m, title m)) sorted))
  end.

(** [window.onload] *)
Definition onload (item : completion (list Movie))
    (data : completion (list Rating))
    (localeCompare : string -> string -> Z) : Js State unit :=
  modify (set_result LoadingData) ;;
  tryCatch
    (loadData item data ;;
     populateMoviesDropdown localeCompare ;;
     modify (set_result (Text "Data loaded. Please select a movie.")))
    (fun _ => ret tt).

Local Close Scope js_scope.

Section WithLocale.
Variable localeCompare : string -> string -> Z.

(** The comparison handed to [scoredMovies.sort]. *)
Definition byScoreThenTitle (a b : Scored) : Z :=
  if negb (Qeq_bool (score b) (score a))
  then (if Qle_bool (score b) (score a) then -1 else 1)   (* the sign of b.score - a.score *)
  else localeCompare (title (movie a)) (title (movie b)).

(** The scored and sorted candidates of [getRecommendations]. *)
Definition scoredCandidates (s : State) (likedMovie : Movie) : list Scored :=
  let likedSet := setOf (genres likedMovie) in
  let candidateMovies :=
    filter (fun m => negb (id m =? id likedMovie)) (movies s) in
  let scoredMovies :=
    map (fun cand => mkScored cand (jaccard likedSet (setOf (genres cand))))
        candidateMovies in
  sortBy byScoreThenTitle scoredMovies.

(** [getRecommendations()] *)
Definition getRecommendations (s : State) : State :=
  match movieSelect s, result s with
  | Some selectedVal, Some _ =>
      match selectedVal with
      | Empty => set_result (Text "Please choose a movie first.") s
      | Value selectedId =>
          match
            match selectedId with
            | Some n => find (fun m => id m =? n) (movies s)
            | None => None                      (* [m.id === NaN] never holds *)
            end
          with
          | None =>
              set_result
                (Text "Selected movie was not found. Please try another.") s
          | Some likedMovie =>
              let topN := firstn 2 (scoredCandidates s likedMovie) in
              match topN with
              | [] => set_result (NoSimilar (title likedMovie)) s
              | _ =>
                  set_result
                    (Recommend (title likedMovie)
                       (map (fun x => title (movie x)) topN))
                    s
              end
          end
      end
  | _, _ => s
  end.

End WithLocale.

End Week2.

(** ** A small data set, run on the reference backend *)

Module Scenario.

Definition movies : list Part000.Movie :=
  [Part000.mkMovie 1 "Toy Story (1995)"; Part000.mkMovie 2 "GoldenEye (1995)"].

(** Three users (1, 2, 3) rating two movies. *)
Definition ratings : list Rating :=
  [mkRating 1 1 5; mkRating 2 1 3; mkRating 3 2 4; mkRating 1 2 1].

(** Two users whose raw ids are 1 and 7: [numUsers] counts 2, so the user
    table has rows 0..2 and id 7 has none. *)
Definition sparseRatings : list Rating :=
  [mkRating 1 1 5; mkRating 7 2 3].

(** Code-point order, standing in for the browser's locale order. *)
Definition byTitle (a b : string) : Z :=
  match String.compare a b with Lt => -1 | Eq => 0 | Gt => 1 end.

Definition page : Part000.State :=
  Part000.freshPage (Part000.Text "Loading...") true 1000.

(** [window.onload] up to the call of [trainModel]. *)
Definition loadedWith (rs : list Rating) : Part000.State :=
  snd (bind (Part000.loadData (Normal (movies, rs))) (fun _ =>
       bind Part000.populateUserDropdown (fun _ =>
       bind (Part000.populateMovieDropdown byTitle) (fun _ =>
       Part000.updateResult
         (Part000.Text "Data loaded! Starting model training..."))))
         page).

Definition dataLoaded : Part000.State := loadedWith ratings.

Definition sparseLoaded : Part000.State := loadedWith sparseRatings.

(** The page while [await model.fit(...)] is pending. *)
Definition awaitingFit : Part000.State := snd (Part000.trainSetup dataLoaded).

(** The page after [window.onload] ran to its end. *)
Definition ready : Part000.State :=
  snd (Part000.onload (Normal (movies, ratings)) byTitle page).

(** The same with the sparse ratings: training fails at the lookup of 7. *)
Definition failed : Part000.State :=
  snd (Part000.onload (Normal (movies, sparseRatings)) byTitle page).

(** The same two movies as lines of [u.item] for [week3], and the page of
    [week3] once [window.onload] has run. *)
Definition week3Items : list (Week3.Key * option string) :=
  [(Some 1, Some "Toy Story (1995)"%string);
   (Some 2, Some "GoldenEye (1995)"%string)].

Definition week3Opened : Week3.State :=
  snd (Week3.onload week3Items ratings (Week3.freshPage (Week3.Text ""))).

Definition noModel : LayersModel := mkModel [] [] None None.

(** The models those pages hold. *)
Definition readyModel : LayersModel :=
  Eval vm_compute in
    match Part000.model ready with Some m => m | None => noModel end.

Definition failedModel : LayersModel :=
  Eval vm_compute in
    match Part000.model failed with Some m => m | None => noModel end.

(** A catalogue for the content-based page of [part_001], with the
    Jaccard radio button checked and the first movie selected. *)
Definition catalogue : list Content.Movie :=
  [Content.mkMovie 1 "Toy Story (1995)" ["Animation"; "Children's"; "Comedy"];
   Content.mkMovie 2 "GoldenEye (1995)" ["Action"; "Adventure"; "Thriller"];
   Content.mkMovie 3 "Four Rooms (1995)" ["Thriller"];
   Content.mkMovie 4 "Get Shorty (1995)" ["Action"; "Comedy"; "Drama"];
   Content.mkMovie 5 "Babe (1995)" ["Children's"; "Comedy"; "Drama"];
   Content.mkMovie 6 "Aladdin (1992)" ["Animation"; "Children's"; "Comedy"; "Musical"];
   Content.mkMovie 7 "Mighty Aphrodite (1995)" ["Comedy"];
   Content.mkMovie 8 "Copycat (1995)" ["Crime"; "Drama"; "Thriller"]]%string.

Definition likedMovie : Content.Movie :=
  Content.mkMovie 1 "Toy Story (1995)" ["Animation"; "Children's"; "Comedy"]%string.

Definition contentPage : Content.State :=
  Content.mkState catalogue (Some (Content.Value (Some 1)))
    (Some (Content.Text "")) (Some "jaccard"%string).

(** The page of [week2] over the same catalogue, its first movie selected. *)
Definition week2Catalogue : list Week2.Movie :=
  map (fun m => Week2.mkMovie (Content.id m) (Content.title m) (Content.genres m))
      catalogue.

Definition week2Liked : Week2.Movie :=
  Week2.mkMovie 1 "Toy Story (1995)" ["Animation"; "Children's"; "Comedy"]%string.

Definition week2Page : Week2.State :=
  Week2.mkState week2Catalogue [] (Some (Week2.Value (Some 1))) false []
    (Some (Week2.Text "")).

(** The fields of the line of [u.item] for Toy Story. *)
Definition toyStoryFields : list string :=
  ["1"; "Toy Story (1995)"; "01-Jan-1995"; "";
   "http://us.imdb.com/M/title-exact?Toy%20Story%20(1995)";
   "0"; "0"; "0"; "1"; "1"; "1"; "0"; "0"; "0"; "0"; "0"; "0"; "0"; "0";
   "0"; "0"; "0"; "0"; "0"]%string.

End Scenario.

(** * Properties *)

(** ** Clamping and rounding *)

(** The clamp of [predictRating] on each kind of number. *)
Lemma clamp_Fin (q : Q) :
  Math_min (Math_max (Fin q) (Fin 1)) (Fin 5) = Fin (Qmin (Qmax q 1) 5).
Proof. reflexivity. Qed.

Lemma clamp_NaN : Math_min (Math_max NaN (Fin 1)) (Fin 5) = NaN.
Proof. reflexivity. Qed.


Lemma clamp_range (r : Q) :
  (1 <= Qmin (Qmax r 1) 5)%Q /\ (Qmin (Qmax r 1) 5 <= 5)%Q.
Proof.
  split.
  - apply Q.min_glb; [apply Q.le_max_r | discriminate].
  - apply Q.le_min_r.
Qed.




Lemma toFixed2_range (x : Q) :
  (1 <= x)%Q -> (x <= 5)%Q ->
  exists n, toFixed2 (Fin x) = Digits false n /\ 100 <= n <= 500.
Proof.
  intros H1 H5. unfold toFixed2, toFixed.
  assert (P0 : (0 <= x)%Q)
    by (apply Qle_trans with 1%Q; [discriminate | exact H1]).
  assert (H0 : Qle_bool 0 x = true) by (apply Qle_bool_iff; exact P0).
  assert (Ha : (Qabs x == x)%Q) by (apply Qabs_pos; exact P0).
  assert (Hbig : Qle_bool (inject_Z (10 ^ 21)) (Qabs x) = false).
  { destruct (Qle_bool (inject_Z (10 ^ 21)) (Qabs x)) eqn:E; [|reflexivity].
    apply Qle_bool_iff in E. rewrite Ha in E.
    exfalso. apply (Qle_not_lt _ _ (Qle_trans _ _ _ E H5)). reflexivity. }
  rewrite Hbig, H0. eexists. split; [reflexivity|].
  change (inject_Z (10 ^ Z.of_nat 2)) with 100%Q.
  assert (E : (Qabs x * 100 + (1 # 2) == x * 100 + (1 # 2))%Q)
    by (rewrite Ha; reflexivity).
  rewrite (Qfloor_comp _ _ E).
  split.
  - change 100 with (Qfloor (inject_Z 100)).
    apply Qfloor_resp_le.
    apply Qle_trans with (1 * 100 + 0)%Q; [discriminate|].
    apply Qplus_le_compat; [|discriminate].
    apply Qmult_le_compat_r; [exact H1 | discriminate].
  - change 500 with (Qfloor (5 * 100 + (1 # 2))%Q).
    apply Qfloor_resp_le.
    apply Qplus_le_compat; [|apply Qle_refl].
    apply Qmult_le_compat_r; [exact H5 | discriminate].
Qed.

Lemma displayRating_range (r : Q) :
  exists n,
    toFixed2 (Math_min (Math_max (Fin r) (Fin 1)) (Fin 5)) = Digits false n /\
    100 <= n <= 500.
Proof. rewrite clamp_Fin. apply toFixed2_range; apply clamp_range. Qed.

(** ** Arrays: what [uniq] and [sortBy] keep *)

Lemma uniq_In (xs : list Z) (v : Z) : In v (uniq xs) <-> In v xs.
Proof.
  induction xs as [|x rest IH]; simpl; [tauto|].
  rewrite filter_In, IH. split.
  - intros [H | [H _]]; auto.
  - intros [H | H]; [left; exact H|].
    destruct (Z.eq_dec x v) as [->|N]; [left; reflexivity|].
    right. split; [exact H|].
    apply negb_true_iff. apply Z.eqb_neq. congruence.
Qed.

Lemma insertBy_Permutation {A} (compare : A -> A -> Z) (x : A) (l : list A) :
  Permutation (insertBy compare x l) (x :: l).
Proof.
  induction l as [|y rest IH]; simpl; [reflexivity|].
  destruct (compare x y <=? 0); [reflexivity|].
  rewrite IH. apply perm_swap.
Qed.

Lemma sortBy_Permutation {A} (compare : A -> A -> Z) (l : list A) :
  Permutation (sortBy compare l) l.
Proof.
  unfold sortBy. induction l as [|x rest IH]; simpl; [reflexivity|].
  rewrite insertBy_Permutation. constructor. exact IH.
Qed.

(** ** Tables *)

Lemma rowsOf_shape (t t' : Table) : shape t' = shape t -> rowsOf t' = rowsOf t.
Proof.
  unfold shape, rowsOf. intros E. f_equal.
  apply (f_equal (@length nat)) in E. rewrite !length_map in E. exact E.
Qed.

Lemma sameShape_rows (m m' : LayersModel) :
  sameShape m m' ->
  rowsOf (userEmbedding m') = rowsOf (userEmbedding m) /\
  rowsOf (movieEmbedding m') = rowsOf (movieEmbedding m).
Proof. intros [Hu Hm]. split; apply rowsOf_shape; assumption. Qed.

Lemma modelPredict_in_range `{TfBackend} (m : LayersModel) (u mv : Z) :
  0 <= u < rowsOf (userEmbedding m) ->
  0 <= mv < rowsOf (movieEmbedding m) ->
  modelPredict m u mv =
    Normal (dot (nth (Z.to_nat u) (userEmbedding m) [])
                (nth (Z.to_nat mv) (movieEmbedding m) [])).
Proof.
  intros Hu Hm. unfold modelPredict.
  rewrite (gather_ok _ _ Hu), (gather_ok _ _ Hm). reflexivity.
Qed.


(** ** [predictRating] of [part_000], path by path *)

Section Part000Predict.
Context {tf : TfBackend}.
Import Part000.

Lemma js_not_false (x : option Z) :
  js_not x = false -> exists n, x = Some n /\ n <> 0.
Proof.
  destruct x as [n|]; simpl; [|discriminate].
  intros E. exists n. split; [reflexivity|]. apply Z.eqb_neq. exact E.
Qed.

Lemma js_not_nonzero (n : Z) : n <> 0 -> js_not (Some n) = false.
Proof. intros Hn. simpl. apply Z.eqb_neq. exact Hn. Qed.

Lemma predictRating_no_model (st : State) :
  model st = None ->
  predictRating st =
    (Normal tt,
     set_result
       (Text "Model is not ready yet. Please wait for training to complete.") st).
Proof.
  intros E. unfold predictRating, bind, get, updateResult, modify. simpl.
  rewrite E. reflexivity.
Qed.

Lemma predictRating_unselected (st : State) (m : LayersModel) :
  model st = Some m ->
  js_not (userSelect st) || js_not (movieSelect st) = true ->
  predictRating st =
    (Normal tt, set_result (Text "Please select both a user and a movie.") st).
Proof.
  intros E F. unfold predictRating, bind, get, tryCatch, updateResult, modify.
  simpl. rewrite E, F. reflexivity.
Qed.

Lemma predictRating_predicts (st : State) (m : LayersModel) (u mv : Z)
    (r : Number) :
  model st = Some m ->
  userSelect st = Some u -> movieSelect st = Some mv ->
  u <> 0 -> mv <> 0 ->
  modelPredict m u mv = Normal r ->
  let shown := toFixed2 (Math_min (Math_max r (Fin 1)) (Fin 5)) in
  predictRating st =
    (Normal tt,
     set_console (console st ++ [logPrediction u mv shown])
       (set_result (Predicted u (titleOf st mv) shown) st)).
Proof.
  intros E Eu Em Hu Hm P shown.
  unfold predictRating, bind, get, tryCatch, updateResult, console_log,
    modify, liftC, ret. simpl.
  rewrite E, Eu, Em, (js_not_nonzero u Hu), (js_not_nonzero mv Hm). simpl.
  rewrite P. reflexivity.
Qed.

Lemma predictRating_lookup_throws (st : State) (m : LayersModel) (u mv : Z)
    (e : Error) :
  model st = Some m ->
  userSelect st = Some u -> movieSelect st = Some mv ->
  u <> 0 -> mv <> 0 ->
  modelPredict m u mv = Throw e ->
  predictRating st =
    (Normal tt,
     set_result (PredictionFailed (message e))
       (set_console (console st ++ [error "Prediction error:" e])
          (set_result (Predicting u (titleOf st mv)) st))).
Proof.
  intros E Eu Em Hu Hm P.
  unfold predictRating, bind, get, tryCatch, updateResult, console_log,
    modify, liftC, ret. simpl.
  rewrite E, Eu, Em, (js_not_nonzero u Hu), (js_not_nonzero mv Hm). simpl.
  rewrite P. reflexivity.
Qed.

(** [predictRating] never throws and never touches the model, the flag or
    the data. *)
Lemma predictRating_frame (st : State) :
  fst (predictRating st) = Normal tt /\
  model (snd (predictRating st)) = model st /\
  isTraining (snd (predictRating st)) = isTraining st /\
  numUsers (snd (predictRating st)) = numUsers st /\
  numMovies (snd (predictRating st)) = numMovies st.
Proof.
  destruct (model st) as [m|] eqn:E.
  2:{ rewrite (predictRating_no_model st E). simpl. auto. }
  destruct (js_not (userSelect st) || js_not (movieSelect st)) eqn:F.
  { rewrite (predictRating_unselected st m E F). simpl. auto. }
  apply orb_false_elim in F. destruct F as [Fu Fm].
  destruct (js_not_false _ Fu) as (u & Eu & Hu).
  destruct (js_not_false _ Fm) as (mv & Em & Hm).
  destruct (modelPredict m u mv) as [r|e] eqn:P.
  - rewrite (predictRating_predicts st m u mv r E Eu Em Hu Hm P). simpl. auto.
  - rewrite (predictRating_lookup_throws st m u mv e E Eu Em Hu Hm P). simpl. auto.
Qed.

End Part000Predict.

(** ** [createModel] and [trainModel] of [part_000], path by path *)

Section Part000Train.
Context {tf : TfBackend}.
Import Part000.

Lemma createModel_run (nu nm d : Z) (st : State) :
  createModel nu nm (Some d) st =
    match embedding (nu + 1) d with
    | Throw e => (Throw e, logged [logCreating nu nm d] st)
    | Normal userTable =>
        match embedding (nm + 1) d with
        | Throw e => (Throw e, logged [logCreating nu nm d] st)
        | Normal movieTable =>
            (Normal (mkModel userTable movieTable None None),
             logged [log "Model architecture created successfully"]
               (logged [logCreating nu nm d] st))
        end
    end.
Proof.
  unfold createModel, bind, console_log, modify, liftC, ret, logged. simpl.
  destruct (embedding (nu + 1) d); [|reflexivity].
  destruct (embedding (nm + 1) d); reflexivity.
Qed.

Lemma onEpochEnd_run (epoch : Z) (l : Logs) (st : State) :
  onEpochEnd epoch l st =
    match logs_loss l with
    | None =>
        (Throw (mkError "Cannot read properties of undefined (reading 'toFixed')"),
         st)
    | Some loss =>
        (Normal tt,
         logged [logEpoch (epoch + 1) loss]
           (set_result (TrainingEpoch (epoch + 1) (toFixed 4 loss)) st))
    end.
Proof. unfold onEpochEnd. destruct (logs_loss l); reflexivity. Qed.

(** Whether the callbacks complete or one of them throws, they write
    nothing but the result text and the console. *)
Lemma onEpochEnd_frame (logs : list Logs) :
  forall (i : Z) (st : State),
    sameData st (snd (forEachFrom i logs onEpochEnd st)) /\
    model (snd (forEachFrom i logs onEpochEnd st)) = model st /\
    isTraining (snd (forEachFrom i logs onEpochEnd st)) = isTraining st /\
    trainingStartTime (snd (forEachFrom i logs onEpochEnd st)) = trainingStartTime st /\
    predictBtnDisabled (snd (forEachFrom i logs onEpochEnd st)) = predictBtnDisabled st.
Proof.
  induction logs as [|l logs IH]; intros i st.
  - simpl. unfold sameData. auto 10.
  - simpl forEachFrom. unfold bind at 1 2 3 4 5.
    rewrite onEpochEnd_run.
    destruct (logs_loss l) as [loss|].
    + destruct (IH (i + 1)
                  (logged [logEpoch (i + 1) loss]
                     (set_result (TrainingEpoch (i + 1) (toFixed 4 loss)) st)))
        as (H2 & H3 & H4 & H5 & H6).
      unfold sameData in *. simpl in *. intuition congruence.
    + simpl. unfold sameData. auto 10.
Qed.

Lemma trainSetup_run (st : State) :
  trainSetup st =
    match createModel (numUsers st) (numMovies st) (Some 15) (entered st) with
    | (Throw e, s1) => (Throw e, s1)
    | (Normal m0, s1) =>
        let m := compile (Adam (1 # 1000)%Q) MeanSquaredError m0 in
        (Normal (m, (map userId (ratings st), map movieId (ratings st),
                     map rating (ratings st))),
         atAwait m st s1)
    end.
Proof.
  unfold trainSetup, entered, atAwait, logged.
  unfold bind at 1. unfold modify at 1. simpl.
  unfold bind at 1. unfold get at 1. simpl.
  unfold bind at 1. unfold modify at 1. simpl.
  unfold bind at 1. unfold updateResult at 1. unfold modify at 1. simpl.
  unfold bind at 1.
  destruct (createModel _ _ _ _) as [[m0|e] s1]; reflexivity.
Qed.

Lemma trainBody_run (st : State) :
  trainBody st =
    match trainSetup st with
    | (Throw e, s1) => (Throw e, s1)
    | (Normal (m, (us, ms, ys)), s1) =>
        let out := fit m us ms ys fitArgs in
        match forEachFrom 0 (epochLogs out) onEpochEnd
                (set_model (Some (trained out)) s1) with
        | (Throw e, s2) => (Throw e, s2)
        | (Normal _, s2) =>
            match failure out with
            | Some e => (Throw e, s2)
            | None =>
                (Normal tt,
                 set_result Trained
                   (set_predictBtnDisabled false (logged [logCompleted] s2)))
            end
        end
    end.
Proof.
  unfold trainBody. unfold bind at 1.
  destruct (trainSetup st) as [[[m [[us ms] ys]]|e] s1]; [|reflexivity].
  simpl fst. simpl snd. unfold bind at 1. unfold trainFit.
  unfold bind at 1. unfold modify at 1.
  unfold bind at 1. cbv zeta.
  destruct (forEachFrom 0 _ onEpochEnd _) as [[[]|e] s2]; [|reflexivity].
  destruct (failure (fit m us ms ys fitArgs)); reflexivity.
Qed.

Lemma trainModel_busy (st : State) :
  isTraining st = true ->
  trainModel st =
    (Normal tt, logged [log "Model training already in progress"] st).
Proof.
  intros E. unfold trainModel, bind, get, console_log, modify. simpl.
  rewrite E. reflexivity.
Qed.

Lemma trainModel_run (st : State) :
  isTraining st = false ->
  trainModel st =
    match trainBody st with
    | (Normal _, s') => (Normal tt, set_isTraining false s')
    | (Throw e, s') =>
        (Normal tt,
         set_isTraining false
           (set_result (TrainingFailed (message e))
              (logged [error "Training error:" e] s')))
    end.
Proof.
  intros E. unfold trainModel. unfold bind at 1. unfold get at 1. simpl.
  rewrite E. unfold tryFinally, tryCatch, trainCatch.
  destruct (trainBody st) as [[[]|e] s']; reflexivity.
Qed.

Lemma populateUserDropdown_options (st : Part000.State) :
  Part000.userOptions (snd (Part000.populateUserDropdown st)) =
    sortBy (fun a b => a - b) (uniq (map userId (Part000.ratings st))).
Proof. reflexivity. Qed.

Lemma populateMovieDropdown_options (cmp : string -> string -> Z)
    (st : Part000.State) :
  Part000.movieOptions (snd (Part000.populateMovieDropdown cmp st)) =
    map (fun m => (Part000.id m, Part000.title m))
      (sortBy (fun a b => cmp (Part000.title a) (Part000.title b))
         (Part000.movies st)).
Proof. reflexivity. Qed.

End Part000Train.

(** ** The table-size invariant of [part_000] *)

Section Part000Invariant.
Context {tf : TfBackend}.
Import Part000.

Lemma createModel_rows (nu nm : Z) (d : option Z) (st s1 : State) (m : LayersModel) :
  createModel nu nm d st = (Normal m, s1) ->
  let dim := match d with Some d => d | None => 10 end in
  rowsOf (userEmbedding m) = nu + 1 /\
  rowsOf (movieEmbedding m) = nm + 1 /\
  Forall (fun row => Z.of_nat (length row) = dim) (userEmbedding m) /\
  Forall (fun row => Z.of_nat (length row) = dim) (movieEmbedding m) /\
  sameData st s1 /\ model s1 = model st /\
  predictBtnDisabled s1 = predictBtnDisabled st.
Proof.
  intros E dim.
  assert (E' : createModel nu nm (Some dim) st = (Normal m, s1)).
  { destruct d; exact E. }
  rewrite createModel_run in E'.
  destruct (embedding (nu + 1) dim) as [ut|] eqn:Eu; [|discriminate].
  destruct (embedding (nm + 1) dim) as [mt|] eqn:Em; [|discriminate].
  injection E' as <- <-. simpl.
  destruct (embedding_shape _ _ _ Eu) as [Hu1 Hu2].
  destruct (embedding_shape _ _ _ Em) as [Hm1 Hm2].
  unfold sameData. simpl. auto 10.
Qed.

Lemma trainBody_outcome (st : State) :
  sameData st (snd (trainBody st)) /\
  ((isThrow (fst (trainBody st)) = true /\
    model (snd (trainBody st)) = model st /\
    predictBtnDisabled (snd (trainBody st)) = predictBtnDisabled st)
   \/
   (exists m, model (snd (trainBody st)) = Some m /\
      rowsOf (userEmbedding m) = numUsers st + 1 /\
      rowsOf (movieEmbedding m) = numMovies st + 1 /\
      compiledForTraining m /\
      (fst (trainBody st) = Normal tt ->
         result (snd (trainBody st)) = Trained /\
         predictBtnDisabled (snd (trainBody st)) = false) /\
      (isThrow (fst (trainBody st)) = true ->
         predictBtnDisabled (snd (trainBody st)) = predictBtnDisabled st))).
Proof.
  rewrite trainBody_run, trainSetup_run.
  destruct (createModel (numUsers st) (numMovies st) (Some 15) (entered st))
    as [[m0|e] s1] eqn:EC.
  - destruct (createModel_rows _ _ _ _ _ _ EC) as (Hu & Hm & _ & _ & HD & HM & HB).
    cbv beta iota zeta.
    set (m := compile (Adam (1 # 1000)%Q) MeanSquaredError m0).
    set (out := fit m (map userId (ratings st)) (map movieId (ratings st))
                  (map rating (ratings st)) fitArgs).
    pose proof (onEpochEnd_frame (epochLogs out) 0
                  (set_model (Some (trained out)) (atAwait m st s1))) as F.
    destruct (forEachFrom 0 (epochLogs out) onEpochEnd
                (set_model (Some (trained out)) (atAwait m st s1))) as [c s2].
    cbn [snd] in F.
    destruct F as (HD2 & HM2 & _ & _ & HB2).
    destruct (sameShape_rows m (trained out) (fit_shape _ _ _ _ _)) as [Ru Rm].
    destruct (fit_compiled m (map userId (ratings st)) (map movieId (ratings st))
                (map rating (ratings st)) fitArgs) as [Co Cl].
    fold out in Co, Cl.
    unfold sameData in HD, HD2. simpl in HD, HD2, HM2, HB2, HB.
    assert (HDall : sameData st s2) by (unfold sameData; intuition congruence).
    assert (HBtn : predictBtnDisabled s2 = predictBtnDisabled st) by congruence.
    assert (Hrows : rowsOf (userEmbedding (trained out)) = numUsers st + 1 /\
                    rowsOf (movieEmbedding (trained out)) = numMovies st + 1).
    { rewrite Ru, Rm. split; assumption. }
    assert (Hcomp : compiledForTraining (trained out)).
    { unfold compiledForTraining. rewrite Co, Cl. split; reflexivity. }
    destruct Hrows as [Hru Hrm].
    destruct c as [[]|e']; [destruct (failure out) as [e|]|];
      cbn [fst snd isThrow].
    + split; [exact HDall|]. right. exists (trained out).
      repeat split; try assumption; try discriminate.
      intros _. exact HBtn.
    + split; [exact HDall|]. right. exists (trained out).
      simpl. repeat split; try assumption; discriminate.
    + split; [exact HDall|]. right. exists (trained out).
      repeat split; try assumption; try discriminate.
      intros _. exact HBtn.
  - simpl. rewrite createModel_run in EC.
    assert (s1 = logged [logCreating (numUsers st) (numMovies st) 15] (entered st)).
    { destruct (embedding (numUsers st + 1) 15).
      - destruct (embedding (numMovies st + 1) 15); [discriminate|].
        injection EC as _ <-. reflexivity.
      - injection EC as _ <-. reflexivity. }
    subst s1. unfold sameData. simpl. auto 10.
Qed.

Lemma trainModel_completes (st : State) : fst (trainModel st) = Normal tt.
Proof.
  destruct (isTraining st) eqn:E.
  - rewrite (trainModel_busy st E). reflexivity.
  - rewrite (trainModel_run st E).
    destruct (trainBody st) as [[[]|e] s']; reflexivity.
Qed.

Lemma trainModel_sameData (st : State) : sameData st (snd (trainModel st)).
Proof.
  destruct (isTraining st) eqn:E.
  - rewrite (trainModel_busy st E). unfold sameData. simpl. auto.
  - rewrite (trainModel_run st E).
    destruct (trainBody_outcome st) as [HD _].
    destruct (trainBody st) as [[[]|e] s']; exact HD.
Qed.

Lemma trainModel_keeps_tablesFit (st : State) :
  tablesFit st -> tablesFit (snd (trainModel st)).
Proof.
  intros Inv.
  destruct (isTraining st) eqn:E.
  - rewrite (trainModel_busy st E). exact Inv.
  - rewrite (trainModel_run st E).
    destruct (trainBody_outcome st) as [HD HM].
    destruct HD as (_ & _ & Hnu & Hnm).
    destruct (trainBody st) as [[[]|e] s']; cbn [fst snd] in *;
      intros m' Em'; simpl in Em' |- *; rewrite Hnu, Hnm;
      (destruct HM as [(_ & HM & _) | (m & HM & Hu & Hm & _)];
       rewrite HM in Em';
       [ apply Inv; exact Em' | injection Em' as <-; split; assumption ]).
Qed.


(** At the [await] the flag is set and the model is already assigned. *)
Lemma trainSetup_assigns_model (st s1 : State) (m : LayersModel)
    (data : list Z * list Z * list Q) :
  trainSetup st = (Normal (m, data), s1) ->
  isTraining s1 = true /\ model s1 = Some m.
Proof.
  intros H. rewrite trainSetup_run in H.
  destruct (createModel (numUsers st) (numMovies st) (Some 15) (entered st))
    as [[m0|e] s0] eqn:EC; [|discriminate H].
  cbv zeta in H. injection H as <- _ <-.
  rewrite createModel_run in EC.
  destruct (embedding (numUsers st + 1) 15); [|discriminate EC].
  destruct (embedding (numMovies st + 1) 15); [|discriminate EC].
  injection EC as _ <-. split; reflexivity.
Qed.

Lemma predictRating_keeps_tablesFit (st : State) :
  tablesFit st -> tablesFit (snd (predictRating st)).
Proof.
  intros Inv m Em.
  destruct (predictRating_frame st) as (_ & HM & _ & Hnu & Hnm).
  rewrite HM in Em. rewrite Hnu, Hnm. apply Inv. exact Em.
Qed.

End Part000Invariant.

(** ** The [week3] variant, path by path *)

Section Week3Facts.
Context {tf : TfBackend}.

Lemma toInt32_small (n : Z) :
  - 2 ^ 31 <= n < 2 ^ 31 -> Week3.toInt32 (Some n) = n.
Proof.
  intros H. unfold Week3.toInt32.
  rewrite Z.mod_small; lia.
Qed.

Lemma week3_createModel_run (nu nm : Z) (d : option Z) (st : Week3.State) :
  Week3.createModel nu nm d st =
    let dim := match d with Some d => d | None => 20 end in
    match embedding nu dim with
    | Throw e => (Throw e, st)
    | Normal userTable =>
        match embedding nm dim with
        | Throw e => (Throw e, st)
        | Normal movieTable =>
            match flatten 2 with
            | Throw e => (Throw e, st)
            | Normal _ => (Normal (mkModel userTable movieTable None None), st)
            end
        end
    end.
Proof.
  unfold Week3.createModel, bind, liftC, ret. cbv zeta.
  destruct (embedding nu _); [|reflexivity].
  destruct (embedding nm _); reflexivity.
Qed.

(** [createModel] of [week3] throws whatever its arguments are, and
    writes nothing. *)
Lemma week3_createModel_throws (nu nm : Z) (d : option Z) (st : Week3.State) :
  exists e, Week3.createModel nu nm d st = (Throw e, st).
Proof.
  rewrite week3_createModel_run. cbv zeta.
  destruct (embedding nu _); [|eauto].
  destruct (embedding nm _); [|eauto].
  simpl. eauto.
Qed.


Lemma week3_predictRating_throws (st : Week3.State) (m : LayersModel) (e : Error) :
  Week3.model st = Some m ->
  modelPredict m (Week3.toInt32 (Week3.userSelect st))
                 (Week3.toInt32 (Week3.movieSelect st)) = Throw e ->
  Week3.predictRating st = (Throw e, st).
Proof.
  intros E P. unfold Week3.predictRating, bind, get, liftC, modify. simpl.
  rewrite E, P. reflexivity.
Qed.

Lemma week3_predictRating_no_model (st : Week3.State) :
  Week3.model st = None ->
  Week3.predictRating st =
    (Throw (mkError "Cannot read properties of undefined (reading 'predict')"),
     st).
Proof.
  intros E. unfold Week3.predictRating, bind, get, throw. simpl.
  rewrite E. reflexivity.
Qed.

Lemma week3_trainCreated_run (m0 : LayersModel) (st : Week3.State) :
  Week3.trainCreated m0 st =
    let m := compile (Adam (1 # 1000)%Q) MeanSquaredError m0 in
    let out :=
      fit m
        (map (fun r => Week3.toInt32 (Some (userId r))) (Week3.ratings st))
        (map (fun r => Week3.toInt32 (Some (movieId r))) (Week3.ratings st))
        (map rating (Week3.ratings st))
        (mkFitArgs (Some 5) (Some 64) None) in
    let s2 := Week3.set_model (Some (trained out)) st in
    match failure out with
    | Some e => (Throw e, s2)
    | None =>
        (Normal tt,
         Week3.set_result
           (Week3.Text "Model trained! Select user and movie to predict.") s2)
    end.
Proof.
  unfold Week3.trainCreated, bind, modify, get, throw, Week3.fitArgs. simpl.
  destruct (failure _); reflexivity.
Qed.

Lemma week3_trainModel_run (st : Week3.State) :
  Week3.trainModel st =
    let s0 := Week3.set_result (Week3.Text "Training model...") st in
    match Week3.createModel (Week3.numUsers st) (Week3.numMovies st) None s0 with
    | (Throw e, s1) => (Throw e, s1)
    | (Normal m0, s1) => Week3.trainCreated m0 s1
    end.
Proof.
  unfold Week3.trainModel.
  unfold bind at 1. unfold modify at 1. simpl.
  unfold bind at 1. unfold get at 1. simpl.
  unfold bind at 1.
  destruct (Week3.createModel _ _ _ _) as [[m0|e] s1]; reflexivity.
Qed.

(** [trainModel] of [week3] throws out of [createModel]: the page is left
    showing 'Training model...' and nothing else is written. *)
Lemma week3_trainModel_throws (st : Week3.State) :
  exists e,
    Week3.trainModel st =
      (Throw e, Week3.set_result (Week3.Text "Training model...") st).
Proof.
  rewrite week3_trainModel_run. cbv zeta.
  destruct (week3_createModel_throws (Week3.numUsers st) (Week3.numMovies st)
              None (Week3.set_result (Week3.Text "Training model...") st))
    as [e ->].
  eauto.
Qed.

End Week3Facts.

(** * The claims *)

Section Claims.
Context {tf : TfBackend}.


(** C2. In [part_000], a call of [trainModel] made while [isTraining] is
    set completes normally at once: the model, the flag, the start time, the
    result text, the button and the data are what they were, nothing is
    thrown, and the backend is not called (no model is built, no epoch is
    run: the outcome is the same on every backend); the call only writes
    one line to the console. *)
Theorem C2_train_while_training_is_noop (st : Part000.State) :
  Part000.isTraining st = true ->
  Part000.trainModel st =
    (Normal tt,
     Part000.set_console
       (Part000.console st ++ [Part000.log "Model training already in progress"])
       st) /\
  Part000.model (snd (Part000.trainModel st)) = Part000.model st /\
  Part000.isTraining (snd (Part000.trainModel st)) = true /\
  Part000.trainingStartTime (snd (Part000.trainModel st)) =
    Part000.trainingStartTime st /\
  Part000.result (snd (Part000.trainModel st)) = Part000.result st /\
  Part000.predictBtnDisabled (snd (Part000.trainModel st)) =
    Part000.predictBtnDisabled st /\
  (forall tf' : TfBackend,
     @Part000.trainModel tf' st = @Part000.trainModel tf st).
Proof.
  intros E. rewrite (trainModel_busy st E). simpl.
  do 6 (split; [first [reflexivity | exact E]|]).
  intros tf'. rewrite (@trainModel_busy tf' st E). reflexivity.
Qed.

End Claims.



(** C2 on the sample page while the fit is pending. *)
Lemma C2_witness :
  Part000.isTraining Scenario.awaitingFit = true /\
  Part000.model (snd (Part000.trainModel Scenario.awaitingFit)) =
    Part000.model Scenario.awaitingFit /\
  Part000.result (snd (Part000.trainModel Scenario.awaitingFit)) =
    Part000.TrainingOn 4.
Proof.
  assert (E : Part000.isTraining Scenario.awaitingFit = true)
    by (vm_compute; reflexivity).
  split; [exact E|].
  destruct (C2_train_while_training_is_noop Scenario.awaitingFit E)
    as (_ & Hm & _ & _ & Hr & _ & _).
  split; [exact Hm|]. rewrite Hr. vm_compute. reflexivity.
Defined.


Section Claims3.
Context {tf : TfBackend}.

(** C3 (as amended). In [part_000], every call of [trainModel] that gets
    past the flag completes normally with [isTraining] cleared, whether the
    [try] block ended or threw. When it threw, at any point of the block,
    the error is caught inside [trainModel]: it is written to the console,
    its message is shown as 'Training failed: <message>', and then the flag
    is cleared; nothing is thrown to the caller, and the predict button is
    left as it was. *)
Theorem C3_train_clears_flag_reports_failure (st : Part000.State) :
  Part000.isTraining st = false ->
  fst (Part000.trainModel st) = Normal tt /\
  Part000.isTraining (snd (Part000.trainModel st)) = false /\
  (forall (e : Error) (s' : Part000.State),
     Part000.trainBody st = (Throw e, s') ->
     snd (Part000.trainModel st) =
       Part000.set_isTraining false
         (Part000.set_result (Part000.TrainingFailed (message e))
            (Part000.set_console
               (Part000.console s' ++ [Part000.error "Training error:" e]) s'))) /\
  (forall (s' : Part000.State),
     Part000.trainBody st = (Normal tt, s') ->
     snd (Part000.trainModel st) = Part000.set_isTraining false s') /\
  (isThrow (fst (Part000.trainBody st)) = true ->
   Part000.predictBtnDisabled (snd (Part000.trainModel st)) =
     Part000.predictBtnDisabled st).
Proof.
  intros E. rewrite (trainModel_run st E).
  pose proof (trainBody_outcome st) as [_ O].
  destruct (Part000.trainBody st) as [[[]|e] s'] eqn:B; cbn [fst snd isThrow] in *.
  - split; [reflexivity|]. split; [reflexivity|]. split; [|split].
    + intros e s'' H. discriminate H.
    + intros s'' H. injection H as <-. reflexivity.
    + intros H. discriminate H.
  - split; [reflexivity|]. split; [reflexivity|]. split; [|split].
    + intros e' s'' H. injection H as <- <-. reflexivity.
    + intros s'' H. discriminate H.
    + intros _. simpl.
      destruct O as [(_ & _ & Hb) | (m & _ & _ & _ & _ & _ & Hb)];
        [exact Hb | exact (Hb eq_refl)].
Qed.

End Claims3.

(** C3 on the sample page when training is started. *)
Lemma C3_witness :
  Part000.isTraining Scenario.dataLoaded = false /\
  fst (Part000.trainModel Scenario.dataLoaded) = Normal tt /\
  Part000.isTraining (snd (Part000.trainModel Scenario.dataLoaded)) = false.
Proof.
  assert (E : Part000.isTraining Scenario.dataLoaded = false)
    by (vm_compute; reflexivity).
  split; [exact E|].
  destruct (C3_train_clears_flag_reports_failure Scenario.dataLoaded E)
    as (H1 & H2 & _).
  split; assumption.
Defined.

(** C3, counterexample. With ratings that name user id 7 while the table
    has rows 0..2, the fit fails inside the [try] block; [trainModel] called
    by [window.onload] still completes normally, so does [window.onload],
    whose own [catch] is not run: the page shows 'Training failed: ...',
    the flag is cleared, and no error reached the caller. *)
Lemma C3_counterexample :
  let run := Part000.onload (Normal (Scenario.movies, Scenario.sparseRatings))
               Scenario.byTitle Scenario.page in
  (isThrow (fst (Part000.trainBody Scenario.sparseLoaded)) = true /\
   fst (Part000.trainModel Scenario.sparseLoaded) = Normal tt) /\
  fst run = Normal tt /\
  Part000.result (snd run) =
    Part000.TrainingFailed "GatherV2: the index value is not in range" /\
  Part000.isTraining (snd run) = false /\
  Part000.numUsers (snd run) = 2.
Proof. vm_compute. repeat split; reflexivity. Qed.

Section Claims4.
Context {tf : TfBackend}.

(** C4 (as amended). [predictRating] checks no bound itself. In
    [part_000], with a model present: when nothing is selected in a
    dropdown or a selected id is 0, it answers 'Please select both a user
    and a movie.' whatever the other id is; with two non-zero ids it hands
    them to the model unchanged, an error the lookup throws is caught and
    shown as 'Prediction failed: <message>', and the call completes
    normally. In [week3] an error the lookup throws is thrown on to the
    caller, with the page unchanged. *)
Theorem C4_predict_checks_no_bound (st : Part000.State) (m : LayersModel) :
  Part000.model st = Some m ->
  (js_not (Part000.userSelect st) || js_not (Part000.movieSelect st) = true ->
   Part000.predictRating st =
     (Normal tt,
      Part000.set_result
        (Part000.Text "Please select both a user and a movie.") st)) /\
  (forall (u mv : Z),
     Part000.userSelect st = Some u -> Part000.movieSelect st = Some mv ->
     u <> 0 -> mv <> 0 ->
     fst (Part000.predictRating st) = Normal tt /\
     Part000.result (snd (Part000.predictRating st)) =
       match modelPredict m u mv with
       | Normal r =>
           Part000.Predicted u (Part000.titleOf st mv)
             (toFixed2 (Math_min (Math_max r (Fin 1)) (Fin 5)))
       | Throw e => Part000.PredictionFailed (message e)
       end) /\
  (forall (st3 : Week3.State) (m3 : LayersModel) (e : Error),
     Week3.model st3 = Some m3 ->
     modelPredict m3 (Week3.toInt32 (Week3.userSelect st3))
                     (Week3.toInt32 (Week3.movieSelect st3)) = Throw e ->
     Week3.predictRating st3 = (Throw e, st3)).
Proof.
  intros E. split; [|split].
  - intros F. exact (predictRating_unselected st m E F).
  - intros u mv Eu Em Hu Hm.
    destruct (modelPredict m u mv) as [r|e] eqn:P.
    + rewrite (predictRating_predicts st m u mv r E Eu Em Hu Hm P).
      split; reflexivity.
    + rewrite (predictRating_lookup_throws st m u mv e E Eu Em Hu Hm P).
      split; reflexivity.
  - intros st3 m3 e E3 P3. exact (week3_predictRating_throws st3 m3 e E3 P3).
Qed.

End Claims4.

(** C4 on the sample page: user id 5 has no row, movie id 1 has one. *)
Lemma C4_witness :
  let st := Part000.select (Some 5) (Some 1) Scenario.ready in
  Part000.model st = Some Scenario.readyModel /\
  fst (Part000.predictRating st) = Normal tt /\
  Part000.result (snd (Part000.predictRating st)) =
    Part000.PredictionFailed "GatherV2: the index value is not in range".
Proof.
  intros st.
  assert (E : Part000.model st = Some Scenario.readyModel)
    by (vm_compute; reflexivity).
  split; [exact E|].
  destruct (C4_predict_checks_no_bound st Scenario.readyModel E) as (_ & H & _).
  destruct (H 5 1 eq_refl eq_refl ltac:(discriminate) ltac:(discriminate))
    as [H1 H2].
  split; [exact H1|]. rewrite H2. vm_compute. reflexivity.
Defined.

(** C4, counterexample. On the page of [part_000] after training with
    three users, the call with user id 5 and movie id 0 completes normally
    with 'Please select both a user and a movie.': no range error is
    raised, and the lookup is not reached. *)
Lemma C4_counterexample :
  let st := Part000.select (Some 5) (Some 0) Scenario.ready in
  Part000.numUsers st = 3 /\
  Part000.model st = Some Scenario.readyModel /\
  rowsOf (userEmbedding Scenario.readyModel) = 4 /\
  Part000.predictRating st =
    (Normal tt,
     Part000.set_result
       (Part000.Text "Please select both a user and a movie.") st).
Proof. vm_compute. repeat split; reflexivity. Qed.

Section Claims6.
Context {tf : TfBackend}.


End Claims6.



Section Claims8.
Context {tf : TfBackend}.

(** C8 (as amended). In [part_000] the training call is made with
    epochs = 10, batchSize = 64 and validationSplit = 0.1 on a model
    compiled with the Adam optimizer at learning rate 0.001 and the
    mean-squared-error loss, over the user ids, movie ids and ratings of
    the data in their order; a model left by a run that got as far as the
    fit is still so compiled. In [week3] the call is written with
    epochs = 5, batchSize = 64 and no validationSplit, on a model compiled
    the same way: this is what [trainModel] does from line 78 on with the
    model that [createModel] returns. (Holding out the validation slice is
    the library's reading of validationSplit.) *)
Theorem C8_training_configuration :
  (Part000.fitArgs = mkFitArgs (Some 10) (Some 64) (Some (1 # 10)%Q) /\
   forall (st s1 : Part000.State) (m : LayersModel)
          (data : list Z * list Z * list Q),
     Part000.trainSetup st = (Normal (m, data), s1) ->
     optimizer m = Some (Adam (1 # 1000)%Q) /\
     loss m = Some MeanSquaredError /\
     Part000.model s1 = Some m /\
     data = (map userId (Part000.ratings st), map movieId (Part000.ratings st),
             map rating (Part000.ratings st)) /\
     Part000.model (snd (Part000.trainFit m data s1)) =
       Some (trained (fit m (map userId (Part000.ratings st))
                        (map movieId (Part000.ratings st))
                        (map rating (Part000.ratings st))
                        (mkFitArgs (Some 10) (Some 64) (Some (1 # 10)%Q)))) /\
     Part000.compiledForTraining
       (trained (fit m (map userId (Part000.ratings st))
                   (map movieId (Part000.ratings st))
                   (map rating (Part000.ratings st))
                   (mkFitArgs (Some 10) (Some 64) (Some (1 # 10)%Q))))) /\
  (Week3.fitArgs = mkFitArgs (Some 5) (Some 64) None /\
   (forall (st : Week3.State) (m0 : LayersModel),
      Week3.model (snd (Week3.trainCreated m0 st)) =
        Some (trained
                (fit (compile (Adam (1 # 1000)%Q) MeanSquaredError m0)
                   (map (fun r => Week3.toInt32 (Some (userId r))) (Week3.ratings st))
                   (map (fun r => Week3.toInt32 (Some (movieId r))) (Week3.ratings st))
                   (map rating (Week3.ratings st))
                   (mkFitArgs (Some 5) (Some 64) None)))) /\
   (forall st : Week3.State,
      Week3.trainModel st =
        match Week3.createModel (Week3.numUsers st) (Week3.numMovies st) None
                (Week3.set_result (Week3.Text "Training model...") st) with
        | (Throw e, s1) => (Throw e, s1)
        | (Normal m0, s1) => Week3.trainCreated m0 s1
        end)).
Proof.
  split; [split; [reflexivity|] | split; [reflexivity | split]].
  - intros st s1 m data H. rewrite trainSetup_run in H.
    destruct (Part000.createModel _ _ _ _) as [[m0|e] s0]; [|discriminate H].
    cbv zeta in H. injection H as <- <- <-.
    set (m := compile (Adam (1 # 1000)%Q) MeanSquaredError m0).
    repeat split.
    + unfold Part000.trainFit.
      set (out := fit m _ _ _ Part000.fitArgs).
      unfold bind at 1. unfold modify at 1. unfold bind at 1.
      destruct (onEpochEnd_frame (epochLogs out) 0
                  (Part000.set_model (Some (trained out)) (Part000.atAwait m st s0)))
        as (_ & F3 & _).
      destruct (forEachFrom 0 (epochLogs out) Part000.onEpochEnd _)
        as [[[]|e] s2]; simpl in F3; [|exact F3].
      destruct (failure out); simpl; exact F3.
    + destruct (fit_compiled m (map userId (Part000.ratings st))
                  (map movieId (Part000.ratings st))
                  (map rating (Part000.ratings st))
                  (mkFitArgs (Some 10) (Some 64) (Some (1 # 10)%Q))) as [Co _].
      rewrite Co. reflexivity.
    + destruct (fit_compiled m (map userId (Part000.ratings st))
                  (map movieId (Part000.ratings st))
                  (map rating (Part000.ratings st))
                  (mkFitArgs (Some 10) (Some 64) (Some (1 # 10)%Q))) as [_ Cl].
      rewrite Cl. reflexivity.
  - intros st m0. rewrite week3_trainCreated_run. cbv zeta.
    destruct (failure _); reflexivity.
  - intros st. apply week3_trainModel_run.
Qed.

End Claims8.

(** C8, counterexample. The training call of [week3] asks for 5 epochs
    and names no validation split. *)
Lemma C8_counterexample :
  epochs Week3.fitArgs = Some 5 /\
  validationSplit Week3.fitArgs = None /\
  epochs Part000.fitArgs = Some 10 /\
  validationSplit Part000.fitArgs = Some (1 # 10)%Q.
Proof. repeat split; reflexivity. Qed.

Section Claims9.
Context {tf : TfBackend}.

(** C9. In [part_000], every call of [predictRating] in which the
    selected user id is 0 or the selected movie id is 0 returns early and
    normally without asking the model anything (its outcome is the same on
    every backend) and never shows a rating: with a model present the page
    shows 'Please select both a user and a movie.' and nothing else changes
    (with none, the earlier guard has already answered 'Model is not ready
    yet...'). Index 0 is nevertheless a row of both tables of a model that
    fits the data. *)
Theorem C9_zero_id_is_never_predicted (st : Part000.State) :
  Part000.userSelect st = Some 0 \/ Part000.movieSelect st = Some 0 ->
  fst (Part000.predictRating st) = Normal tt /\
  (forall m, Part000.model st = Some m ->
     Part000.predictRating st =
       (Normal tt,
        Part000.set_result
          (Part000.Text "Please select both a user and a movie.") st)) /\
  (Part000.model st = None ->
     Part000.predictRating st =
       (Normal tt,
        Part000.set_result
          (Part000.Text
             "Model is not ready yet. Please wait for training to complete.")
          st)) /\
  (forall (u : Z) (t : Part000.MovieTitle) (h : FixedText),
     Part000.result (snd (Part000.predictRating st)) <> Part000.Predicted u t h) /\
  (forall tf' : TfBackend,
     @Part000.predictRating tf' st = @Part000.predictRating tf st) /\
  (forall m, Part000.model st = Some m -> Part000.tablesFit st ->
     0 <= Part000.numUsers st -> 0 <= Part000.numMovies st ->
     0 <= 0 < rowsOf (userEmbedding m) /\ 0 <= 0 < rowsOf (movieEmbedding m)).
Proof.
  intros Z0.
  assert (F : js_not (Part000.userSelect st) || js_not (Part000.movieSelect st)
              = true).
  { destruct Z0 as [-> | ->]; simpl; [reflexivity | apply orb_true_r]. }
  assert (Hm : forall (b : TfBackend) m, Part000.model st = Some m ->
             @Part000.predictRating b st =
               (Normal tt,
                Part000.set_result
                  (Part000.Text "Please select both a user and a movie.") st)).
  { intros b m E. exact (@predictRating_unselected b st m E F). }
  assert (Hn : forall b : TfBackend, Part000.model st = None ->
             @Part000.predictRating b st =
               (Normal tt,
                Part000.set_result
                  (Part000.Text
                     "Model is not ready yet. Please wait for training to complete.")
                  st)).
  { intros b E. exact (@predictRating_no_model b st E). }
  split; [|split; [|split; [|split; [|split]]]].
  - apply predictRating_frame.
  - intros m E. exact (Hm tf m E).
  - intros E. exact (Hn tf E).
  - intros u t h.
    destruct (Part000.model st) as [m|] eqn:E.
    + rewrite (Hm tf m eq_refl). simpl. discriminate.
    + rewrite (Hn tf eq_refl). simpl. discriminate.
  - intros tf'.
    destruct (Part000.model st) as [m|] eqn:E.
    + rewrite (Hm tf m eq_refl), (Hm tf' m eq_refl). reflexivity.
    + rewrite (Hn tf eq_refl), (Hn tf' eq_refl). reflexivity.
  - intros m E Inv Hnu Hnm. destruct (Inv m E) as [Ru Rm]. lia.
Qed.

End Claims9.

(** C9 on the sample page: user id 0 selected after training. *)
Lemma C9_witness :
  let st := Part000.select (Some 0) (Some 1) Scenario.ready in
  Part000.userSelect st = Some 0 /\
  Part000.model st = Some Scenario.readyModel /\
  Part000.result (snd (Part000.predictRating st)) =
    Part000.Text "Please select both a user and a movie.".
Proof.
  intros st.
  assert (E : Part000.model st = Some Scenario.readyModel)
    by (vm_compute; reflexivity).
  split; [reflexivity|]. split; [exact E|].
  destruct (C9_zero_id_is_never_predicted st (or_introl eq_refl))
    as (_ & H & _).
  rewrite (H Scenario.readyModel E). reflexivity.
Defined.

Section Claims10.
Context {tf : TfBackend}.

(** C10. In [part_000] the ids of the data are used as table indices as
    they are, at every site: the values of the user dropdown are exactly the
    user ids of the ratings and those of the movie dropdown the ids of the
    movies; the training inputs are the user ids and movie ids of the
    ratings in their order; the prediction looks up the selected ids. Both
    tables are built with one row more than [numUsers] and [numMovies]; a
    training run and a prediction keep that fit between the model and the
    data; and under it every id with 1 <= userId <= numUsers and
    1 <= movieId <= numMovies is inside its table, so that its lookup
    returns the row and a prediction for it is shown. *)
Theorem C10_raw_ids_index_tables_with_spare_row (st : Part000.State) :
  (forall (nu nm : Z) (d : option Z) (s0 s1 : Part000.State) (m : LayersModel),
     Part000.createModel nu nm d s0 = (Normal m, s1) ->
     rowsOf (userEmbedding m) = nu + 1 /\ rowsOf (movieEmbedding m) = nm + 1) /\
  (Part000.tablesFit st -> Part000.tablesFit (snd (Part000.trainModel st))) /\
  (Part000.tablesFit st -> Part000.tablesFit (snd (Part000.predictRating st))) /\
  (forall v : Z,
     In v (Part000.userOptions (snd (Part000.populateUserDropdown st))) <->
     In v (map userId (Part000.ratings st))) /\
  (forall cmp : string -> string -> Z,
     Permutation
       (map fst (Part000.movieOptions (snd (Part000.populateMovieDropdown cmp st))))
       (map Part000.id (Part000.movies st))) /\
  (forall (m : LayersModel) (data : list Z * list Z * list Q) (s1 : Part000.State),
     Part000.trainSetup st = (Normal (m, data), s1) ->
     fst data = (map userId (Part000.ratings st),
                 map movieId (Part000.ratings st)) /\
     rowsOf (userEmbedding m) = Part000.numUsers st + 1 /\
     rowsOf (movieEmbedding m) = Part000.numMovies st + 1) /\
  (Part000.tablesFit st ->
   forall (m : LayersModel) (u mv : Z),
     Part000.model st = Some m ->
     1 <= u <= Part000.numUsers st ->
     1 <= mv <= Part000.numMovies st ->
     (0 <= u < rowsOf (userEmbedding m) /\ 0 <= mv < rowsOf (movieEmbedding m)) /\
     gather (userEmbedding m) u = Normal (nth (Z.to_nat u) (userEmbedding m) []) /\
     gather (movieEmbedding m) mv = Normal (nth (Z.to_nat mv) (movieEmbedding m) []) /\
     (Part000.userSelect st = Some u -> Part000.movieSelect st = Some mv ->
      Part000.result (snd (Part000.predictRating st)) =
        Part000.Predicted u (Part000.titleOf st mv)
          (toFixed2
             (Math_min
                (Math_max
                   (dot (nth (Z.to_nat u) (userEmbedding m) [])
                        (nth (Z.to_nat mv) (movieEmbedding m) [])) (Fin 1))
                (Fin 5))))).
Proof.
  split; [|split; [|split; [|split; [|split; [|split]]]]].
  - intros nu nm d s0 s1 m H.
    destruct (createModel_rows nu nm d s0 s1 m H) as (Ru & Rm & _).
    split; assumption.
  - apply trainModel_keeps_tablesFit.
  - apply predictRating_keeps_tablesFit.
  - intros v. rewrite populateUserDropdown_options. split; intros H.
    + apply uniq_In.
      exact (Permutation_in v (sortBy_Permutation _ _) H).
    + apply uniq_In in H.
      exact (Permutation_in v (Permutation_sym (sortBy_Permutation _ _)) H).
  - intros cmp. rewrite populateMovieDropdown_options.
    rewrite map_map. simpl.
    apply Permutation_map. apply sortBy_Permutation.
  - intros m data s1 H. rewrite trainSetup_run in H.
    destruct (Part000.createModel _ _ _ _) as [[m0|e] s0] eqn:EC; [|discriminate H].
    destruct (createModel_rows _ _ _ _ _ _ EC) as (Ru & Rm & _).
    cbv zeta in H. injection H as <- <- <-. simpl. auto.
  - intros Inv m u mv E Hu Hm.
    destruct (Inv m E) as [Ru Rm].
    assert (Bu : 0 <= u < rowsOf (userEmbedding m)) by lia.
    assert (Bm : 0 <= mv < rowsOf (movieEmbedding m)) by lia.
    split; [split; assumption|].
    split; [apply gather_ok; exact Bu|].
    split; [apply gather_ok; exact Bm|].
    intros Eu Em.
    rewrite (predictRating_predicts st m u mv _ E Eu Em
               ltac:(lia) ltac:(lia) (modelPredict_in_range m u mv Bu Bm)).
    reflexivity.
Qed.

End Claims10.

(** C10 on the sample page after training. *)
Lemma C10_witness :
  let st := Part000.select (Some 3) (Some 2) Scenario.ready in
  Part000.tablesFit st /\
  gather (userEmbedding Scenario.readyModel) 3 =
    Normal (nth 3%nat (userEmbedding Scenario.readyModel) []) /\
  Part000.userOptions st = [1; 2; 3] /\
  map fst (Part000.movieOptions st) = [2; 1].
Proof.
  intros st.
  assert (E : Part000.model st = Some Scenario.readyModel)
    by (vm_compute; reflexivity).
  assert (Inv : Part000.tablesFit st).
  { intros m Em. rewrite E in Em. injection Em as <-.
    vm_compute. split; reflexivity. }
  split; [exact Inv|].
  destruct (C10_raw_ids_index_tables_with_spare_row st)
    as (_ & _ & _ & _ & _ & _ & H).
  destruct (H Inv Scenario.readyModel 3 2 E
              ltac:(vm_compute; split; discriminate)
              ltac:(vm_compute; split; discriminate)) as (_ & G & _).
  split; [exact G|]. vm_compute. split; reflexivity.
Defined.

(** C5, the code at the failing input. Before any training run the model
    is absent and [predictRating] answers 'Model is not ready yet...'. But
    while [await model.fit(...)] is pending ([isTraining] set, the model
    already assigned) a call of [predictRating] is not refused, on any
    backend and whatever is selected; on the sample data it shows a rating
    computed from the weights as they stand. The same holds after a
    training run that failed in the fit: the flag is cleared, the page
    shows 'Training failed: ...', the model is still assigned, and a rating
    is shown. *)
Theorem C5_predict_is_not_refused_while_training :
  (forall (tf : TfBackend) (st s1 : Part000.State) (m : LayersModel)
          (data : list Z * list Z * list Q),
     @Part000.trainSetup tf st = (Normal (m, data), s1) ->
     Part000.isTraining s1 = true /\
     Part000.model s1 = Some m /\
     forall u mv : option Z,
       Part000.result
         (snd (@Part000.predictRating tf (Part000.select u mv s1))) <>
       Part000.Text
         "Model is not ready yet. Please wait for training to complete.") /\
  (Part000.model Scenario.page = None /\
   Part000.result
     (snd (Part000.predictRating
             (Part000.select (Some 1) (Some 1) Scenario.page))) =
     Part000.Text "Model is not ready yet. Please wait for training to complete.") /\
  (Part000.isTraining Scenario.awaitingFit = true /\
   Part000.result Scenario.awaitingFit = Part000.TrainingOn 4 /\
   Part000.result
     (snd (Part000.predictRating
             (Part000.select (Some 1) (Some 1) Scenario.awaitingFit))) =
     Part000.Predicted 1 (Part000.Titled "Toy Story (1995)")
       (Digits false 100)) /\
  (Part000.isTraining Scenario.failed = false /\
   Part000.result Scenario.failed =
     Part000.TrainingFailed "GatherV2: the index value is not in range" /\
   Part000.model Scenario.failed = Some Scenario.failedModel /\
   Part000.result
     (snd (Part000.predictRating
             (Part000.select (Some 1) (Some 1) Scenario.failed))) =
     Part000.Predicted 1 (Part000.Titled "Toy Story (1995)")
       (Digits false 100)).
Proof.
  split; [|vm_compute; repeat split; reflexivity].
  intros tf st s1 m data H.
  destruct (@trainSetup_assigns_model tf st s1 m data H) as [Ht Hm].
  split; [exact Ht|]. split; [exact Hm|].
  intros u mv.
  assert (E : Part000.model (Part000.select u mv s1) = Some m) by exact Hm.
  destruct (js_not u || js_not mv) eqn:F.
  - rewrite (@predictRating_unselected tf _ m E F). simpl. discriminate.
  - apply orb_false_elim in F. destruct F as [Fu Fm].
    destruct (js_not_false _ Fu) as (u' & -> & Hu).
    destruct (js_not_false _ Fm) as (mv' & -> & Hmv).
    destruct (@modelPredict tf m u' mv') as [r|e] eqn:P.
    + rewrite (@predictRating_predicts tf _ m u' mv' r E eq_refl eq_refl Hu Hmv P).
      simpl. discriminate.
    + rewrite (@predictRating_lookup_throws tf _ m u' mv' e E eq_refl eq_refl
                 Hu Hmv P).
      simpl. discriminate.
Qed.

(** * Further properties of the scripts *)

From Stdlib Require Import Sorting.Sorted FinFun OrderedTypeEx.

(** ** Arrays: distinct elements, order *)

Lemma uniq_NoDup (xs : list Z) : NoDup (uniq xs).
Proof.
  induction xs as [|x rest IH]; simpl; constructor.
  - rewrite filter_In. intros [_ H].
    rewrite Z.eqb_refl in H. discriminate H.
  - apply NoDup_filter. exact IH.
Qed.

Lemma insertBy_sub_sorted (x : Z) (l : list Z) :
  StronglySorted Z.le l ->
  StronglySorted Z.le (insertBy (fun a b => a - b) x l).
Proof.
  induction 1 as [|y rest Hs IH Hall]; simpl.
  - constructor; constructor.
  - destruct (Z.leb_spec (x - y) 0) as [Hle|Hgt].
    + constructor.
      * constructor; assumption.
      * constructor; [lia|].
        eapply Forall_impl; [|exact Hall]. simpl. intros z Hz. lia.
    + constructor; [exact IH|].
      apply Forall_forall. intros z Hz.
      apply (Permutation_in z (insertBy_Permutation _ x rest)) in Hz.
      destruct Hz as [<-|Hz]; [lia|].
      rewrite Forall_forall in Hall. apply Hall. exact Hz.
Qed.

Lemma sortBy_sub_sorted (l : list Z) :
  StronglySorted Z.le (sortBy (fun a b => a - b) l).
Proof.
  unfold sortBy. induction l as [|x rest IH]; simpl.
  - constructor.
  - apply insertBy_sub_sorted. exact IH.
Qed.

Lemma sorted_NoDup_strict (l : list Z) :
  StronglySorted Z.le l -> NoDup l -> StronglySorted Z.lt l.
Proof.
  induction 1 as [|x rest Hs IH Hall]; intros Hnd; constructor.
  - apply IH. inversion Hnd; assumption.
  - inversion Hnd as [|? ? Hnin _]; subst.
    rewrite Forall_forall in *. intros z Hz.
    specialize (Hall z Hz).
    assert (z <> x) by (intros ->; contradiction).
    lia.
Qed.

(** The ids [1 .. n]. *)
Definition idsUpTo (n : nat) : list Z := map Z.of_nat (seq 1 n).

Lemma idsUpTo_In (n : nat) (k : Z) : In k (idsUpTo n) <-> 1 <= k <= Z.of_nat n.
Proof.
  unfold idsUpTo. rewrite in_map_iff. split.
  - intros (i & <- & Hi). apply in_seq in Hi. lia.
  - intros Hk. exists (Z.to_nat k). split; [lia|]. apply in_seq. lia.
Qed.

Lemma idsUpTo_NoDup (n : nat) : NoDup (idsUpTo n).
Proof.
  unfold idsUpTo. apply Injective_map_NoDup; [|apply seq_NoDup].
  intros a b H. lia.
Qed.

Lemma idsUpTo_length (n : nat) : length (idsUpTo n) = n.
Proof. unfold idsUpTo. rewrite length_map, length_seq. reflexivity. Qed.

(** A list of [n] distinct ids holds only ids of [1 .. n] exactly when it
    holds each of them. *)
Lemma distinct_ids_dense (l : list Z) :
  NoDup l ->
  (incl l (idsUpTo (length l)) <-> incl (idsUpTo (length l)) l).
Proof.
  intros Hnd. split; intros H.
  - apply (NoDup_length_incl Hnd); [rewrite idsUpTo_length; lia | exact H].
  - apply (NoDup_length_incl (idsUpTo_NoDup (length l)));
      [rewrite idsUpTo_length; lia | exact H].
Qed.

(** ** Loading and the dropdowns of [part_000] *)

Lemma loadData_fetched (ms : list Part000.Movie) (rs : list Rating)
    (st : Part000.State) :
  Part000.loadData (Normal (ms, rs)) st =
    (Normal tt,
     let nu := Z.of_nat (length (uniq (map userId rs))) in
     let nm := Z.of_nat (length ms) in
     Part000.logged
       [Part000.log "Starting data loading process...";
        Part000.log "Raw data fetched, starting parsing...";
        Part000.logParsed "movies" (length ms);
        Part000.logParsed "ratings" (length rs);
        Part000.logLoaded nu nm (length rs)]
       (Part000.set_data ms rs nu nm st)).
Proof.
  unfold Part000.loadData, tryCatch, bind, liftC, Part000.console_log, modify,
    Part000.logged. simpl.
  repeat rewrite <- app_assoc. reflexivity.
Qed.

Lemma loadData_failed (e : Error) (st : Part000.State) :
  Part000.loadData (Throw e) st =
    (Throw e,
     Part000.logged
       [Part000.log "Starting data loading process...";
        Part000.error "Error loading data:" e] st).
Proof.
  unfold Part000.loadData, tryCatch, bind, liftC, Part000.console_log, modify,
    throw, Part000.logged. simpl.
  repeat rewrite <- app_assoc. reflexivity.
Qed.

(** X1. The user dropdown of [part_000] lists each user id of the ratings
    once, in strictly ascending order, and nothing else. *)
Theorem X1_user_dropdown_sorted_distinct (st : Part000.State) :
  let options := Part000.userOptions (snd (Part000.populateUserDropdown st)) in
  StronglySorted Z.lt options /\
  (forall v : Z,
     In v options <-> exists r, In r (Part000.ratings st) /\ userId r = v).
Proof.
  cbv zeta. rewrite populateUserDropdown_options. split.
  - apply sorted_NoDup_strict; [apply sortBy_sub_sorted|].
    apply (Permutation_NoDup (Permutation_sym (sortBy_Permutation _ _))).
    apply uniq_NoDup.
  - intros v. split.
    + intros H. apply (Permutation_in v (sortBy_Permutation _ _)) in H.
      apply (proj1 (uniq_In _ _)) in H. apply in_map_iff in H.
      destruct H as (r & E & Hr). exists r. auto.
    + intros (r & Hr & <-).
      apply (Permutation_in _ (Permutation_sym (sortBy_Permutation _ _))).
      apply (proj2 (uniq_In _ _)). apply in_map. exact Hr.
Qed.

Lemma populateUserDropdown_run (st : Part000.State) :
  Part000.populateUserDropdown st =
    (Normal tt,
     let ids := sortBy (fun a b => a - b) (uniq (map userId (Part000.ratings st))) in
     Part000.logged [Part000.logPopulatedUsers (length ids)]
       (Part000.set_userOptions ids st)).
Proof. reflexivity. Qed.

Lemma populateMovieDropdown_run (cmp : string -> string -> Z) (st : Part000.State) :
  Part000.populateMovieDropdown cmp st =
    (Normal tt,
     let sorted :=
       sortBy (fun a b => cmp (Part000.title a) (Part000.title b))
         (Part000.movies st) in
     Part000.logged [Part000.logPopulatedMovies (length sorted)]
       (Part000.set_movieOptions
          (map (fun m => (Part000.id m, Part000.title m)) sorted) st)).
Proof. reflexivity. Qed.

(** X2. After [loadData] and the two [populate...Dropdown] calls of
    [window.onload] in [part_000], [numUsers] is the number of entries of
    the user dropdown and [numMovies] the number of entries of the movie
    dropdown, whatever the data and the title order are. *)
Theorem X2_counts_are_dropdown_sizes
    (ms : list Part000.Movie) (rs : list Rating)
    (cmp : string -> string -> Z) (st : Part000.State) :
  let s :=
    snd (bind (Part000.loadData (Normal (ms, rs))) (fun _ =>
         bind Part000.populateUserDropdown (fun _ =>
         Part000.populateMovieDropdown cmp)) st) in
  Part000.numUsers s = Z.of_nat (length (Part000.userOptions s)) /\
  Part000.numMovies s = Z.of_nat (length (Part000.movieOptions s)) /\
  Part000.movies s = ms /\ Part000.ratings s = rs.
Proof.
  cbv zeta. unfold bind at 1. rewrite loadData_fetched. cbv zeta.
  unfold bind at 1. rewrite populateUserDropdown_run.
  rewrite populateMovieDropdown_run. cbv zeta. simpl.
  rewrite length_map.
  rewrite (Permutation_length (sortBy_Permutation _ (uniq (map userId rs)))).
  rewrite (Permutation_length (sortBy_Permutation _ ms)).
  auto.
Qed.

Lemma ids_fit_iff_no_gap (rs : list Rating) :
  (forall r, In r rs -> 1 <= userId r) ->
  let n := Z.of_nat (length (uniq (map userId rs))) in
  (forall r, In r rs -> userId r <= n) <->
  (forall k, 1 <= k <= n -> exists r, In r rs /\ userId r = k).
Proof.
  intros Hpos. cbv zeta.
  set (l := uniq (map userId rs)).
  pose proof (distinct_ids_dense l (uniq_NoDup _)) as D.
  assert (Hin : forall v, In v l <-> exists r, In r rs /\ userId r = v).
  { intros v. unfold l. rewrite uniq_In, in_map_iff.
    split; intros (r & A & B); exists r; auto. }
  split.
  - intros Hle k Hk.
    apply Hin. apply (proj1 D).
    + intros v Hv. apply idsUpTo_In. apply Hin in Hv.
      destruct Hv as (r & Hr & <-). split; [apply Hpos | apply Hle]; exact Hr.
    + apply idsUpTo_In. exact Hk.
  - intros Hall r Hr.
    assert (In (userId r) (idsUpTo (length l))) as Hi.
    { apply (proj2 D).
      - intros k Hk. apply idsUpTo_In in Hk. apply Hin. apply Hall. exact Hk.
      - apply Hin. exists r. auto. }
    apply idsUpTo_In in Hi. lia.
Qed.

(** X3. [loadData] of [part_000] counts the distinct user ids, so when the
    user ids of the ratings start at 1, all of them are at most [numUsers]
    exactly when they are [1 .. numUsers] without a gap; with a gap, some
    rating names a user id above [numUsers]. *)
Theorem X3_user_ids_fit_iff_no_gap
    (ms : list Part000.Movie) (rs : list Rating) (st : Part000.State) :
  (forall r, In r rs -> 1 <= userId r) ->
  let n := Part000.numUsers (snd (Part000.loadData (Normal (ms, rs)) st)) in
  (forall r, In r rs -> userId r <= n) <->
  (forall k, 1 <= k <= n -> exists r, In r rs /\ userId r = k).
Proof.
  intros Hpos. rewrite loadData_fetched. cbv zeta. simpl.
  exact (ids_fit_iff_no_gap rs Hpos).
Qed.

(** X3 on the sample ratings, whose user ids are 1, 2 and 3. *)
Lemma X3_witness :
  (forall r, In r Scenario.ratings -> 1 <= userId r) /\
  (forall r, In r Scenario.ratings -> userId r <= 3).
Proof.
  assert (Hpos : forall r, In r Scenario.ratings -> 1 <= userId r).
  { intros r Hr. simpl in Hr.
    repeat (destruct Hr as [<-|Hr]; [simpl; lia|]). contradiction. }
  split; [exact Hpos|].
  apply (proj2 (X3_user_ids_fit_iff_no_gap Scenario.movies Scenario.ratings
                  Scenario.page Hpos)).
  intros k Hk. change (1 <= k <= 3) in Hk.
  assert (k = 1 \/ k = 2 \/ k = 3) as [-> | [-> | ->]] by lia.
  - exists (mkRating 1 1 5). split; [simpl; auto | reflexivity].
  - exists (mkRating 2 1 3). split; [simpl; auto | reflexivity].
  - exists (mkRating 3 2 4). split; [simpl; auto | reflexivity].
Defined.

(** ** Sorting with a comparator *)

Section SortedBy.
Context {A : Type} (compare : A -> A -> Z).
Hypothesis compare_total : forall a b, compare a b <= 0 \/ compare b a <= 0.
Hypothesis compare_trans :
  forall a b c, compare a b <= 0 -> compare b c <= 0 -> compare a c <= 0.

Lemma insertBy_sorted (x : A) (l : list A) :
  StronglySorted (fun a b => compare a b <= 0) l ->
  StronglySorted (fun a b => compare a b <= 0) (insertBy compare x l).
Proof.
  induction 1 as [|y rest Hs IH Hall]; simpl.
  - constructor; constructor.
  - destruct (Z.leb_spec (compare x y) 0) as [Hle|Hgt].
    + constructor.
      * constructor; assumption.
      * constructor; [exact Hle|].
        eapply Forall_impl; [|exact Hall]. simpl. intros z Hz.
        exact (compare_trans x y z Hle Hz).
    + constructor; [exact IH|].
      apply Forall_forall. intros z Hz.
      apply (Permutation_in z (insertBy_Permutation _ x rest)) in Hz.
      destruct Hz as [<-|Hz].
      * destruct (compare_total x y); [lia | assumption].
      * rewrite Forall_forall in Hall. apply Hall. exact Hz.
Qed.

Lemma sortBy_sorted (l : list A) :
  StronglySorted (fun a b => compare a b <= 0) (sortBy compare l).
Proof.
  unfold sortBy. induction l as [|x rest IH]; simpl.
  - constructor.
  - apply insertBy_sorted. exact IH.
Qed.

End SortedBy.

Lemma StronglySorted_map {A B} (f : A -> B) (R : B -> B -> Prop) (l : list A) :
  StronglySorted (fun a b => R (f a) (f b)) l -> StronglySorted R (map f l).
Proof.
  induction 1 as [|x rest Hs IH Hall]; simpl; constructor.
  - exact IH.
  - apply Forall_map. exact Hall.
Qed.

(** X4. When the title comparison is a total preorder (any two titles
    are comparable, and the comparison is transitive), the movie dropdown
    of [part_000] holds exactly one entry [(id, title)] per movie, in
    non-decreasing title order. *)
Theorem X4_movie_dropdown_in_title_order
    (cmp : string -> string -> Z) (st : Part000.State) :
  (forall a b, cmp a b <= 0 \/ cmp b a <= 0) ->
  (forall a b c, cmp a b <= 0 -> cmp b c <= 0 -> cmp a c <= 0) ->
  let options := Part000.movieOptions (snd (Part000.populateMovieDropdown cmp st)) in
  StronglySorted (fun a b => cmp (snd a) (snd b) <= 0) options /\
  Permutation options
    (map (fun m => (Part000.id m, Part000.title m)) (Part000.movies st)).
Proof.
  intros Htot Htrans. cbv zeta. rewrite populateMovieDropdown_options. split.
  - apply (StronglySorted_map
             (fun m => (Part000.id m, Part000.title m))
             (fun a b => cmp (snd a) (snd b) <= 0)).
    simpl.
    apply (sortBy_sorted (fun a b => cmp (Part000.title a) (Part000.title b))).
    + intros a b. apply Htot.
    + intros a b c. apply Htrans.
  - apply Permutation_map. apply sortBy_Permutation.
Qed.

Lemma byTitle_total (a b : string) :
  Scenario.byTitle a b <= 0 \/ Scenario.byTitle b a <= 0.
Proof.
  unfold Scenario.byTitle. rewrite (String.compare_antisym a b).
  destruct (String.compare b a); simpl; lia.
Qed.

Lemma byTitle_le (a b : string) :
  Scenario.byTitle a b <= 0 <-> a = b \/ String_as_OT.lt a b.
Proof.
  unfold Scenario.byTitle.
  pose proof (String_as_OT.cmp_eq a b) as He.
  pose proof (String_as_OT.cmp_lt a b) as Hl.
  unfold String_as_OT.cmp in *.
  destruct (String.compare a b) eqn:E; split; intros H; try lia.
  - left. apply He. reflexivity.
  - right. apply Hl. reflexivity.
  - destruct H as [H|H]; [apply He in H | apply Hl in H]; discriminate H.
Qed.

Lemma byTitle_trans (a b c : string) :
  Scenario.byTitle a b <= 0 -> Scenario.byTitle b c <= 0 ->
  Scenario.byTitle a c <= 0.
Proof.
  rewrite !byTitle_le. intros [->|Hab] [->|Hbc]; auto.
  right. exact (String_as_OT.lt_trans _ _ _ Hab Hbc).
Qed.

(** X4 on the sample page, with titles compared by code point. *)
Lemma X4_witness :
  Part000.movieOptions
    (snd (Part000.populateMovieDropdown Scenario.byTitle Scenario.dataLoaded)) =
    [(2, "GoldenEye (1995)"%string); (1, "Toy Story (1995)"%string)] /\
  StronglySorted (fun a b => Scenario.byTitle (snd a) (snd b) <= 0)
    (Part000.movieOptions
       (snd (Part000.populateMovieDropdown Scenario.byTitle Scenario.dataLoaded))).
Proof.
  split; [vm_compute; reflexivity|].
  exact (proj1 (X4_movie_dropdown_in_title_order Scenario.byTitle
                  Scenario.dataLoaded byTitle_total byTitle_trans)).
Defined.

(** ** What [predictRating], [trainModel] and [window.onload] of
    [part_000] leave behind *)

Section Part000Effects.
Context {tf : TfBackend}.

(** X5. In [part_000], [predictRating] never throws and writes nothing
    but the result text and the console: the model, the training flag and
    start time, the button, the data, the dropdowns and the selection are
    what they were, in every state and for every selection. *)
Theorem X5_predictRating_only_writes_the_page (st : Part000.State) :
  exists (h : Part000.Html) (entries : list Part000.ConsoleEntry),
    Part000.predictRating st =
      (Normal tt, Part000.logged entries (Part000.set_result h st)).
Proof.
  destruct (Part000.model st) as [m|] eqn:E.
  2:{ rewrite (predictRating_no_model st E).
      eexists. exists []. unfold Part000.logged, Part000.set_console. simpl.
      rewrite app_nil_r. reflexivity. }
  destruct (js_not (Part000.userSelect st) || js_not (Part000.movieSelect st))
    eqn:F.
  { rewrite (predictRating_unselected st m E F).
    eexists. exists []. unfold Part000.logged, Part000.set_console. simpl.
    rewrite app_nil_r. reflexivity. }
  apply orb_false_elim in F. destruct F as [Fu Fm].
  destruct (js_not_false _ Fu) as (u & Eu & Hu).
  destruct (js_not_false _ Fm) as (mv & Em & Hm).
  destruct (modelPredict m u mv) as [r|e] eqn:P.
  - rewrite (predictRating_predicts st m u mv r E Eu Em Hu Hm P).
    eexists. eexists. reflexivity.
  - rewrite (predictRating_lookup_throws st m u mv e E Eu Em Hu Hm P).
    eexists. exists [Part000.error "Prediction error:" e]. reflexivity.
Qed.

Lemma onEpochEnd_now (logs : list Logs) :
  forall (i : Z) (st : Part000.State),
    Part000.now (snd (forEachFrom i logs Part000.onEpochEnd st)) = Part000.now st.
Proof.
  induction logs as [|l logs IH]; intros i st; [reflexivity|].
  simpl forEachFrom. unfold bind at 1. rewrite onEpochEnd_run.
  destruct (logs_loss l); [|reflexivity].
  rewrite IH. reflexivity.
Qed.

Lemma trainBody_startTime (st : Part000.State) :
  Part000.trainingStartTime (snd (Part000.trainBody st)) = Some (Part000.now st) /\
  Part000.now (snd (Part000.trainBody st)) = Part000.now st.
Proof.
  rewrite trainBody_run, trainSetup_run, createModel_run.
  destruct (embedding (Part000.numUsers st + 1) 15) as [ut|e1];
    [|simpl; auto].
  destruct (embedding (Part000.numMovies st + 1) 15) as [mt|e2];
    [|simpl; auto].
  cbv beta iota zeta.
  match goal with
  | |- context [forEachFrom 0 ?logs Part000.onEpochEnd ?s] =>
      pose proof (onEpochEnd_frame logs 0 s) as F;
      pose proof (onEpochEnd_now logs 0 s) as N;
      destruct (forEachFrom 0 logs Part000.onEpochEnd s) as [[[]|e] s2]
  end;
    destruct F as (_ & _ & _ & T & _); simpl in T, N;
    [destruct (failure _)|]; simpl; rewrite T, N; auto.
Qed.

Lemma onEpochEnd_options (logs : list Logs) :
  forall (i : Z) (st : Part000.State),
    Part000.userOptions (snd (forEachFrom i logs Part000.onEpochEnd st)) =
      Part000.userOptions st.
Proof.
  induction logs as [|l logs IH]; intros i st; [reflexivity|].
  simpl forEachFrom. unfold bind at 1. rewrite onEpochEnd_run.
  destruct (logs_loss l); [|reflexivity].
  rewrite IH. reflexivity.
Qed.

Lemma trainBody_userOptions (st : Part000.State) :
  Part000.userOptions (snd (Part000.trainBody st)) = Part000.userOptions st.
Proof.
  rewrite trainBody_run, trainSetup_run, createModel_run.
  destruct (embedding (Part000.numUsers st + 1) 15) as [ut|e1];
    [|reflexivity].
  destruct (embedding (Part000.numMovies st + 1) 15) as [mt|e2];
    [|reflexivity].
  cbv beta iota zeta.
  match goal with
  | |- context [forEachFrom 0 ?logs Part000.onEpochEnd ?s] =>
      pose proof (onEpochEnd_options logs 0 s) as N;
      destruct (forEachFrom 0 logs Part000.onEpochEnd s) as [[[]|e] s2]
  end;
    simpl in N; [destruct (failure _)|]; simpl; rewrite N; reflexivity.
Qed.

Lemma trainModel_ends (st : Part000.State) :
  Part000.isTraining st = false ->
  Part000.trainingStartTime (snd (Part000.trainModel st)) = Some (Part000.now st) /\
  Part000.sameData st (snd (Part000.trainModel st)) /\
  ((Part000.result (snd (Part000.trainModel st)) = Part000.Trained /\
    Part000.predictBtnDisabled (snd (Part000.trainModel st)) = false /\
    exists m, Part000.model (snd (Part000.trainModel st)) = Some m /\
              Part000.compiledForTraining m)
   \/
   (exists e, fst (Part000.trainBody st) = Throw e /\
      Part000.result (snd (Part000.trainModel st)) =
        Part000.TrainingFailed (message e) /\
      Part000.predictBtnDisabled (snd (Part000.trainModel st)) =
        Part000.predictBtnDisabled st)).
Proof.
  intros E. rewrite (trainModel_run st E).
  destruct (trainBody_startTime st) as [T _].
  destruct (trainBody_outcome st) as [D O].
  destruct (Part000.trainBody st) as [[[]|e] s'];
    cbn [fst snd isThrow] in *.
  - split; [exact T|]. split; [exact D|]. left.
    destruct O as [(Habs & _) | (m & Em & _ & _ & Hc & Hok & _)];
      [discriminate Habs|].
    destruct (Hok eq_refl) as [Hr Hb]. simpl.
    split; [exact Hr|]. split; [exact Hb|]. exists m. auto.
  - split; [exact T|]. split; [exact D|]. right. exists e. simpl.
    split; [reflexivity|]. split; [reflexivity|].
    destruct O as [(_ & _ & Hb) | (m & _ & _ & _ & _ & _ & Hb)];
      [exact Hb | exact (Hb eq_refl)].
Qed.

(** X7. In [part_000], a call of [trainModel] that gets past the flag
    records the time of the call as start time, leaves the data alone, and
    ends in exactly one of two ways: the page shows the success message,
    the predict button is enabled and a model compiled for training is
    held; or the page shows 'Training failed: <message>' for the error
    that was thrown and the predict button is as it was. *)
Theorem X7_train_enables_button_only_on_success (st : Part000.State) :
  Part000.isTraining st = false ->
  let s' := snd (Part000.trainModel st) in
  Part000.trainingStartTime s' = Some (Part000.now st) /\
  Part000.sameData st s' /\
  ((Part000.result s' = Part000.Trained /\
    Part000.predictBtnDisabled s' = false /\
    exists m, Part000.model s' = Some m /\ Part000.compiledForTraining m)
   \/
   (exists e, fst (Part000.trainBody st) = Throw e /\
      Part000.result s' = Part000.TrainingFailed (message e) /\
      Part000.predictBtnDisabled s' = Part000.predictBtnDisabled st)).
Proof. intros E. exact (trainModel_ends st E). Qed.

(** The page when [window.onload] reaches the call of [trainModel]. *)
Definition afterLoading (ms : list Part000.Movie) (rs : list Rating)
    (cmp : string -> string -> Z) (st : Part000.State) : Part000.State :=
  Part000.set_result (Part000.Text "Data loaded! Starting model training...")
    (snd (Part000.populateMovieDropdown cmp
       (snd (Part000.populateUserDropdown
          (snd (Part000.loadData (Normal (ms, rs))
             (Part000.set_result
                (Part000.Text "Loading MovieLens dataset...") st))))))).

Lemma onload_fetched (ms : list Part000.Movie) (rs : list Rating)
    (cmp : string -> string -> Z) (st : Part000.State) :
  Part000.onload (Normal (ms, rs)) cmp st =
    (Normal tt, snd (Part000.trainModel (afterLoading ms rs cmp st))).
Proof.
  unfold Part000.onload, tryCatch, afterLoading.
  unfold bind at 1. unfold Part000.updateResult at 1. unfold modify at 1.
  unfold bind at 1. rewrite !loadData_fetched. cbv zeta.
  unfold bind at 1. rewrite !populateUserDropdown_run. cbv zeta.
  unfold bind at 1. rewrite !populateMovieDropdown_run. cbv zeta.
  unfold bind at 1. unfold Part000.updateResult at 1. unfold modify at 1.
  cbn [fst snd].
  match goal with
  | |- context [Part000.trainModel ?s] =>
      pose proof (trainModel_completes s) as C;
      destruct (Part000.trainModel s) as [c s']
  end.
  simpl in C. subst c. reflexivity.
Qed.

Lemma onload_fetch_failed (e : Error) (cmp : string -> string -> Z)
    (st : Part000.State) :
  Part000.onload (Throw e) cmp st =
    (Normal tt,
     Part000.set_result (Part000.InitError (message e))
       (Part000.logged
          [Part000.log "Starting data loading process...";
           Part000.error "Error loading data:" e;
           Part000.error "Initialization error:" e] st)).
Proof.
  unfold Part000.onload, tryCatch.
  unfold bind at 1. unfold Part000.updateResult at 1. unfold modify at 1.
  unfold bind at 1. rewrite loadData_failed.
  unfold bind, Part000.console_log, Part000.updateResult, modify,
    Part000.logged. simpl.
  repeat rewrite <- app_assoc. reflexivity.
Qed.

(** X8. [window.onload] of [part_000] never throws. When fetching or
    parsing the data failed, the page shows 'Error: <message>' and neither
    the data, the dropdowns, the model nor the training flag were touched:
    training is not started. When the data arrived and no training was in
    flight, the page ends with the data stored, as many user options as
    [numUsers], the flag cleared, and either the success message or
    'Training failed: ...'. *)
Theorem X8_onload_reports_and_never_throws
    (fetched : completion (list Part000.Movie * list Rating))
    (cmp : string -> string -> Z) (st : Part000.State) :
  let s' := snd (Part000.onload fetched cmp st) in
  fst (Part000.onload fetched cmp st) = Normal tt /\
  (forall e, fetched = Throw e ->
     Part000.result s' = Part000.InitError (message e) /\
     Part000.sameData st s' /\
     Part000.model s' = Part000.model st /\
     Part000.isTraining s' = Part000.isTraining st /\
     Part000.userOptions s' = Part000.userOptions st /\
     Part000.movieOptions s' = Part000.movieOptions st) /\
  (forall ms rs, fetched = Normal (ms, rs) ->
     Part000.isTraining st = false ->
     Part000.movies s' = ms /\ Part000.ratings s' = rs /\
     Part000.numUsers s' = Z.of_nat (length (Part000.userOptions s')) /\
     Part000.isTraining s' = false /\
     (Part000.result s' = Part000.Trained \/
      exists c, Part000.result s' = Part000.TrainingFailed c)).
Proof.
  cbv zeta. destruct fetched as [[ms rs]|e].
  - rewrite onload_fetched. split; [reflexivity|]. split.
    + intros e H. discriminate H.
    + intros ms' rs' H E. injection H as <- <-.
      set (s0 := afterLoading ms rs cmp st).
      assert (E0 : Part000.isTraining s0 = false) by exact E.
      destruct (trainModel_ends s0 E0) as (_ & (Dm & Dr & Du & _) & O).
      assert (Ho : Part000.userOptions (snd (Part000.trainModel s0)) =
                   Part000.userOptions s0).
      { rewrite (trainModel_run s0 E0).
        pose proof (trainBody_userOptions s0) as K.
        destruct (Part000.trainBody s0) as [[[]|e] s1]; exact K. }
      cbn [snd].
      rewrite Dm, Dr, Du, Ho.
      split; [reflexivity|]. split; [reflexivity|]. split.
      { unfold s0, afterLoading.
        rewrite loadData_fetched, populateUserDropdown_run,
          populateMovieDropdown_run. cbv zeta. simpl.
        rewrite (Permutation_length (sortBy_Permutation _ (uniq (map userId rs)))).
        reflexivity. }
      split.
      { rewrite (trainModel_run s0 E0).
        destruct (Part000.trainBody s0) as [[[]|e] s1]; reflexivity. }
      destruct O as [(R & _) | (e & _ & R & _)]; [left; exact R|].
      right. exists (message e). exact R.
  - rewrite onload_fetch_failed. split; [reflexivity|]. split.
    + intros e' H. injection H as <-. unfold Part000.sameData. simpl. auto 10.
    + intros ms rs H. discriminate H.
Qed.

(** X14. In [part_000], with user ids from 1 up, the user ids that
    [trainModel] hands to the fit after [loadData] are all rows of the user
    table it has just built exactly when the ids are [1 .. numUsers]
    without a gap. *)
Theorem X14_training_user_lookups_fit_iff_no_gap
    (ms : list Part000.Movie) (rs : list Rating) (st s1 : Part000.State)
    (m : LayersModel) (data : list Z * list Z * list Q) :
  (forall r, In r rs -> 1 <= userId r) ->
  let s := snd (Part000.loadData (Normal (ms, rs)) st) in
  Part000.trainSetup s = (Normal (m, data), s1) ->
  (Forall (fun u => 0 <= u < rowsOf (userEmbedding m)) (fst (fst data)) <->
   (forall k, 1 <= k <= Part000.numUsers s -> exists r, In r rs /\ userId r = k)).
Proof.
  intros Hpos s H.
  assert (Hn : Part000.numUsers s = Z.of_nat (length (uniq (map userId rs)))).
  { unfold s. rewrite loadData_fetched. reflexivity. }
  assert (Hr : Part000.ratings s = rs).
  { unfold s. rewrite loadData_fetched. reflexivity. }
  clearbody s.
  rewrite trainSetup_run in H.
  destruct (Part000.createModel _ _ _ _) as [[m0|e] s0] eqn:EC; [|discriminate H].
  destruct (createModel_rows _ _ _ _ _ _ EC) as (Ru & _).
  cbv zeta in H. injection H as <- <- <-. cbn [fst snd].
  change (rowsOf (userEmbedding (compile (Adam (1 # 1000)%Q) MeanSquaredError m0)))
    with (rowsOf (userEmbedding m0)).
  rewrite Ru, Hr, Hn.
  rewrite <- (ids_fit_iff_no_gap rs Hpos). cbv zeta.
  rewrite Forall_forall. split.
  - intros Hall r Hr'. specialize (Hall (userId r) (in_map userId _ _ Hr')). lia.
  - intros Hle u Hu. apply in_map_iff in Hu. destruct Hu as (r & <- & Hr').
    specialize (Hpos r Hr'). specialize (Hle r Hr'). lia.
Qed.

End Part000Effects.

(** X7 on the sample page when training is started. *)
Lemma X7_witness :
  Part000.isTraining Scenario.dataLoaded = false /\
  Part000.trainingStartTime (snd (Part000.trainModel Scenario.dataLoaded)) =
    Some 1000 /\
  Part000.predictBtnDisabled (snd (Part000.trainModel Scenario.dataLoaded)) =
    false.
Proof.
  assert (E : Part000.isTraining Scenario.dataLoaded = false)
    by (vm_compute; reflexivity).
  split; [exact E|].
  pose proof (X7_train_enables_button_only_on_success Scenario.dataLoaded E)
    as H.
  cbv zeta in H. destruct H as (T & _ & _).
  split; [exact T|]. vm_compute. reflexivity.
Defined.

(** ** Parsing and the dropdowns of [week3] *)

Definition shiftIds (line : Rating) : Rating :=
  mkRating (userId line - 1) (movieId line - 1) (rating line).

Lemma parseRatingData_run (lines : list Rating) :
  forall st : Week3.State,
    Week3.parseRatingData lines st =
      (Normal tt,
       Week3.set_ratings
         (Week3.ratings st ++ map shiftIds lines)
         (fold_left Z.max (map userId lines) (Week3.numUsers st)) st).
Proof.
  unfold Week3.parseRatingData, modify.
  induction lines as [|l lines IH]; intros st.
  - simpl. rewrite app_nil_r. destruct st; reflexivity.
  - simpl fold_left. specialize (IH
      (Week3.set_ratings
         (Week3.ratings st ++
          [mkRating (userId l - 1) (movieId l - 1) (rating l)])
         (Z.max (Week3.numUsers st) (userId l)) st)).
    injection IH as IH. rewrite IH. simpl.
    rewrite <- app_assoc. reflexivity.
Qed.





(** *** The object [movies] *)

Lemma keyEq_spec (a b : Week3.Key) : Week3.keyEq a b = true <-> a = b.
Proof.
  destruct a as [x|], b as [y|]; simpl; split; intros H;
    try discriminate; try reflexivity.
  - apply Z.eqb_eq in H. subst. reflexivity.
  - injection H as ->. apply Z.eqb_refl.
Qed.

Lemma keyEq_refl (a : Week3.Key) : Week3.keyEq a a = true.
Proof. apply keyEq_spec. reflexivity. Qed.

Lemma keyEq_neq (a b : Week3.Key) : a <> b -> Week3.keyEq a b = false.
Proof.
  intros N. destruct (Week3.keyEq a b) eqn:E; [|reflexivity].
  apply keyEq_spec in E. contradiction.
Qed.

(** The name [k] may stand somewhere before the name [k'] in the listing
    of an object: the two differ, and if [k'] is an array index then [k]
    is a smaller one. *)
Definition precedes (k k' : Week3.Key) : Prop :=
  k <> k' /\
  (Week3.isIndex k' = true ->
   Week3.isIndex k = true /\
   exists n n', k = Some n /\ k' = Some n' /\ n < n').

(** The order in which an object lists its names: distinct names, the
    array indices first and ascending, the other names after them. *)
Definition objectOrder (o : Week3.Obj) : Prop :=
  StronglySorted precedes (map fst o).

Lemma objGet_objSet_same (k : Week3.Key) (v : option string) (o : Week3.Obj) :
  Week3.objGet k (Week3.objSet k v o) = v.
Proof.
  induction o as [|[k' v'] rest IH]; simpl.
  - rewrite keyEq_refl. reflexivity.
  - destruct (Week3.keyEq k k') eqn:E; simpl.
    + rewrite keyEq_refl. reflexivity.
    + destruct (Week3.listedBefore k k'); simpl.
      * rewrite keyEq_refl. reflexivity.
      * rewrite E. exact IH.
Qed.

Lemma objGet_objSet_other (k k0 : Week3.Key) (v : option string) (o : Week3.Obj) :
  k0 <> k -> Week3.objGet k0 (Week3.objSet k v o) = Week3.objGet k0 o.
Proof.
  intros N. induction o as [|[k' v'] rest IH]; simpl.
  - rewrite (keyEq_neq _ _ N). reflexivity.
  - destruct (Week3.keyEq k k') eqn:E; simpl.
    + apply keyEq_spec in E. subst k'.
      rewrite (keyEq_neq _ _ N). reflexivity.
    + destruct (Week3.listedBefore k k'); simpl.
      * rewrite (keyEq_neq _ _ N). reflexivity.
      * rewrite IH. reflexivity.
Qed.

Lemma objSet_keys_In (k k0 : Week3.Key) (v : option string) (o : Week3.Obj) :
  In k0 (map fst (Week3.objSet k v o)) <-> k0 = k \/ In k0 (map fst o).
Proof.
  induction o as [|[k' v'] rest IH]; simpl.
  - intuition.
  - destruct (Week3.keyEq k k') eqn:E; simpl.
    + apply keyEq_spec in E. subst k'. intuition.
    + destruct (Week3.listedBefore k k'); simpl; [intuition|].
      rewrite IH. intuition.
Qed.

(** A name that is no array index goes to the end when it is new. *)
Lemma objSet_other_name (k : Week3.Key) (v : option string) (o : Week3.Obj) :
  Week3.isIndex k = false ->
  map fst (Week3.objSet k v o) =
    if existsb (Week3.keyEq k) (map fst o) then map fst o
    else map fst o ++ [k].
Proof.
  intros Hk. induction o as [|[k' v'] rest IH]; simpl; [reflexivity|].
  destruct (Week3.keyEq k k') eqn:E; simpl.
  - apply keyEq_spec in E. subst k'. reflexivity.
  - assert (L : Week3.listedBefore k k' = false).
    { unfold Week3.listedBefore. destruct k as [n|]; [|reflexivity].
      destruct k'; rewrite Hk; reflexivity. }
    rewrite L. simpl. rewrite IH.
    destruct (existsb (Week3.keyEq k) (map fst rest)); reflexivity.
Qed.

Lemma listedBefore_true (k k' : Week3.Key) :
  Week3.listedBefore k k' = true ->
  Week3.isIndex k = true /\
  (Week3.isIndex k' = true ->
   exists n n', k = Some n /\ k' = Some n' /\ n < n').
Proof.
  unfold Week3.listedBefore.
  destruct k as [n|]; [|discriminate].
  destruct k' as [n'|].
  - intros H. apply andb_true_iff in H. destruct H as [Hk H].
    split; [exact Hk|]. intros Hk'. rewrite Hk' in H. simpl in H.
    exists n, n'. split; [reflexivity|]. split; [reflexivity|].
    apply Z.ltb_lt. exact H.
  - intros H. split; [exact H|]. intros Habs. discriminate Habs.
Qed.

Lemma listedBefore_false (k k' : Week3.Key) :
  Week3.listedBefore k k' = false -> k <> k' ->
  Week3.isIndex k = true ->
  Week3.isIndex k' = true /\
  exists n n', k' = Some n' /\ k = Some n /\ n' < n.
Proof.
  unfold Week3.listedBefore.
  destruct k as [n|]; [|intros _ _ H; discriminate H].
  destruct k' as [n'|].
  - intros H N Hk. rewrite Hk in H. simpl in H.
    apply orb_false_iff in H. destruct H as [H1 H2].
    apply negb_false_iff in H1. split; [exact H1|].
    exists n, n'. split; [reflexivity|]. split; [reflexivity|].
    apply Z.ltb_ge in H2.
    assert (n <> n') by (intros ->; apply N; reflexivity). lia.
  - intros H _ Hk. rewrite Hk in H. discriminate H.
Qed.

Lemma objSet_objectOrder (k : Week3.Key) (v : option string) (o : Week3.Obj) :
  objectOrder o -> objectOrder (Week3.objSet k v o).
Proof.
  unfold objectOrder.
  induction o as [|[k' v'] rest IH]; simpl; intros H.
  - constructor; constructor.
  - inversion H as [|? ? Hs Hall]; subst.
    destruct (Week3.keyEq k k') eqn:E; simpl.
    + apply keyEq_spec in E. subst k'. constructor; assumption.
    + assert (N : k <> k').
      { intros ->. rewrite keyEq_refl in E. discriminate E. }
      destruct (Week3.listedBefore k k') eqn:L; simpl.
      * destruct (listedBefore_true _ _ L) as [Hk Hlt].
        constructor; [exact H|].
        constructor; [split; [exact N|]; intros Hk'; split; [exact Hk|];
                      exact (Hlt Hk')|].
        rewrite Forall_forall in *. intros z Hz.
        destruct (Hall z Hz) as [Nz Hzi].
        destruct (Week3.isIndex z) eqn:Iz.
        -- destruct (Hzi eq_refl) as (Hk' & a & b & -> & -> & Hab).
           destruct (Hlt Hk') as (n & n' & -> & En' & Hn).
           injection En' as <-.
           split; [intros Habs; injection Habs as ->; lia|].
           intros _. split; [exact Hk|].
           exists n, b. split; [reflexivity|]. split; [reflexivity|]. lia.
        -- split; [intros ->; congruence|].
           intros Habs. rewrite Iz in Habs. discriminate Habs.
      * constructor; [apply IH; exact Hs|].
        apply Forall_forall. intros z Hz.
        apply objSet_keys_In in Hz. destruct Hz as [->|Hz].
        -- split; [intros Habs; apply N; symmetry; exact Habs|].
           intros Hk.
           destruct (listedBefore_false _ _ L N Hk) as (Hk' & n & n' & -> & -> & Hn).
           split; [exact Hk'|]. exists n', n. auto.
        -- rewrite Forall_forall in Hall. apply Hall. exact Hz.
Qed.

Lemma objectOrder_lookup (o : Week3.Obj) (k : Week3.Key) (v : option string) :
  objectOrder o -> In (k, v) o -> Week3.objGet k o = v.
Proof.
  unfold objectOrder.
  induction o as [|[k' v'] rest IH]; simpl; intros H Hin; [contradiction|].
  inversion H as [|? ? Hs Hall]; subst.
  destruct Hin as [E|Hin].
  - injection E as -> ->. rewrite keyEq_refl. reflexivity.
  - destruct (Week3.keyEq k k') eqn:E.
    + apply keyEq_spec in E. subst k'. exfalso.
      rewrite Forall_forall in Hall.
      destruct (Hall k (in_map fst _ _ Hin)) as [N _]. apply N. reflexivity.
    + apply IH; assumption.
Qed.

(** In such a listing the array indices come strictly ascending, and no
    other name stands before one of them. *)
Lemma objectOrder_indices (o : Week3.Obj) :
  objectOrder o ->
  NoDup (map fst o) /\
  forall l1 k l2, map fst o = l1 ++ k :: l2 -> Week3.isIndex k = true ->
    Forall (fun k0 => Week3.isIndex k0 = true /\
                      exists n0 n, k0 = Some n0 /\ k = Some n /\ n0 < n) l1.
Proof.
  unfold objectOrder. intros H. split.
  - induction H as [|k l Hs IH Hall]; constructor; [|exact IH].
    intros Hin. rewrite Forall_forall in Hall.
    destruct (Hall k Hin) as [N _]. apply N. reflexivity.
  - intros l1 k l2 E Hk. rewrite E in H. clear E.
    induction l1 as [|k0 l1 IH]; [constructor|].
    simpl in H. inversion H as [|? ? Hs Hall]; subst.
    constructor; [|exact (IH Hs)].
    rewrite Forall_forall in Hall.
    assert (Hin : In k (l1 ++ k :: l2))
      by (apply in_or_app; right; left; reflexivity).
    destruct (Hall k Hin) as [_ Hi].
    destruct (Hi Hk) as (Hk0 & n0 & n & -> & -> & Hn).
    split; [exact Hk0|]. exists n0, n. auto.
Qed.

(** The names that are no array indices, as listed. *)
Definition otherNames (o : Week3.Obj) : list Week3.Key :=
  filter (fun k => negb (Week3.isIndex k)) (map fst o).

Definition indexNames (o : Week3.Obj) : list Week3.Key :=
  filter Week3.isIndex (map fst o).

(** A line naming [k] adds it to the other names when it is no array index
    and is not among them yet. *)
Definition noteName (names : list Week3.Key) (k : Week3.Key) : list Week3.Key :=
  if Week3.isIndex k || existsb (Week3.keyEq k) names then names
  else names ++ [k].

Lemma existsb_keyEq_filter (k : Week3.Key) (names : list Week3.Key) :
  Week3.isIndex k = false ->
  existsb (Week3.keyEq k)
    (filter (fun k0 => negb (Week3.isIndex k0)) names) =
  existsb (Week3.keyEq k) names.
Proof.
  intros Hk. induction names as [|k0 names IH]; simpl; [reflexivity|].
  destruct (Week3.isIndex k0) eqn:I; simpl.
  - rewrite IH. destruct (Week3.keyEq k k0) eqn:E; [|reflexivity].
    apply keyEq_spec in E. subst k0. congruence.
  - rewrite IH. reflexivity.
Qed.

Lemma objSet_otherNames (k : Week3.Key) (v : option string) (o : Week3.Obj) :
  otherNames (Week3.objSet k v o) = noteName (otherNames o) k.
Proof.
  unfold otherNames, noteName.
  destruct (Week3.isIndex k) eqn:Hk; simpl.
  - induction o as [|[k' v'] rest IH]; simpl.
    + rewrite Hk. reflexivity.
    + destruct (Week3.keyEq k k') eqn:E; simpl.
      * apply keyEq_spec in E. subst k'. reflexivity.
      * destruct (Week3.listedBefore k k'); simpl.
        -- rewrite Hk. reflexivity.
        -- rewrite IH. reflexivity.
  - rewrite (objSet_other_name k v o Hk), (existsb_keyEq_filter k _ Hk).
    destruct (existsb (Week3.keyEq k) (map fst o)); [reflexivity|].
    rewrite filter_app. simpl. rewrite Hk. reflexivity.
Qed.

Lemma filter_no_index (l : list Week3.Key) :
  Forall (fun z => Week3.isIndex z = false) l ->
  filter Week3.isIndex l = [] /\
  filter (fun k => negb (Week3.isIndex k)) l = l.
Proof.
  induction 1 as [|z l Hz Hl [IH1 IH2]]; simpl; [auto|].
  rewrite Hz. simpl. rewrite IH2. auto.
Qed.

(** The listing is that of the array indices followed by the other names. *)
Lemma objectOrder_split (o : Week3.Obj) :
  objectOrder o -> map fst o = indexNames o ++ otherNames o.
Proof.
  unfold objectOrder, indexNames, otherNames.
  induction 1 as [|k l Hs IH Hall]; simpl; [reflexivity|].
  destruct (Week3.isIndex k) eqn:Hk; simpl.
  - f_equal. exact IH.
  - assert (Hno : Forall (fun z => Week3.isIndex z = false) l).
    { eapply Forall_impl; [|exact Hall]. simpl. intros z [_ Hi].
      destruct (Week3.isIndex z) eqn:Iz; [|reflexivity].
      destruct (Hi eq_refl) as [Habs _]. congruence. }
    destruct (filter_no_index l Hno) as [E1 E2].
    rewrite E1, E2. reflexivity.
Qed.

Definition assignAll (items : list (Week3.Key * option string)) (o : Week3.Obj)
  : Week3.Obj :=
  fold_left (fun o it => Week3.objSet (fst it) (snd it) o) items o.

Lemma assignAll_objectOrder (items : list (Week3.Key * option string)) :
  forall o, objectOrder o -> objectOrder (assignAll items o).
Proof.
  unfold assignAll. induction items as [|it items IH]; intros o H; simpl.
  - exact H.
  - apply IH. apply objSet_objectOrder. exact H.
Qed.

Lemma assignAll_keys_In (items : list (Week3.Key * option string)) (k : Week3.Key) :
  forall o,
    In k (map fst (assignAll items o)) <->
    In k (map fst o) \/ In k (map fst items).
Proof.
  unfold assignAll. induction items as [|it items IH]; intros o; simpl.
  - tauto.
  - rewrite IH, objSet_keys_In. intuition.
Qed.

Lemma assignAll_otherNames (items : list (Week3.Key * option string)) :
  forall o,
    otherNames (assignAll items o) =
      fold_left noteName (map fst items) (otherNames o).
Proof.
  unfold assignAll. induction items as [|it items IH]; intros o; simpl.
  - reflexivity.
  - rewrite IH, objSet_otherNames. reflexivity.
Qed.

(** What the last line naming [k] assigned, if a line named it. *)
Definition lastAssigned (k : Week3.Key) (items : list (Week3.Key * option string))
  : option (option string) :=
  option_map snd (find (fun it => Week3.keyEq (fst it) k) (rev items)).

Lemma assignAll_lookup (items : list (Week3.Key * option string)) (k : Week3.Key) :
  forall o,
    Week3.objGet k (assignAll items o) =
      match lastAssigned k items with
      | Some t => t
      | None => Week3.objGet k o
      end.
Proof.
  unfold assignAll, lastAssigned.
  induction items as [|[k' t'] items IH] using rev_ind; intros o.
  - reflexivity.
  - rewrite fold_left_app, rev_app_distr. simpl.
    destruct (Week3.keyEq k' k) eqn:E.
    + apply keyEq_spec in E. subst k'. simpl. apply objGet_objSet_same.
    + rewrite objGet_objSet_other; [apply IH|].
      intros ->. rewrite keyEq_refl in E. discriminate E.
Qed.

Lemma parseItemData_run (items : list (Week3.Key * option string))
    (st : Week3.State) :
  Week3.parseItemData items st =
    (Normal tt,
     Week3.set_movies (assignAll items (Week3.movies st))
       (Z.of_nat (length (assignAll items (Week3.movies st)))) st).
Proof. reflexivity. Qed.

(** X10. [parseItemData] of [week3] keeps the listing of [movies] that of
    an object: distinct names, the array indices first in ascending order,
    the other names (a negative id, ['NaN'] from a line without a number)
    after them, a new one behind those already there. Afterwards the names
    are the old ones and those of the lines, [movies[id]] is what the last line naming [id] assigned (its
    second field, [undefined] when it has none), or what it was before
    when no line names it, and [numMovies] is the number of names. The
    ratings and [numUsers] are not touched. *)
Theorem X10_week3_movies_object_after_parsing
    (items : list (Week3.Key * option string)) (st : Week3.State) :
  objectOrder (Week3.movies st) ->
  let s' := snd (Week3.parseItemData items st) in
  objectOrder (Week3.movies s') /\
  (NoDup (map fst (Week3.movies s')) /\
   forall l1 k l2,
     map fst (Week3.movies s') = l1 ++ k :: l2 -> Week3.isIndex k = true ->
     Forall (fun k0 => Week3.isIndex k0 = true /\
                       exists n0 n, k0 = Some n0 /\ k = Some n /\ n0 < n) l1) /\
  map fst (Week3.movies s') =
    indexNames (Week3.movies s') ++ otherNames (Week3.movies s') /\
  otherNames (Week3.movies s') =
    fold_left noteName (map fst items) (otherNames (Week3.movies st)) /\
  (forall k : Week3.Key,
     In k (map fst (Week3.movies s')) <->
     In k (map fst (Week3.movies st)) \/ In k (map fst items)) /\
  (forall k : Week3.Key,
     Week3.objGet k (Week3.movies s') =
       match lastAssigned k items with
       | Some t => t
       | None => Week3.objGet k (Week3.movies st)
       end) /\
  Week3.numMovies s' = Z.of_nat (length (Week3.movies s')) /\
  Week3.ratings s' = Week3.ratings st /\
  Week3.numUsers s' = Week3.numUsers st.
Proof.
  intros H. cbv zeta. rewrite parseItemData_run. simpl.
  split; [apply assignAll_objectOrder; exact H|].
  split; [apply objectOrder_indices; apply assignAll_objectOrder; exact H|].
  split; [apply objectOrder_split; apply assignAll_objectOrder; exact H|].
  split; [apply assignAll_otherNames|].
  split; [intros k; apply assignAll_keys_In|].
  split; [intros k; apply assignAll_lookup|].
  auto.
Qed.

(** X10 on lines that name movie 1 twice, a negative id, and a blank
    line: the indices come first, then ['-1'] and ['NaN'] as they were met. *)
Lemma X10_witness :
  let s' :=
    snd (Week3.parseItemData
           [(Some 2, Some "GoldenEye (1995)"%string);
            (Some (-1), Some "Four Rooms (1995)"%string);
            (Some 1, Some "Toy Story"%string);
            (None, None);
            (Some 1, Some "Toy Story (1995)"%string)]
           (Week3.freshPage (Week3.Text ""))) in
  map fst (Week3.movies s') = [Some 1; Some 2; Some (-1); None] /\
  Week3.objGet (Some 1) (Week3.movies s') = Some "Toy Story (1995)"%string /\
  Week3.numMovies s' = 4 /\
  objectOrder (Week3.movies s').
Proof.
  cbv zeta. split; [vm_compute; reflexivity|].
  split; [vm_compute; reflexivity|].
  split; [vm_compute; reflexivity|].
  refine (proj1 (X10_week3_movies_object_after_parsing _
                   (Week3.freshPage (Week3.Text "")) _)).
  constructor.
Defined.

(** *** The dropdowns *)

(** The options [populateDropdowns] adds. *)
Definition addedUsers (st : Week3.State) : list Z :=
  map Z.of_nat (seq 0 (Z.to_nat (Week3.numUsers st))).

Definition addedMovies (st : Week3.State) : list (option Z * option string) :=
  map (fun kv => (option_map (fun movieId => movieId - 1) (fst kv), snd kv))
      (Week3.movies st).

Lemma populateDropdowns_run (st : Week3.State) :
  Week3.populateDropdowns st =
    (Normal tt,
     Week3.set_options
       (Week3.userOptions st ++ addedUsers st)
       (Week3.movieOptions st ++ addedMovies st) st).
Proof. reflexivity. Qed.

Lemma addedUsers_spec (st : Week3.State) :
  NoDup (addedUsers st) /\
  forall u : Z, In u (addedUsers st) <-> 0 <= u < Week3.numUsers st.
Proof.
  unfold addedUsers. split.
  - apply Injective_map_NoDup; [|apply seq_NoDup].
    intros a b H. lia.
  - intros u. rewrite in_map_iff. split.
    + intros (i & <- & Hi). apply in_seq in Hi. lia.
    + intros Hu. exists (Z.to_nat u). split; [lia|]. apply in_seq. lia.
Qed.

(** X11. In [week3], [populateDropdowns] clears nothing: it appends to
    the user dropdown one option for each index [0 .. numUsers - 1], once
    each and in order, and to the movie dropdown one option for each name
    of [movies], valued name - 1 and showing the stored title. So on
    empty dropdowns the user options are exactly these indices, and a
    second call leaves every option twice. For an option added for a
    numbered name, the title that [predictRating] looks up under the
    option's value plus one is the text of the option. *)
Theorem X11_week3_dropdowns_and_shown_title (st : Week3.State) :
  objectOrder (Week3.movies st) ->
  let s := snd (Week3.populateDropdowns st) in
  Week3.userOptions s = Week3.userOptions st ++ addedUsers st /\
  Week3.movieOptions s = Week3.movieOptions st ++ addedMovies st /\
  (NoDup (addedUsers st) /\
   forall u : Z, In u (addedUsers st) <-> 0 <= u < Week3.numUsers st) /\
  map fst (addedMovies st) =
    map (fun kv => option_map (fun movieId => movieId - 1) (fst kv))
        (Week3.movies st) /\
  (Week3.userOptions st = [] ->
   forall u : Z, In u (Week3.userOptions s) <-> 0 <= u < Week3.numUsers st) /\
  (Week3.userOptions (snd (Week3.populateDropdowns s)) =
     Week3.userOptions st ++ addedUsers st ++ addedUsers st /\
   Week3.movieOptions (snd (Week3.populateDropdowns s)) =
     Week3.movieOptions st ++ addedMovies st ++ addedMovies st) /\
  (forall (v : Z) (t : option string),
     In (Some v, t) (addedMovies st) ->
     Week3.objGet (option_map (fun mv => mv + 1) (Some v)) (Week3.movies s) = t).
Proof.
  intros Hk. cbv zeta. rewrite !populateDropdowns_run. cbn [snd].
  split; [reflexivity|]. split; [reflexivity|].
  split; [apply addedUsers_spec|].
  split; [unfold addedMovies; rewrite map_map; reflexivity|].
  split; [|split].
  - intros E u. simpl. rewrite E. simpl. apply addedUsers_spec.
  - simpl. rewrite <- !app_assoc. split; reflexivity.
  - intros v t Hin. unfold addedMovies in Hin.
    apply in_map_iff in Hin. destruct Hin as ([k t'] & E & Hin).
    simpl in E. destruct k as [n|]; [|discriminate E].
    simpl in E. injection E as <- <-. simpl.
    replace (n - 1 + 1) with n by lia.
    apply objectOrder_lookup; assumption.
Qed.

(** What a visitor or the page can start: the load handler, a click on
    the predict button with some selection, or a call of one of the
    functions. *)
Inductive Call :=
| CallOnload (items : list (Week3.Key * option string)) (lines : list Rating)
| CallPopulateDropdowns
| CallTrainModel
| CallPredictRating (user movie : option Z).

(** The page when [window.onload] reaches the call of [trainModel]. *)
Definition week3Parsed (items : list (Week3.Key * option string))
    (lines : list Rating) (st : Week3.State) : Week3.State :=
  snd (Week3.populateDropdowns
    (snd (Week3.parseRatingData lines
      (snd (Week3.parseItemData items
        (Week3.set_result (Week3.Text "Loading dataset...") st)))))).

Section Week3Effects.
Context {tf : TfBackend}.

Lemma week3_trainModel_error (st : Week3.State) :
  exists e : Error,
    Week3.trainModel st =
      (Throw e, Week3.set_result (Week3.Text "Training model...") st) /\
    (embedding (Week3.numUsers st) 20 = Throw e \/
     embedding (Week3.numMovies st) 20 = Throw e \/
     flatten (embeddingOutput (tf_input [])) = Throw e).
Proof.
  rewrite week3_trainModel_run. cbv zeta.
  rewrite week3_createModel_run. cbv zeta.
  change (Week3.numUsers (Week3.set_result (Week3.Text "Training model...") st))
    with (Week3.numUsers st).
  change (Week3.numMovies (Week3.set_result (Week3.Text "Training model...") st))
    with (Week3.numMovies st).
  destruct (embedding (Week3.numUsers st) 20) as [ut|e1]; [|eauto].
  destruct (embedding (Week3.numMovies st) 20) as [mt|e2]; [|eauto].
  simpl. eauto 6.
Qed.

Lemma week3_onload_run (items : list (Week3.Key * option string))
    (lines : list Rating) (st : Week3.State) :
  exists e : Error,
    Week3.onload items lines st =
      (Throw e,
       Week3.set_result (Week3.Text "Training model...")
         (week3Parsed items lines st)).
Proof.
  unfold Week3.onload, week3Parsed.
  unfold bind at 1. unfold modify at 1.
  unfold bind at 1. rewrite parseItemData_run. cbn [fst snd].
  unfold bind at 1. rewrite parseRatingData_run. cbn [fst snd].
  unfold bind at 1. rewrite populateDropdowns_run. cbn [fst snd].
  match goal with
  | |- context [Week3.trainModel ?s] =>
      destruct (week3_trainModel_throws s) as [e ->]
  end.
  exists e. reflexivity.
Qed.

(** X12. [trainModel] of [week3] never completes and never assigns the
    model: [createModel] throws, with the error of an embedding layer that
    could not be built or else with the one of [tf.layers.flatten], and
    nothing handles it. The page is left showing 'Training model...' and
    nothing else is written. So [window.onload] throws as well, once the
    data is parsed and the dropdowns are filled. *)
Theorem X12_week3_train_outcome (st : Week3.State) :
  (exists e : Error,
     Week3.trainModel st =
       (Throw e, Week3.set_result (Week3.Text "Training model...") st) /\
     (embedding (Week3.numUsers st) 20 = Throw e \/
      embedding (Week3.numMovies st) 20 = Throw e \/
      flatten (embeddingOutput (tf_input [])) = Throw e)) /\
  Week3.model (snd (Week3.trainModel st)) = Week3.model st /\
  (forall (items : list (Week3.Key * option string)) (lines : list Rating),
   exists e : Error,
     fst (Week3.onload items lines st) = Throw e /\
     let s' := snd (Week3.onload items lines st) in
     Week3.result s' = Week3.Text "Training model..." /\
     Week3.model s' = Week3.model st /\
     Week3.movies s' = assignAll items (Week3.movies st) /\
     Week3.ratings s' = Week3.ratings st ++ map shiftIds lines /\
     Week3.userOptions s' =
       Week3.userOptions st ++
       map Z.of_nat
         (seq 0 (Z.to_nat (fold_left Z.max (map userId lines)
                             (Week3.numUsers st))))).
Proof.
  split; [apply week3_trainModel_error|]. split.
  - destruct (week3_trainModel_throws st) as [e ->]. reflexivity.
  - intros items lines.
    destruct (week3_onload_run items lines st) as [e ->].
    exists e. split; [reflexivity|]. cbv zeta. unfold week3Parsed.
    rewrite parseItemData_run. cbn [snd].
    rewrite parseRatingData_run. cbn [snd].
    rewrite populateDropdowns_run. cbn [snd].
    repeat split; reflexivity.
Qed.

(** *** No rating is ever shown *)

(** The page after a call, whether it completed or threw. *)
Definition after (st : Week3.State) (c : Call) : Week3.State :=
  match c with
  | CallOnload items lines => snd (Week3.onload items lines st)
  | CallPopulateDropdowns => snd (Week3.populateDropdowns st)
  | CallTrainModel => snd (Week3.trainModel st)
  | CallPredictRating user movie =>
      snd (Week3.predictRating (Week3.select user movie st))
  end.

Definition neverTrained (st : Week3.State) : Prop :=
  Week3.model st = None /\ exists t, Week3.result st = Week3.Text t.

Lemma after_neverTrained (st : Week3.State) (c : Call) :
  neverTrained st -> neverTrained (after st c).
Proof.
  unfold neverTrained. intros [Hm Hr].
  destruct c as [items lines| | |user movie]; unfold after.
  - destruct (week3_onload_run items lines st) as [e ->]. cbn [snd].
    split; [|eexists; reflexivity]. unfold week3Parsed.
    rewrite parseItemData_run. cbn [snd].
    rewrite parseRatingData_run. cbn [snd].
    rewrite populateDropdowns_run. cbn [snd]. exact Hm.
  - rewrite populateDropdowns_run. simpl. auto.
  - destruct (week3_trainModel_throws st) as [e ->]. simpl.
    split; [exact Hm | eexists; reflexivity].
  - rewrite week3_predictRating_no_model by exact Hm. simpl. auto.
Qed.

(** X13. In [week3] no rating is ever shown. Whatever sequence of the
    load handler, [populateDropdowns], [trainModel] and clicks on the
    predict button (with any selection) the page has gone through since it
    was opened, the global [model] is still [undefined] and [#result]
    holds one of the fixed texts; so every call of [predictRating], for
    every selection, throws on [model.predict] and leaves the page as it
    is. *)
Theorem X13_week3_no_rating_is_ever_shown (t : string) (calls : list Call) :
  let st := fold_left after calls (Week3.freshPage (Week3.Text t)) in
  Week3.model st = None /\
  (exists t', Week3.result st = Week3.Text t') /\
  (forall user movie : option Z,
     Week3.predictRating (Week3.select user movie st) =
       (Throw (mkError "Cannot read properties of undefined (reading 'predict')"),
        Week3.select user movie st)).
Proof.
  cbv zeta.
  assert (H : neverTrained (fold_left after calls (Week3.freshPage (Week3.Text t)))).
  { assert (H0 : neverTrained (Week3.freshPage (Week3.Text t)))
      by (split; [reflexivity | eexists; reflexivity]).
    revert H0. generalize (Week3.freshPage (Week3.Text t)) as s.
    induction calls as [|c calls IH]; intros s Hs; simpl; [exact Hs|].
    apply IH. apply after_neverTrained. exact Hs. }
  destruct H as [Hm Hr]. split; [exact Hm|]. split; [exact Hr|].
  intros user movie. apply week3_predictRating_no_model. exact Hm.
Qed.

End Week3Effects.

(** X12 on the sample data: the page that [window.onload] leaves. *)
Lemma X12_witness :
  Week3.result Scenario.week3Opened = Week3.Text "Training model..." /\
  Week3.model Scenario.week3Opened = None /\
  Week3.userOptions Scenario.week3Opened = [0; 1; 2] /\
  Week3.movieOptions Scenario.week3Opened =
    [(Some 0, Some "Toy Story (1995)"%string);
     (Some 1, Some "GoldenEye (1995)"%string)].
Proof.
  destruct (X12_week3_train_outcome (Week3.freshPage (Week3.Text "")))
    as (_ & _ & H).
  destruct (H Scenario.week3Items Scenario.ratings) as (e & _ & Hr & Hm & _).
  split; [exact Hr|]. split; [exact Hm|].
  vm_compute. split; reflexivity.
Defined.

(** X11 on the sample page of [week3], whose dropdowns [window.onload]
    has already filled: a further call doubles the options. *)
Lemma X11_witness :
  objectOrder (Week3.movies Scenario.week3Opened) /\
  Week3.userOptions (snd (Week3.populateDropdowns Scenario.week3Opened)) =
    [0; 1; 2; 0; 1; 2] /\
  Week3.objGet (Some (1 + 1))
    (Week3.movies (snd (Week3.populateDropdowns Scenario.week3Opened))) =
    Some "GoldenEye (1995)"%string.
Proof.
  assert (K : objectOrder (Week3.movies Scenario.week3Opened)).
  { assert (E : Week3.movies Scenario.week3Opened =
                 assignAll Scenario.week3Items []) by (vm_compute; reflexivity).
    rewrite E. apply assignAll_objectOrder. constructor. }
  split; [exact K|]. split; [vm_compute; reflexivity|].
  pose proof (X11_week3_dropdowns_and_shown_title Scenario.week3Opened K) as H.
  cbv zeta in H. destruct H as (_ & _ & _ & _ & _ & _ & H).
  refine (H 1 (Some "GoldenEye (1995)"%string) _).
  vm_compute. right. left. reflexivity.
Defined.

(** X14 on the sample ratings: the ids 1, 2, 3 all have a row. *)
Lemma X14_witness :
  let s := snd (Part000.loadData (Normal (Scenario.movies, Scenario.ratings))
                  Scenario.page) in
  exists m data s1,
    Part000.trainSetup s = (Normal (m, data), s1) /\
    Forall (fun u => 0 <= u < rowsOf (userEmbedding m)) (fst (fst data)).
Proof.
  intros s.
  destruct (Part000.trainSetup s) as [[[m data]|e] s1] eqn:E;
    [|exfalso; revert E; vm_compute; discriminate].
  exists m, data, s1. split; [reflexivity|].
  assert (Hpos : forall r, In r Scenario.ratings -> 1 <= userId r).
  { intros r Hr. simpl in Hr.
    repeat (destruct Hr as [<-|Hr]; [simpl; lia|]). contradiction. }
  apply (proj2 (X14_training_user_lookups_fit_iff_no_gap
                  Scenario.movies Scenario.ratings Scenario.page s1 m data
                  Hpos E)).
  intros k Hk. change (1 <= k <= 3) in Hk.
  assert (k = 1 \/ k = 2 \/ k = 3) as [-> | [-> | ->]] by lia.
  - exists (mkRating 1 1 5). split; [simpl; auto | reflexivity].
  - exists (mkRating 2 1 3). split; [simpl; auto | reflexivity].
  - exists (mkRating 3 2 4). split; [simpl; auto | reflexivity].
Defined.

(** ** The content-based recommender: genre vectors *)

Definition binary (v : list Z) : Prop := Forall (fun x => x = 0 \/ x = 1) v.

Lemma setOne_length (i : nat) (v : list Z) :
  length (Content.setOne i v) = length v.
Proof.
  revert i. induction v as [|x v IH]; intros [|i]; simpl; auto.
Qed.

Lemma setOne_binary (i : nat) (v : list Z) :
  binary v -> binary (Content.setOne i v).
Proof.
  unfold binary. revert i.
  induction v as [|x v IH]; intros [|i] H; simpl; auto;
    inversion H; subst; constructor; auto.
Qed.

Lemma setOne_nth (i j : nat) (v : list Z) :
  nth j (Content.setOne i v) 0 = 1 <->
  (j = i /\ (i < length v)%nat) \/ nth j v 0 = 1.
Proof.
  revert i j. induction v as [|x v IH]; intros i j.
  - destruct i, j; simpl; split; intros H; try discriminate H;
      destruct H as [[_ H]|H]; try lia; discriminate H.
  - destruct i as [|i], j as [|j]; simpl.
    + split; [intros _; left; split; [reflexivity|lia] | reflexivity].
    + split; [intros H; right; exact H |].
      intros [[H _]|H]; [discriminate H | exact H].
    + split; [intros H; right; exact H |].
      intros [[H _]|H]; [discriminate H | exact H].
    + rewrite IH. split.
      * intros [[-> H]|H]; [left; split; [reflexivity|lia] | right; exact H].
      * intros [[E H]|H]; [left; split; [lia|lia] | right; exact H].
Qed.

Lemma indexIn_found (g : string) (names : list string) :
  forall k i,
    Content.indexIn g names k = Some i ->
    (k <= i)%nat /\ nth_error names (i - k) = Some g.
Proof.
  induction names as [|n names IH]; intros k i; simpl; [discriminate|].
  destruct (String.eqb_spec g n) as [->|N].
  - intros H. injection H as <-. rewrite Nat.sub_diag. auto.
  - intros H. destruct (IH (S k) i H) as [Hle Hn]. split; [lia|].
    replace (i - k)%nat with (S (i - S k)) by lia. exact Hn.
Qed.

Lemma indexIn_first (g : string) (names : list string) :
  NoDup names ->
  forall k j,
    nth_error names j = Some g -> Content.indexIn g names k = Some (k + j)%nat.
Proof.
  induction 1 as [|n names Hnin Hnd IH]; intros k j; simpl.
  - destruct j; discriminate.
  - destruct j as [|j]; simpl.
    + intros H. injection H as ->. rewrite String.eqb_refl.
      f_equal. lia.
    + intros H. destruct (String.eqb_spec g n) as [->|N].
      * exfalso. apply Hnin. exact (nth_error_In _ _ H).
      * rewrite (IH (S k) j H). f_equal. lia.
Qed.

Lemma GENRES_18_NoDup : NoDup Content.GENRES_18.
Proof.
  assert (H : nodup string_dec Content.GENRES_18 = Content.GENRES_18)
    by (vm_compute; reflexivity).
  rewrite <- H. apply NoDup_nodup.
Qed.

Lemma GENRE_TO_IDX_spec (g : string) (i : nat) :
  Content.GENRE_TO_IDX g = Some i <-> nth_error Content.GENRES_18 i = Some g.
Proof.
  unfold Content.GENRE_TO_IDX. split; intros H.
  - destruct (indexIn_found _ _ _ _ H) as [_ Hn].
    rewrite Nat.sub_0_r in Hn. exact Hn.
  - exact (indexIn_first g _ GENRES_18_NoDup 0%nat i H).
Qed.

Definition markGenre (v : list Z) (g : string) : list Z :=
  match Content.GENRE_TO_IDX g with
  | Some idx => Content.setOne idx v
  | None => v
  end.

Lemma markGenres_spec (gs : list string) :
  forall v : list Z,
    length (fold_left markGenre gs v) = length v /\
    (binary v -> binary (fold_left markGenre gs v)) /\
    (forall i,
       nth i (fold_left markGenre gs v) 0 = 1 <->
       nth i v 0 = 1 \/
       ((i < length v)%nat /\ exists g, In g gs /\ Content.GENRE_TO_IDX g = Some i)).
Proof.
  induction gs as [|g gs IH]; intros v; simpl.
  - split; [reflexivity|]. split; [auto|].
    intros i. split; [auto|]. intros [H|(_ & g & [] & _)]. exact H.
  - destruct (IH (markGenre v g)) as (L & B & N).
    assert (Lg : length (markGenre v g) = length v).
    { unfold markGenre. destruct (Content.GENRE_TO_IDX g);
        [apply setOne_length | reflexivity]. }
    split; [rewrite L; exact Lg|]. split.
    + intros Hb. apply B. unfold markGenre.
      destruct (Content.GENRE_TO_IDX g); [apply setOne_binary|]; exact Hb.
    + intros i. rewrite N, Lg. unfold markGenre.
      destruct (Content.GENRE_TO_IDX g) as [idx|] eqn:G.
      * rewrite setOne_nth. split.
        -- intros [[[-> Hlt]|H]|(Hlt & g' & Hin & Hg')].
           ++ right. split; [exact Hlt|]. exists g. auto.
           ++ left. exact H.
           ++ right. split; [exact Hlt|]. exists g'. auto.
        -- intros [H|(Hlt & g' & [<-|Hin] & Hg')].
           ++ left. right. exact H.
           ++ left. left. rewrite G in Hg'. injection Hg' as ->. auto.
           ++ right. split; [exact Hlt|]. exists g'. auto.
      * split.
        -- intros [H|(Hlt & g' & Hin & Hg')]; [left; exact H|].
           right. split; [exact Hlt|]. exists g'. auto.
        -- intros [H|(Hlt & g' & [<-|Hin] & Hg')]; [left; exact H | |].
           ++ rewrite G in Hg'. discriminate Hg'.
           ++ right. split; [exact Hlt|]. exists g'. auto.
Qed.

Lemma toGenreVector_fold (gs : list string) :
  Content.toGenreVector (Some gs) = fold_left markGenre gs (repeat 0 18).
Proof. reflexivity. Qed.

Lemma repeat0_nth (n i : nat) : nth i (repeat 0 n) 0 = 0.
Proof.
  revert i. induction n as [|n IH]; intros [|i]; simpl; auto.
Qed.

Lemma toGenreVector_shape (genres : option (list string)) :
  length (Content.toGenreVector genres) = 18%nat /\
  binary (Content.toGenreVector genres).
Proof.
  assert (B0 : binary (repeat 0 18)).
  { unfold binary. apply Forall_forall. intros x Hx.
    apply repeat_spec in Hx. auto. }
  destruct genres as [gs|]; [|split; [reflexivity | exact B0]].
  rewrite toGenreVector_fold.
  destruct (markGenres_spec gs (repeat 0 18)) as (L & B & _).
  split; [rewrite L; reflexivity | exact (B B0)].
Qed.

(** X15. [toGenreVector] always returns 18 entries, each 0 or 1. For an
    array of names, entry [i] is 1 exactly when the [i]-th name of
    [GENRES_18] occurs in the array: names outside the list, repetitions
    and the order of the names change nothing. For an argument that is not
    an array all entries are 0. *)
Theorem X15_genre_vector (genres : option (list string)) :
  length (Content.toGenreVector genres) = 18%nat /\
  binary (Content.toGenreVector genres) /\
  (forall (gs : list string) (i : nat),
     genres = Some gs ->
     (nth i (Content.toGenreVector genres) 0 = 1 <->
      exists g, In g gs /\ nth_error Content.GENRES_18 i = Some g)) /\
  (genres = None -> Content.toGenreVector genres = repeat 0 18).
Proof.
  assert (B0 : binary (repeat 0 18)).
  { unfold binary. apply Forall_forall. intros x Hx.
    apply repeat_spec in Hx. auto. }
  destruct genres as [gs|].
  - rewrite toGenreVector_fold.
    destruct (markGenres_spec gs (repeat 0 18)) as (L & B & N).
    split; [rewrite L; reflexivity|]. split; [exact (B B0)|].
    split; [|intros H; discriminate H].
    intros gs' i E. injection E as <-. rewrite N, repeat0_nth. split.
    + intros [H|(_ & g & Hin & Hg)]; [discriminate H|].
      exists g. split; [exact Hin|]. apply GENRE_TO_IDX_spec. exact Hg.
    + intros (g & Hin & Hg). right. split.
      * rewrite repeat_length.
        change 18%nat with (length Content.GENRES_18).
        apply nth_error_Some. rewrite Hg. discriminate.
      * exists g. split; [exact Hin|]. apply GENRE_TO_IDX_spec. exact Hg.
  - split; [reflexivity|]. split; [exact B0|].
    split; [intros gs i H; discriminate H | reflexivity].
Qed.

(** ** The content-based recommender: Jaccard similarity *)

Definition sumZ (v : list Z) : Z := fold_right Z.add 0 v.

(** The positions where both vectors hold a 1, counted. *)
Fixpoint common (a b : list Z) : Z :=
  match a, b with
  | x :: a', y :: b' => Content.bitAnd x y + common a' b'
  | _, _ => 0
  end.

Lemma bitAnd_binary (x y : Z) :
  (x = 0 \/ x = 1) -> (y = 0 \/ y = 1) ->
  Content.bitAnd x y = x * y /\ Content.bitAnd x y = Content.bitAnd y x.
Proof. intros [-> | ->] [-> | ->]; split; reflexivity. Qed.

Lemma jaccardLoop_same_length (a : list Z) :
  forall (b : list Z) (d sa sb : Z),
    length a = length b ->
    Content.jaccardLoop a b d sa (Some sb) =
      (d + common a b, sa + sumZ a, Some (sb + sumZ b)).
Proof.
  induction a as [|x a IH]; intros [|y b] d sa sb L; simpl in *;
    try discriminate L.
  - rewrite !Z.add_0_r. reflexivity.
  - injection L as L. rewrite (IH b _ _ _ L).
    f_equal; [f_equal|f_equal]; lia.
Qed.

Lemma jaccardLoop_NaN_stays (a : list Z) :
  forall (b : list Z) (d sa : Z),
    snd (Content.jaccardLoop a b d sa None) = None.
Proof.
  induction a as [|x a IH]; intros [|y b] d sa; simpl; auto.
Qed.

Lemma jaccardLoop_short (a : list Z) :
  forall (b : list Z) (d sa : Z) (sb : option Z),
    (length b < length a)%nat ->
    snd (Content.jaccardLoop a b d sa sb) = None.
Proof.
  induction a as [|x a IH]; intros [|y b] d sa sb L; simpl in *; try lia.
  - apply jaccardLoop_NaN_stays.
  - apply IH. lia.
Qed.

Lemma binary_sum_nonneg (a : list Z) : binary a -> 0 <= sumZ a.
Proof.
  unfold binary, sumZ. induction 1 as [|x a Hx Ha IH]; simpl; [lia|].
  destruct Hx as [-> | ->]; lia.
Qed.

Lemma binary_sums (a : list Z) :
  binary a ->
  forall b, binary b ->
    0 <= common a b /\ common a b <= sumZ a /\ common a b <= sumZ b /\
    common a b = common b a.
Proof.
  induction 1 as [|x a Hx Ha IH]; intros b Hb.
  - pose proof (binary_sum_nonneg b Hb).
    destruct b; simpl; unfold sumZ in *; simpl in *; lia.
  - pose proof (binary_sum_nonneg (x :: a) (Forall_cons x Hx Ha)) as Hxa.
    destruct b as [|y b]; simpl.
    + unfold sumZ in *. simpl in *. lia.
    + inversion Hb as [|? ? Hy Hb']; subst.
      destruct (IH b Hb') as (H0 & H1 & H2 & H3).
      destruct (bitAnd_binary x y Hx Hy) as [E S].
      rewrite <- S, E, <- H3. unfold sumZ in *. simpl.
      destruct Hx as [-> | ->], Hy as [-> | ->]; lia.
Qed.

Lemma common_zero_iff (a : list Z) :
  binary a ->
  forall b, binary b ->
    (common a b = 0 <-> forall i, ~ (nth i a 0 = 1 /\ nth i b 0 = 1)).
Proof.
  unfold binary. induction 1 as [|x a Hx Ha IH]; intros b Hb.
  - simpl. split; [|reflexivity].
    intros _ i [H _]. destruct i; discriminate H.
  - destruct b as [|y b]; simpl.
    + split; [|reflexivity]. intros _ i [_ H]. destruct i; discriminate H.
    + inversion Hb as [|? ? Hy Hb']; subst.
      destruct (binary_sums a Ha b Hb') as (H0 & _).
      destruct (bitAnd_binary x y Hx Hy) as [E _]. rewrite E.
      specialize (IH b Hb'). split.
      * intros H [|i] [Hi1 Hi2]; cbn [nth] in *.
        -- subst. lia.
        -- assert (common a b = 0) as C
             by (destruct Hx as [-> | ->], Hy as [-> | ->]; lia).
           exact (proj1 IH C i (conj Hi1 Hi2)).
      * intros H.
        assert (common a b = 0) as C.
        { apply IH. intros i Hi. exact (H (S i) Hi). }
        rewrite C.
        destruct Hx as [-> | ->], Hy as [-> | ->]; try reflexivity.
        exfalso. apply (H 0%nat). cbn [nth]. auto.
Qed.

Lemma binary_has_one (a : list Z) : binary a -> (In 1 a <-> sumZ a <> 0).
Proof.
  induction 1 as [|x a Hx Ha IH].
  - unfold sumZ. cbn [In fold_right]. split; [contradiction | lia].
  - pose proof (binary_sum_nonneg a Ha) as Hn.
    unfold sumZ in *. cbn [In fold_right].
    destruct Hx as [-> | ->]; split.
    + intros [H'|H']; [discriminate H'|]. apply IH in H'. lia.
    + intros H'. right. apply IH. lia.
    + intros _. lia.
    + intros _. left. reflexivity.
Qed.

Lemma common_self (a : list Z) : binary a -> common a a = sumZ a.
Proof.
  unfold binary, sumZ. induction 1 as [|x a Hx Ha IH]; simpl; [reflexivity|].
  rewrite IH. destruct Hx as [-> | ->]; reflexivity.
Qed.

Lemma ratio_in_unit (d u : Z) :
  0 <= d <= u -> 0 < u ->
  (0 <= inject_Z d / inject_Z u)%Q /\ (inject_Z d / inject_Z u <= 1)%Q.
Proof.
  intros [Hd Hu] Hpos.
  assert (Hq : (0 < inject_Z u)%Q).
  { change 0%Q with (inject_Z 0). rewrite <- Zlt_Qlt. exact Hpos. }
  split.
  - apply Qle_shift_div_l; [exact Hq|].
    rewrite Qmult_0_l. change 0%Q with (inject_Z 0).
    rewrite <- Zle_Qle. exact Hd.
  - apply Qle_shift_div_r; [exact Hq|].
    rewrite Qmult_1_l. rewrite <- Zle_Qle. exact Hu.
Qed.

(** X16. For two vectors of 0s and 1s of the same length,
    [jaccardSimilarity] returns a number between 0 and 1, the same in both
    argument orders; it is 0 exactly when no position holds a 1 in both
    (two all-zero vectors included), and a vector with a 1 has similarity
    1 with itself. When the second vector is shorter than the first the
    result is [NaN]. *)
Theorem X16_jaccard_similarity (a b : list Z) :
  binary a -> binary b -> length a = length b ->
  (exists q : Q,
     Content.jaccardSimilarity a b = Some q /\
     Content.jaccardSimilarity b a = Some q /\
     (0 <= q)%Q /\ (q <= 1)%Q /\
     ((q == 0)%Q <-> forall i, ~ (nth i a 0 = 1 /\ nth i b 0 = 1))) /\
  (exists q : Q,
     Content.jaccardSimilarity a a = Some q /\
     (In 1 a -> (q == 1)%Q) /\ (~ In 1 a -> (q == 0)%Q)) /\
  (forall c : list Z,
     (length c < length a)%nat -> Content.jaccardSimilarity a c = None).
Proof.
  intros Ba Bb L.
  destruct (binary_sums a Ba b Bb) as (H0 & H1 & H2 & Hs).
  pose proof (common_zero_iff a Ba b Bb) as Z0.
  split; [|split].
  - unfold Content.jaccardSimilarity.
    rewrite (jaccardLoop_same_length a b 0 0 0 L).
    rewrite (jaccardLoop_same_length b a 0 0 0 (eq_sym L)).
    rewrite <- Hs. simpl.
    replace (sumZ b + sumZ a - common a b) with (sumZ a + sumZ b - common a b)
      by lia.
    destruct (Z.eqb_spec (sumZ a + sumZ b - common a b) 0) as [E|N].
    + exists 0%Q. repeat split; try reflexivity; try discriminate.
      intros _. apply Z0. lia.
    + exists (inject_Z (common a b) / inject_Z (sumZ a + sumZ b - common a b))%Q.
      destruct (ratio_in_unit (common a b) (sumZ a + sumZ b - common a b))
        as [Q0 Q1]; [lia | lia |].
      repeat split; try assumption.
      * intros Hq. apply Z0.
        destruct (Z.eq_dec (common a b) 0) as [C|C]; [exact C|].
        exfalso.
        assert (Hpos : (0 < inject_Z (common a b)
                            / inject_Z (sumZ a + sumZ b - common a b))%Q).
        { apply Qlt_shift_div_l.
          - change 0%Q with (inject_Z 0). rewrite <- Zlt_Qlt. lia.
          - rewrite Qmult_0_l. change 0%Q with (inject_Z 0).
            rewrite <- Zlt_Qlt. lia. }
        rewrite Hq in Hpos. discriminate Hpos.
      * intros Hn. apply Z0 in Hn. rewrite Hn. reflexivity.
  - unfold Content.jaccardSimilarity.
    rewrite (jaccardLoop_same_length a a 0 0 0 eq_refl), (common_self a Ba).
    simpl.
    replace (sumZ a + sumZ a - sumZ a) with (sumZ a) by lia.
    pose proof (binary_has_one a Ba) as Hone.
    destruct (Z.eqb_spec (sumZ a) 0) as [E|N].
    + exists 0%Q. split; [reflexivity|]. split; [|reflexivity].
      intros Hin. apply Hone in Hin. contradiction.
    + exists (inject_Z (sumZ a) / inject_Z (sumZ a))%Q.
      split; [reflexivity|]. split.
      * intros _. apply Qmult_inv_r.
        intros Hq. apply N. apply inject_Z_injective. exact Hq.
      * intros Hn. exfalso. apply Hn. apply Hone. exact N.
  - intros c Lc. unfold Content.jaccardSimilarity.
    pose proof (jaccardLoop_short a c 0 0 (Some 0) Lc) as S.
    destruct (Content.jaccardLoop a c 0 0 (Some 0)) as [[d sa] sb].
    simpl in S. subst sb. reflexivity.
Qed.

(** X16 on the genre vectors of two sets of genre names. *)
Lemma X16_witness :
  exists q : Q,
    Content.jaccardSimilarity
      (Content.toGenreVector (Some ["Action"; "Comedy"]%string))
      (Content.toGenreVector (Some ["Comedy"; "Drama"; "War"]%string)) = Some q /\
    (q == 1 # 4)%Q.
Proof.
  destruct (X16_jaccard_similarity
              (Content.toGenreVector (Some ["Action"; "Comedy"]%string))
              (Content.toGenreVector (Some ["Comedy"; "Drama"; "War"]%string))
              (proj2 (toGenreVector_shape _))
              (proj2 (toGenreVector_shape _))
              ltac:(reflexivity)) as ((q & E & _) & _).
  exists q. split; [exact E|].
  revert E. vm_compute. intros E. injection E as <-. reflexivity.
Defined.

(** ** The content-based recommender: [getRecommendations] *)

Lemma firstn_In {A} (n : nat) (l : list A) (x : A) :
  In x (firstn n l) -> In x l.
Proof.
  revert l. induction n as [|n IH]; intros [|y l]; simpl; try contradiction.
  intros [H|H]; [left; exact H | right; apply IH; exact H].
Qed.

Section Recommendations.
Variable cosineSimilarity : list Z -> list Z -> option Q.
Variable localeCompare : string -> string -> Z.

Definition candidatesOf (s : Content.State) (n : Z) : list Content.Movie :=
  filter (fun m => negb (Content.id m =? n)) (Content.movies s).

Lemma scoredCandidates_Permutation (s : Content.State) (liked : Content.Movie) :
  exists simFn,
    simFn = (if String.eqb (Content.getSelectedMetric s) "jaccard"
             then Content.jaccardSimilarity else cosineSimilarity) /\
    Permutation
      (Content.scoredCandidates cosineSimilarity localeCompare s liked)
      (map (fun cand =>
              Content.mkScored cand
                (simFn (Content.toGenreVector (Some (Content.genres liked)))
                       (Content.toGenreVector (Some (Content.genres cand)))))
           (candidatesOf s (Content.id liked))).
Proof.
  eexists. split; [reflexivity|].
  unfold Content.scoredCandidates. cbv zeta. apply sortBy_Permutation.
Qed.

(** X17. In [part_001], [getRecommendations] changes nothing when the
    dropdown or the result element is missing, asks to choose a movie when
    the selection is empty, and reports 'not found' exactly when no movie
    has the selected id. Otherwise it lists the first [TOP_N] = 5 scored
    candidates: never a movie with the selected id, only movies of the
    catalogue, as many as there are other movies up to five, and the 'no
    similar titles' text only when every movie has the selected id. *)
Theorem X17_recommendations_never_list_the_selected_movie (s : Content.State) :
  ((Content.movieSelect s = None \/ Content.result s = None) ->
   Content.getRecommendations cosineSimilarity localeCompare s = s) /\
  (forall r0, Content.result s = Some r0 ->
     Content.movieSelect s = Some Content.Empty ->
     Content.getRecommendations cosineSimilarity localeCompare s =
       Content.set_result (Content.Text "Please choose a movie first.") s) /\
  (forall r0 n, Content.result s = Some r0 ->
     Content.movieSelect s = Some (Content.Value (Some n)) ->
     (Content.getRecommendations cosineSimilarity localeCompare s =
        Content.set_result
          (Content.Text "Selected movie was not found. Please try another.") s
      <-> forall m, In m (Content.movies s) -> Content.id m <> n)) /\
  (forall r0 n liked, Content.result s = Some r0 ->
     Content.movieSelect s = Some (Content.Value (Some n)) ->
     find (fun m => Content.id m =? n) (Content.movies s) = Some liked ->
     let top :=
       firstn Content.TOP_N
         (Content.scoredCandidates cosineSimilarity localeCompare s liked) in
     Content.getRecommendations cosineSimilarity localeCompare s =
       Content.set_result
         (match top with
          | [] => Content.NoSimilar (Content.title liked)
          | _ =>
              Content.Recommend (Content.title liked)
                (Content.metricLabel (Content.getSelectedMetric s))
                (map (fun x => (Content.title (Content.movie x),
                                Content.fmt (Content.score x))) top)
          end) s /\
     length top = Nat.min 5 (length (candidatesOf s n)) /\
     Forall (fun x => In (Content.movie x) (Content.movies s) /\
                      Content.id (Content.movie x) <> n) top /\
     (top = [] <-> forall m, In m (Content.movies s) -> Content.id m = n)).
Proof.
  split; [|split; [|split]].
  - unfold Content.getRecommendations.
    intros [E|E]; rewrite E; [reflexivity|].
    destruct (Content.movieSelect s); reflexivity.
  - intros r0 Er Es. unfold Content.getRecommendations.
    rewrite Er, Es. reflexivity.
  - intros r0 n Er Es. unfold Content.getRecommendations. rewrite Er, Es.
    destruct (find (fun m => Content.id m =? n) (Content.movies s))
      as [liked|] eqn:F.
    + split.
      * intros H. exfalso.
        destruct (firstn Content.TOP_N _) in H; unfold Content.set_result in H;
          injection H as H; discriminate H.
      * intros H. exfalso. destruct (find_some _ _ F) as [Hin Hid].
        apply (H liked Hin). apply Z.eqb_eq. exact Hid.
    + split; [|reflexivity].
      intros _ m Hin Hid.
      pose proof (find_none _ _ F m Hin) as Hn. simpl in Hn.
      apply Z.eqb_neq in Hn. contradiction.
  - intros r0 n liked Er Es F. cbv zeta.
    destruct (find_some _ _ F) as [Hin Hid]. apply Z.eqb_eq in Hid.
    destruct (scoredCandidates_Permutation s liked) as (simFn & _ & P).
    rewrite Hid in P.
    set (l := Content.scoredCandidates cosineSimilarity localeCompare s liked) in *.
    split; [|split; [|split]].
    + unfold Content.getRecommendations. rewrite Er, Es, F. fold l.
      destruct (firstn Content.TOP_N l); reflexivity.
    + rewrite length_firstn, (Permutation_length P), length_map. reflexivity.
    + apply Forall_forall. intros x Hx.
      apply firstn_In in Hx. apply (Permutation_in x P) in Hx.
      apply in_map_iff in Hx. destruct Hx as (cand & <- & Hc).
      unfold candidatesOf in Hc. apply filter_In in Hc.
      destruct Hc as [Hc Hne]. simpl. split; [exact Hc|].
      apply negb_true_iff in Hne. apply Z.eqb_neq. exact Hne.
    + assert (Hlen : length l = length (candidatesOf s n)).
      { rewrite (Permutation_length P), length_map. reflexivity. }
      split.
      * intros Htop m Hm.
        destruct (Z.eq_dec (Content.id m) n) as [E|N]; [exact E|]. exfalso.
        assert (Hc : In m (candidatesOf s n)).
        { unfold candidatesOf. apply filter_In. split; [exact Hm|].
          apply negb_true_iff. apply Z.eqb_neq. exact N. }
        destruct l as [|x l']; [|discriminate Htop].
        simpl in Hlen. destruct (candidatesOf s n); [contradiction|discriminate].
      * intros Hall.
        assert (Hc : candidatesOf s n = []).
        { unfold candidatesOf.
          destruct (filter _ _) as [|m rest] eqn:Fl; [reflexivity|].
          exfalso. assert (Hm : In m (m :: rest)) by (left; reflexivity).
          rewrite <- Fl in Hm. apply filter_In in Hm. destruct Hm as [Hm Hne].
          apply negb_true_iff in Hne. apply Z.eqb_neq in Hne.
          exact (Hne (Hall m Hm)). }
        rewrite Hc in Hlen. destruct l; [reflexivity | discriminate Hlen].
Qed.

End Recommendations.

(** Sorting a list whose elements all satisfy [P], with a comparison that
    is a total preorder on such elements. *)
Section SortedOn.
Context {A : Type} (compare : A -> A -> Z) (P : A -> Prop).
Hypothesis total_on : forall a b, P a -> P b -> compare a b <= 0 \/ compare b a <= 0.
Hypothesis trans_on :
  forall a b c, P a -> P b -> P c ->
    compare a b <= 0 -> compare b c <= 0 -> compare a c <= 0.

Lemma insertBy_sorted_on (x : A) (l : list A) :
  P x -> Forall P l ->
  StronglySorted (fun a b => compare a b <= 0) l ->
  StronglySorted (fun a b => compare a b <= 0) (insertBy compare x l).
Proof.
  intros Px Pl. induction 1 as [|y rest Hs IH Hall]; simpl.
  - constructor; constructor.
  - inversion Pl as [|? ? Py Prest]; subst.
    destruct (Z.leb_spec (compare x y) 0) as [Hle|Hgt].
    + constructor.
      * constructor; assumption.
      * constructor; [exact Hle|].
        rewrite Forall_forall in *. intros z Hz.
        exact (trans_on x y z Px Py (Prest z Hz) Hle (Hall z Hz)).
    + constructor; [exact (IH Prest)|].
      apply Forall_forall. intros z Hz.
      apply (Permutation_in z (insertBy_Permutation _ x rest)) in Hz.
      destruct Hz as [<-|Hz].
      * destruct (total_on x y Px Py); [lia | assumption].
      * rewrite Forall_forall in Hall. apply Hall. exact Hz.
Qed.

Lemma sortBy_sorted_on (l : list A) :
  Forall P l ->
  StronglySorted (fun a b => compare a b <= 0) (sortBy compare l).
Proof.
  unfold sortBy. induction 1 as [|x rest Px Prest IH]; simpl.
  - constructor.
  - apply insertBy_sorted_on; [exact Px | | exact IH].
    apply Forall_forall. intros z Hz.
    apply (Permutation_in z (sortBy_Permutation compare rest)) in Hz.
    rewrite Forall_forall in Prest. apply Prest. exact Hz.
Qed.

End SortedOn.

Lemma StronglySorted_app_cross {A} (R : A -> A -> Prop) (l1 l2 : list A) :
  StronglySorted R (l1 ++ l2) ->
  forall x y, In x l1 -> In y l2 -> R x y.
Proof.
  induction l1 as [|z l1 IH]; simpl; intros H x y Hx Hy; [contradiction|].
  inversion H as [|? ? Hs Hall]; subst.
  destruct Hx as [<-|Hx].
  - rewrite Forall_forall in Hall. apply Hall. apply in_or_app. right. exact Hy.
  - exact (IH Hs x y Hx Hy).
Qed.

Lemma jaccardSimilarity_in_unit (a b : list Z) :
  binary a -> binary b -> length a = length b ->
  exists q : Q,
    Content.jaccardSimilarity a b = Some q /\ (0 <= q)%Q /\ (q <= 1)%Q.
Proof.
  intros Ba Bb L.
  destruct (binary_sums a Ba b Bb) as (H0 & H1 & H2 & _).
  unfold Content.jaccardSimilarity.
  rewrite (jaccardLoop_same_length a b 0 0 0 L). simpl.
  destruct (Z.eqb_spec (sumZ a + sumZ b - common a b) 0) as [E|N].
  - exists 0%Q. repeat split; try reflexivity; discriminate.
  - eexists. split; [reflexivity|].
    destruct (ratio_in_unit (common a b) (sumZ a + sumZ b - common a b))
      as [Q0 Q1]; [lia | lia |].
    split; assumption.
Qed.

Section Ranking.
Variable cosineSimilarity : list Z -> list Z -> option Q.
Variable localeCompare : string -> string -> Z.
Hypothesis localeCompare_total :
  forall a b, localeCompare a b <= 0 \/ localeCompare b a <= 0.
Hypothesis localeCompare_trans :
  forall a b c, localeCompare a b <= 0 -> localeCompare b c <= 0 ->
                localeCompare a c <= 0.

Definition hasScore (x : Content.Scored) : Prop :=
  exists q, Content.score x = Some q.

Lemma byScoreThenTitle_le (a b : Content.Scored) (sa sb : Q) :
  Content.score a = Some sa -> Content.score b = Some sb ->
  (Content.byScoreThenTitle localeCompare a b <= 0 <->
   (sb < sa)%Q \/
   ((sb == sa)%Q /\
    localeCompare (Content.title (Content.movie a))
                  (Content.title (Content.movie b)) <= 0)).
Proof.
  intros Ea Eb. unfold Content.byScoreThenTitle. rewrite Ea, Eb.
  destruct (Qeq_bool sb sa) eqn:E; simpl.
  - apply Qeq_bool_iff in E. split.
    + intros H. right. auto.
    + intros [H|[_ H]]; [|exact H].
      rewrite E in H. exfalso. exact (Qlt_irrefl _ H).
  - apply Qeq_bool_neq in E.
    destruct (Qle_bool sb sa) eqn:L.
    + apply Qle_bool_iff in L. split; [|lia].
      intros _. left. apply Qle_lteq in L. destruct L as [L|L];
        [exact L | contradiction].
    + split; [lia|].
      intros [H|[H _]]; [|contradiction].
      exfalso. assert (Qle_bool sb sa = true) as L'.
      { apply Qle_bool_iff. apply Qlt_le_weak. exact H. }
      rewrite L' in L. discriminate L.
Qed.

Lemma byScoreThenTitle_total (a b : Content.Scored) :
  hasScore a -> hasScore b ->
  Content.byScoreThenTitle localeCompare a b <= 0 \/
  Content.byScoreThenTitle localeCompare b a <= 0.
Proof.
  intros [sa Ea] [sb Eb].
  rewrite (byScoreThenTitle_le a b sa sb Ea Eb),
          (byScoreThenTitle_le b a sb sa Eb Ea).
  destruct (Q_dec sb sa) as [[H|H]|H].
  - left. left. exact H.
  - right. left. exact H.
  - destruct (localeCompare_total (Content.title (Content.movie a))
                (Content.title (Content.movie b))) as [T|T].
    + left. right. auto.
    + right. right. split; [symmetry; exact H | exact T].
Qed.

Lemma byScoreThenTitle_trans (a b c : Content.Scored) :
  hasScore a -> hasScore b -> hasScore c ->
  Content.byScoreThenTitle localeCompare a b <= 0 ->
  Content.byScoreThenTitle localeCompare b c <= 0 ->
  Content.byScoreThenTitle localeCompare a c <= 0.
Proof.
  intros [sa Ea] [sb Eb] [sc Ec].
  rewrite (byScoreThenTitle_le a b sa sb Ea Eb),
          (byScoreThenTitle_le b c sb sc Eb Ec),
          (byScoreThenTitle_le a c sa sc Ea Ec).
  intros [H1|[H1 T1]] [H2|[H2 T2]].
  - left. exact (Qlt_trans _ _ _ H2 H1).
  - left. rewrite H2. exact H1.
  - left. rewrite <- H1. exact H2.
  - right. split; [rewrite H2; exact H1|].
    exact (localeCompare_trans _ _ _ T1 T2).
Qed.

(** The candidates before sorting, under the Jaccard metric. *)
Definition jaccardScored (s : Content.State) (liked : Content.Movie)
  : list Content.Scored :=
  map (fun cand =>
         Content.mkScored cand
           (Content.jaccardSimilarity
              (Content.toGenreVector (Some (Content.genres liked)))
              (Content.toGenreVector (Some (Content.genres cand)))))
      (filter (fun m => negb (Content.id m =? Content.id liked))
         (Content.movies s)).

Lemma scoredCandidates_jaccard (s : Content.State) (liked : Content.Movie) :
  Content.getSelectedMetric s = "jaccard"%string ->
  Content.scoredCandidates cosineSimilarity localeCompare s liked =
    sortBy (Content.byScoreThenTitle localeCompare) (jaccardScored s liked).
Proof.
  intros Hm. unfold Content.scoredCandidates. cbv zeta. rewrite Hm.
  reflexivity.
Qed.

Lemma jaccardScored_score (s : Content.State) (liked : Content.Movie)
    (x : Content.Scored) :
  In x (jaccardScored s liked) ->
  exists q, Content.score x = Some q /\ (0 <= q)%Q /\ (q <= 1)%Q /\
    Content.score x =
      Content.jaccardSimilarity
        (Content.toGenreVector (Some (Content.genres liked)))
        (Content.toGenreVector (Some (Content.genres (Content.movie x)))).
Proof.
  intros Hx. unfold jaccardScored in Hx. apply in_map_iff in Hx.
  destruct Hx as (cand & <- & _). cbn [Content.score Content.movie].
  destruct (toGenreVector_shape (Some (Content.genres liked))) as [La Ba].
  destruct (toGenreVector_shape (Some (Content.genres cand))) as [Lb Bb].
  destruct (jaccardSimilarity_in_unit _ _ Ba Bb (eq_trans La (eq_sym Lb)))
    as (q & E & Q0 & Q1).
  exists q. rewrite E. repeat split; assumption.
Qed.

Lemma jaccard_ranked_sorted (s : Content.State) (liked : Content.Movie) :
  StronglySorted
    (fun x y => Content.byScoreThenTitle localeCompare x y <= 0)
    (sortBy (Content.byScoreThenTitle localeCompare) (jaccardScored s liked)).
Proof.
  apply (sortBy_sorted_on (Content.byScoreThenTitle localeCompare) hasScore).
  - exact byScoreThenTitle_total.
  - exact byScoreThenTitle_trans.
  - apply Forall_forall. intros x Hx.
    destruct (jaccardScored_score s liked x Hx) as (q & E & _).
    exists q. exact E.
Qed.

(** X18. In [part_001] with the Jaccard metric selected and a title
    comparison that is a total preorder, every candidate gets a score
    between 0 and 1, the candidates are listed by falling score (equal
    scores by title), and no candidate left out of the first [TOP_N] has a
    higher score than a listed one. *)
Theorem X18_jaccard_ranking_is_best_first
    (s : Content.State) (liked : Content.Movie) :
  Content.getSelectedMetric s = "jaccard"%string ->
  let ranked := Content.scoredCandidates cosineSimilarity localeCompare s liked in
  (forall x, In x ranked ->
     exists q, Content.score x = Some q /\ (0 <= q)%Q /\ (q <= 1)%Q /\
       Content.score x =
         Content.jaccardSimilarity
           (Content.toGenreVector (Some (Content.genres liked)))
           (Content.toGenreVector (Some (Content.genres (Content.movie x))))) /\
  StronglySorted
    (fun x y => Content.byScoreThenTitle localeCompare x y <= 0) ranked /\
  (forall x y qx qy,
     In x (firstn Content.TOP_N ranked) -> In y (skipn Content.TOP_N ranked) ->
     Content.score x = Some qx -> Content.score y = Some qy ->
     (qy <= qx)%Q).
Proof.
  intros Hm. cbv zeta. rewrite (scoredCandidates_jaccard s liked Hm).
  pose proof (jaccard_ranked_sorted s liked) as Hsorted.
  split; [|split].
  - intros x Hx. apply (jaccardScored_score s liked).
    exact (Permutation_in x (sortBy_Permutation _ _) Hx).
  - exact Hsorted.
  - intros x y qx qy Hx Hy Ex Ey.
    rewrite <- (firstn_skipn Content.TOP_N
                  (sortBy (Content.byScoreThenTitle localeCompare)
                     (jaccardScored s liked)))
      in Hsorted.
    pose proof (StronglySorted_app_cross _ _ _ Hsorted x y Hx Hy) as R.
    simpl in R.
    apply (byScoreThenTitle_le x y qx qy Ex Ey) in R.
    destruct R as [R|[R _]]; [apply Qlt_le_weak; exact R|].
    rewrite R. apply Qle_refl.
Qed.

Lemma toFixed3_unit (q : Q) :
  (0 <= q)%Q -> (q <= 1)%Q ->
  0 <= Content.toFixed3 q <= 1000 /\
  (inject_Z (Content.toFixed3 q) - (1 # 2) <= q * 1000)%Q /\
  (q * 1000 < inject_Z (Content.toFixed3 q) + (1 # 2))%Q.
Proof.
  intros H0 H1. unfold Content.toFixed3.
  assert (E : Qle_bool 0 q = true) by (apply Qle_bool_iff; exact H0).
  rewrite E.
  pose proof (Qfloor_le (q * 1000 + (1 # 2))) as Fl.
  pose proof (Qlt_floor (q * 1000 + (1 # 2))) as Fu.
  rewrite inject_Z_plus in Fu.
  assert (B0 : (0 <= q * 1000)%Q) by (apply Qmult_le_0_compat; [exact H0 | discriminate]).
  assert (B1 : (q * 1000 <= 1000)%Q).
  { setoid_replace 1000%Q with (1 * 1000)%Q at 2 by reflexivity.
    apply Qmult_le_compat_r; [exact H1 | discriminate]. }
  split; [split|split].
  - change 0 with (Qfloor 0). apply Qfloor_resp_le.
    apply Qle_trans with (q * 1000)%Q; [exact B0|].
    rewrite <- (Qplus_0_r (q * 1000)) at 1.
    apply Qplus_le_r. discriminate.
  - change 1000 with (Qfloor (1000 + (1 # 2))). apply Qfloor_resp_le.
    apply Qplus_le_l. exact B1.
  - apply Qplus_le_l with (z := (1 # 2)%Q).
    setoid_replace (inject_Z (Qfloor (q * 1000 + (1 # 2))) - (1 # 2) + (1 # 2))%Q
      with (inject_Z (Qfloor (q * 1000 + (1 # 2)))) by ring.
    exact Fl.
  - apply Qplus_lt_l with (z := (1 # 2)%Q).
    setoid_replace (inject_Z (Qfloor (q * 1000 + (1 # 2))) + (1 # 2) + (1 # 2))%Q
      with (inject_Z (Qfloor (q * 1000 + (1 # 2))) + inject_Z 1)%Q by ring.
    exact Fu.
Qed.

Lemma toFixed3_mono (p q : Q) :
  (0 <= p)%Q -> (p <= q)%Q -> Content.toFixed3 p <= Content.toFixed3 q.
Proof.
  intros H0 H. unfold Content.toFixed3.
  assert (Ep : Qle_bool 0 p = true) by (apply Qle_bool_iff; exact H0).
  assert (Eq : Qle_bool 0 q = true)
    by (apply Qle_bool_iff; exact (Qle_trans _ _ _ H0 H)).
  rewrite Ep, Eq. apply Qfloor_resp_le. apply Qplus_le_l.
  apply Qmult_le_compat_r; [exact H | discriminate].
Qed.

(** X24. In [part_001] with the Jaccard metric selected and a title
    comparison that is a total preorder, the figure printed after each
    recommended title is the candidate's score rounded to the nearest
    thousandth, it lies between 0.000 and 1.000, and the figures never rise
    down the list. A score that is no finite number prints as 0.000. *)
Theorem X24_printed_figures_never_rise
    (s : Content.State) (liked : Content.Movie) :
  Content.getSelectedMetric s = "jaccard"%string ->
  let topN :=
    firstn Content.TOP_N
      (Content.scoredCandidates cosineSimilarity localeCompare s liked) in
  (forall x, In x topN ->
     exists q, Content.score x = Some q /\
       0 <= Content.fmt (Content.score x) <= 1000 /\
       (inject_Z (Content.fmt (Content.score x)) - (1 # 2) <= q * 1000)%Q /\
       (q * 1000 < inject_Z (Content.fmt (Content.score x)) + (1 # 2))%Q) /\
  StronglySorted (fun a b => snd b <= snd a)
    (map (fun x => (Content.title (Content.movie x),
                    Content.fmt (Content.score x))) topN) /\
  Content.fmt None = 0.
Proof.
  intros Hm. cbv zeta. rewrite (scoredCandidates_jaccard s liked Hm).
  pose proof (jaccard_ranked_sorted s liked) as Hsorted.
  set (ranked := sortBy (Content.byScoreThenTitle localeCompare)
                   (jaccardScored s liked)) in *.
  assert (Hscore : forall x, In x ranked ->
            exists q, Content.score x = Some q /\ (0 <= q)%Q /\ (q <= 1)%Q).
  { intros x Hx.
    destruct (jaccardScored_score s liked x
                (Permutation_in x (sortBy_Permutation _ _) Hx))
      as (q & E & Q0 & Q1 & _).
    exists q. auto. }
  split; [|split; [|reflexivity]].
  - intros x Hx. apply firstn_In in Hx.
    destruct (Hscore x Hx) as (q & E & Q0 & Q1).
    exists q. split; [exact E|]. rewrite E. cbn [Content.fmt].
    exact (toFixed3_unit q Q0 Q1).
  - apply (StronglySorted_map
             (fun x => (Content.title (Content.movie x),
                        Content.fmt (Content.score x)))
             (fun a b => snd b <= snd a)).
    cbn [snd].
    assert (Hfirst : StronglySorted
              (fun x y => Content.byScoreThenTitle localeCompare x y <= 0)
              (firstn Content.TOP_N ranked)).
    { rewrite <- (firstn_skipn Content.TOP_N ranked) in Hsorted.
      revert Hsorted. generalize (firstn Content.TOP_N ranked) as l1.
      induction l1 as [|z l1 IH]; intros Hs; [constructor|].
      simpl in Hs. inversion Hs as [|? ? Hs' Hall]; subst.
      constructor; [exact (IH Hs')|].
      rewrite Forall_forall in *. intros y Hy. apply Hall.
      apply in_or_app. left. exact Hy. }
    assert (Hin : forall x, In x (firstn Content.TOP_N ranked) -> In x ranked)
      by (intros x; apply firstn_In).
    revert Hfirst Hin. generalize (firstn Content.TOP_N ranked) as l1.
    induction l1 as [|z l1 IH]; intros Hs Hin; [constructor|].
    inversion Hs as [|? ? Hs' Hall]; subst.
    constructor.
    + apply IH; [exact Hs'|]. intros x Hx. apply Hin. right. exact Hx.
    + rewrite Forall_forall in *. intros y Hy.
      destruct (Hscore z (Hin z (or_introl eq_refl))) as (qz & Ez & Z0 & _).
      destruct (Hscore y (Hin y (or_intror Hy))) as (qy & Ey & Y0 & _).
      pose proof (Hall y Hy) as R.
      apply (byScoreThenTitle_le z y qz qy Ez Ey) in R.
      rewrite Ez, Ey. cbn [Content.fmt].
      apply toFixed3_mono; [exact Y0|].
      destruct R as [R|[R _]]; [apply Qlt_le_weak; exact R|].
      rewrite R. apply Qle_refl.
Qed.

End Ranking.

Lemma X18_witness :
  map (fun x => Content.id (Content.movie x))
    (firstn Content.TOP_N
       (Content.scoredCandidates (fun _ _ => None) Scenario.byTitle
          Scenario.contentPage Scenario.likedMovie)) = [6; 5; 7; 4; 8] /\
  StronglySorted
    (fun x y => Content.byScoreThenTitle Scenario.byTitle x y <= 0)
    (Content.scoredCandidates (fun _ _ => None) Scenario.byTitle
       Scenario.contentPage Scenario.likedMovie).
Proof.
  split; [vm_compute; reflexivity|].
  exact (proj1 (proj2 (X18_jaccard_ranking_is_best_first (fun _ _ => None)
                         Scenario.byTitle byTitle_total byTitle_trans
                         Scenario.contentPage Scenario.likedMovie eq_refl))).
Defined.

(** ** The first recommender: genre sets *)

Lemma has_spec (set : list string) (g : string) :
  Week2.has set g = true <-> In g set.
Proof.
  unfold Week2.has. rewrite existsb_exists. split.
  - intros (x & Hin & E). apply String.eqb_eq in E. subst. exact Hin.
  - intros Hin. exists g. split; [exact Hin | apply String.eqb_refl].
Qed.

Lemma setOf_In (xs : list string) (x : string) :
  In x (Week2.setOf xs) <-> In x xs.
Proof.
  induction xs as [|y xs IH]; simpl; [tauto|].
  rewrite filter_In, IH, negb_true_iff, String.eqb_neq.
  destruct (string_dec y x) as [->|N]; [tauto|].
  split; [tauto|]. intros [H|H]; [contradiction|].
  right. split; [exact H|]. intros E. apply N. symmetry. exact E.
Qed.

Lemma setOf_NoDup (xs : list string) : NoDup (Week2.setOf xs).
Proof.
  induction xs as [|y xs IH]; simpl; constructor.
  - rewrite filter_In, negb_true_iff, String.eqb_neq. intros [_ H].
    apply H. reflexivity.
  - apply NoDup_filter. exact IH.
Qed.

Lemma filter_length_all {A} (f : A -> bool) (l : list A) :
  (length (filter f l) <= length l)%nat /\
  (length (filter f l) = length l <-> forall x, In x l -> f x = true).
Proof.
  induction l as [|x l [IH1 IH2]]; simpl.
  - split; [lia|]. split; [intros _ x [] | reflexivity].
  - destruct (f x) eqn:E; simpl.
    + split; [lia|]. split.
      * intros H y [<-|Hy]; [exact E|]. apply IH2; [lia | exact Hy].
      * intros H. f_equal. apply IH2. intros y Hy. apply H. right. exact Hy.
    + split; [lia|]. split; [lia|].
      intros H. rewrite (H x (or_introl eq_refl)) in E. discriminate E.
Qed.

Lemma filter_length_none {A} (f : A -> bool) (l : list A) :
  length (filter f l) = 0%nat <-> forall x, In x l -> f x = false.
Proof.
  induction l as [|x l IH]; simpl.
  - split; [intros _ x [] | reflexivity].
  - destruct (f x) eqn:E; simpl.
    + split; [discriminate|].
      intros H. rewrite (H x (or_introl eq_refl)) in E. discriminate E.
    + rewrite IH. split.
      * intros H y [<-|Hy]; [exact E | exact (H y Hy)].
      * intros H y Hy. apply H. right. exact Hy.
Qed.

(** The two counts of the common elements of two sets agree, and neither
    exceeds a set's size. *)
Lemma intersect_count (a b : list string) :
  NoDup a -> NoDup b ->
  length (filter (Week2.has b) a) = length (filter (Week2.has a) b) /\
  (length (filter (Week2.has b) a) <= length a)%nat /\
  (length (filter (Week2.has b) a) <= length b)%nat.
Proof.
  intros Ha Hb.
  assert (P : Permutation (filter (Week2.has b) a) (filter (Week2.has a) b)).
  { apply NoDup_Permutation; try (apply NoDup_filter; assumption).
    intros x. rewrite !filter_In, !has_spec. tauto. }
  split; [exact (Permutation_length P)|]. split.
  - apply filter_length_all.
  - rewrite (Permutation_length P). apply filter_length_all.
Qed.

Lemma Qdiv_one_iff (d u : Z) :
  0 < u -> ((inject_Z d / inject_Z u == 1)%Q <-> d = u).
Proof.
  intros Hu.
  assert (Hq : ~ (inject_Z u == 0)%Q).
  { intros H. change 0%Q with (inject_Z 0) in H.
    apply (proj1 (inject_Z_injective u 0)) in H. lia. }
  split.
  - intros H. apply (proj1 (inject_Z_injective _ _)).
    rewrite <- (Qmult_div_r (inject_Z d) (inject_Z u) Hq), H, Qmult_1_r.
    reflexivity.
  - intros ->. apply Qmult_inv_r. exact Hq.
Qed.

Lemma Qdiv_zero_iff (d u : Z) :
  0 < u -> ((inject_Z d / inject_Z u == 0)%Q <-> d = 0).
Proof.
  intros Hu.
  assert (Hq : ~ (inject_Z u == 0)%Q).
  { intros H. change 0%Q with (inject_Z 0) in H.
    apply (proj1 (inject_Z_injective u 0)) in H. lia. }
  split.
  - intros H. apply (proj1 (inject_Z_injective _ _)).
    rewrite <- (Qmult_div_r (inject_Z d) (inject_Z u) Hq), H, Qmult_0_r.
    reflexivity.
  - intros ->. unfold Qdiv. apply Qmult_0_l.
Qed.

(** X19. The score [getRecommendations] of [week2] gives two genre arrays
    is a number between 0 and 1, the same in both orders whatever the order
    and the repetitions in the arrays; it is 0 exactly when the arrays have
    no name in common (two empty arrays included) and 1 exactly when they
    hold the same names and at least one. *)
Theorem X19_week2_score (liked cand : list string) :
  let q := Week2.jaccard (Week2.setOf liked) (Week2.setOf cand) in
  (0 <= q)%Q /\ (q <= 1)%Q /\
  Week2.jaccard (Week2.setOf cand) (Week2.setOf liked) = q /\
  ((q == 0)%Q <-> forall g, ~ (In g liked /\ In g cand)) /\
  ((q == 1)%Q <-> (forall g, In g liked <-> In g cand) /\ liked <> []).
Proof.
  cbv zeta.
  pose proof (setOf_NoDup liked) as Na. pose proof (setOf_NoDup cand) as Nb.
  destruct (intersect_count _ _ Na Nb) as (S & La & Lb).
  pose proof (filter_length_none (Week2.has (Week2.setOf cand)) (Week2.setOf liked)) as Z0.
  pose proof (proj2 (filter_length_all (Week2.has (Week2.setOf cand)) (Week2.setOf liked))) as Aa.
  pose proof (proj2 (filter_length_all (Week2.has (Week2.setOf liked)) (Week2.setOf cand))) as Ab.
  assert (Hnil : liked = [] <-> length (Week2.setOf liked) = 0%nat).
  { destruct liked; simpl; split; try reflexivity; discriminate. }
  unfold Week2.jaccard. rewrite <- S.
  set (d := length (filter (Week2.has (Week2.setOf cand)) (Week2.setOf liked))) in *.
  set (na := length (Week2.setOf liked)) in *.
  set (nb := length (Week2.setOf cand)) in *.
  replace (Z.of_nat nb + Z.of_nat na - Z.of_nat d)
    with (Z.of_nat na + Z.of_nat nb - Z.of_nat d) by lia.
  assert (Hzero : d = 0%nat <-> forall g, ~ (In g liked /\ In g cand)).
  { rewrite Z0. split.
    - intros H g [Hl Hc]. apply setOf_In in Hl.
      specialize (H g Hl). apply (proj2 (setOf_In cand g)) in Hc.
      apply has_spec in Hc. congruence.
    - intros H g Hg. destruct (Week2.has (Week2.setOf cand) g) eqn:E;
        [|reflexivity].
      exfalso. apply (H g). apply has_spec in E.
      split; apply setOf_In; assumption. }
  assert (Hsame : (d = na /\ d = nb) <-> forall g, In g liked <-> In g cand).
  { rewrite <- S in Ab. fold nb in Ab. rewrite Aa, Ab. split.
    - intros [H1 H2] g. split; intros H.
      + apply setOf_In. apply has_spec. apply H1. apply setOf_In. exact H.
      + apply setOf_In. apply has_spec. apply H2. apply setOf_In. exact H.
    - intros H. split; intros g Hg; apply has_spec; apply setOf_In;
        apply H; apply setOf_In; exact Hg. }
  destruct (Z.eqb_spec (Z.of_nat na + Z.of_nat nb - Z.of_nat d) 0) as [E|N].
  - assert (na = 0%nat /\ nb = 0%nat /\ d = 0%nat) as (A0 & B0 & D0) by lia.
    split; [discriminate|]. split; [discriminate|]. split; [reflexivity|].
    split.
    + split; [intros _; apply Hzero; exact D0 | reflexivity].
    + split; [discriminate|]. intros [_ Hne]. exfalso. apply Hne.
      apply Hnil. exact A0.
  - destruct (ratio_in_unit (Z.of_nat d) (Z.of_nat na + Z.of_nat nb - Z.of_nat d))
      as [Q0 Q1]; [lia | lia |].
    split; [exact Q0|]. split; [exact Q1|]. split; [reflexivity|]. split.
    + rewrite Qdiv_zero_iff by lia. rewrite <- Hzero. lia.
    + rewrite Qdiv_one_iff by lia. rewrite <- Hsame, Hnil. lia.
Qed.

(** ** Genre sets against genre vectors *)

Definition indicator (gs : list string) (g : string) : Z :=
  if Week2.has gs g then 1 else 0.

Lemma toGenreVector_indicator (gs : list string) :
  Content.toGenreVector (Some gs) = map (indicator gs) Content.GENRES_18.
Proof.
  destruct (toGenreVector_shape (Some gs)) as [L B].
  apply (nth_ext _ _ 0 0).
  - rewrite L, length_map. reflexivity.
  - intros i Hi. rewrite L in Hi.
    assert (Hg : exists g, nth_error Content.GENRES_18 i = Some g).
    { destruct (nth_error Content.GENRES_18 i) as [g|] eqn:E; [eauto|].
      apply nth_error_None in E. simpl in E. lia. }
    destruct Hg as [g Hg].
    assert (Hr : nth i (map (indicator gs) Content.GENRES_18) 0 = indicator gs g).
    { apply nth_error_nth. rewrite nth_error_map, Hg. reflexivity. }
    rewrite Hr.
    rewrite toGenreVector_fold in *.
    destruct (markGenres_spec gs (repeat 0 18)) as (_ & _ & N).
    specialize (N i). rewrite repeat0_nth, repeat_length in N.
    assert (Hb : nth i (fold_left markGenre gs (repeat 0 18)) 0 = 0 \/
                 nth i (fold_left markGenre gs (repeat 0 18)) 0 = 1).
    { unfold binary in B. rewrite Forall_forall in B. apply B.
      apply nth_In. rewrite L. exact Hi. }
    unfold indicator. destruct (Week2.has gs g) eqn:E.
    + apply N. right. split; [exact Hi|]. exists g.
      split; [apply has_spec; exact E | apply GENRE_TO_IDX_spec; exact Hg].
    + destruct Hb as [Hb|Hb]; [exact Hb|]. exfalso.
      apply N in Hb. destruct Hb as [Hb|(_ & g' & Hin & Hg')];
        [discriminate Hb|].
      apply GENRE_TO_IDX_spec in Hg'. rewrite Hg in Hg'. injection Hg' as <-.
      apply has_spec in Hin. rewrite Hin in E. discriminate E.
Qed.

Lemma sumZ_indicator (f : string -> bool) (names : list string) :
  sumZ (map (fun g => if f g then 1 else 0) names) =
    Z.of_nat (length (filter f names)).
Proof.
  unfold sumZ. induction names as [|g names IH]; [reflexivity|].
  cbn [map fold_right filter]. rewrite IH.
  destruct (f g); cbn [length]; lia.
Qed.

Lemma common_indicator (f h : string -> bool) (names : list string) :
  common (map (fun g => if f g then 1 else 0) names)
         (map (fun g => if h g then 1 else 0) names) =
    Z.of_nat (length (filter (fun g => f g && h g) names)).
Proof.
  induction names as [|g names IH]; [reflexivity|].
  cbn [map common filter]. rewrite IH.
  destruct (f g), (h g); cbn [andb length];
    change (Content.bitAnd 1 1) with 1;
    change (Content.bitAnd 1 0) with 0;
    change (Content.bitAnd 0 1) with 0;
    change (Content.bitAnd 0 0) with 0; lia.
Qed.

Lemma known_genres_count (gs : list string) :
  Forall (fun g => In g Content.GENRES_18) gs ->
  length (filter (Week2.has gs) Content.GENRES_18) = length (Week2.setOf gs).
Proof.
  intros H. rewrite Forall_forall in H.
  apply Permutation_length. apply NoDup_Permutation.
  - apply NoDup_filter. exact GENRES_18_NoDup.
  - apply setOf_NoDup.
  - intros g. rewrite filter_In, has_spec, setOf_In. split; [tauto|].
    intros Hg. split; [apply H; exact Hg | exact Hg].
Qed.

Lemma known_genres_common (a b : list string) :
  Forall (fun g => In g Content.GENRES_18) a ->
  length (filter (fun g => Week2.has a g && Week2.has b g) Content.GENRES_18) =
    length (filter (Week2.has (Week2.setOf b)) (Week2.setOf a)).
Proof.
  intros H. rewrite Forall_forall in H.
  apply Permutation_length. apply NoDup_Permutation.
  - apply NoDup_filter. exact GENRES_18_NoDup.
  - apply NoDup_filter. apply setOf_NoDup.
  - intros g.
    rewrite !filter_In, andb_true_iff, !has_spec, !setOf_In. split; [tauto|].
    intros [Ha Hb]. split; [apply H; exact Ha | tauto].
Qed.

(** X20. On genre arrays that hold only names of [GENRES_18], the Jaccard
    metric of [part_001] over genre vectors returns the score that [week2]
    computes over genre sets. *)
Theorem X20_vector_and_set_scores_agree (liked cand : list string) :
  Forall (fun g => In g Content.GENRES_18) liked ->
  Forall (fun g => In g Content.GENRES_18) cand ->
  Content.jaccardSimilarity
    (Content.toGenreVector (Some liked)) (Content.toGenreVector (Some cand)) =
  Some (Week2.jaccard (Week2.setOf liked) (Week2.setOf cand)).
Proof.
  intros Hl Hc.
  unfold Content.jaccardSimilarity, Week2.jaccard.
  rewrite (jaccardLoop_same_length _ _ 0 0 0
             (eq_trans (proj1 (toGenreVector_shape (Some liked)))
                       (eq_sym (proj1 (toGenreVector_shape (Some cand)))))).
  rewrite !toGenreVector_indicator. unfold indicator.
  rewrite (common_indicator (Week2.has liked) (Week2.has cand)),
          (sumZ_indicator (Week2.has liked)),
          (sumZ_indicator (Week2.has cand)).
  rewrite (known_genres_count liked Hl), (known_genres_count cand Hc),
          (known_genres_common liked cand Hl).
  rewrite !Z.add_0_l.
  destruct (_ =? 0); reflexivity.
Qed.

Lemma X20_witness :
  Content.jaccardSimilarity
    (Content.toGenreVector (Some ["Comedy"; "Action"; "Comedy"]%string))
    (Content.toGenreVector (Some ["Drama"; "Comedy"; "War"]%string)) =
  Some (Week2.jaccard (Week2.setOf ["Comedy"; "Action"; "Comedy"]%string)
                      (Week2.setOf ["Drama"; "Comedy"; "War"]%string)).
Proof.
  apply X20_vector_and_set_scores_agree;
    repeat (constructor; [vm_compute; tauto|]); constructor.
Defined.

(** ** The first recommender: [getRecommendations] *)

Section Week2Recommendations.
Variable localeCompare : string -> string -> Z.
Hypothesis localeCompare_total :
  forall a b, localeCompare a b <= 0 \/ localeCompare b a <= 0.
Hypothesis localeCompare_trans :
  forall a b c, localeCompare a b <= 0 -> localeCompare b c <= 0 ->
                localeCompare a c <= 0.

Lemma week2_byScoreThenTitle_le (a b : Week2.Scored) :
  Week2.byScoreThenTitle localeCompare a b <= 0 <->
  (Week2.score b < Week2.score a)%Q \/
  ((Week2.score b == Week2.score a)%Q /\
   localeCompare (Week2.title (Week2.movie a))
                 (Week2.title (Week2.movie b)) <= 0).
Proof.
  unfold Week2.byScoreThenTitle.
  destruct (Qeq_bool (Week2.score b) (Week2.score a)) eqn:E; simpl.
  - apply Qeq_bool_iff in E. split.
    + intros H. right. auto.
    + intros [H|[_ H]]; [|exact H].
      rewrite E in H. exfalso. exact (Qlt_irrefl _ H).
  - apply Qeq_bool_neq in E.
    destruct (Qle_bool (Week2.score b) (Week2.score a)) eqn:L.
    + apply Qle_bool_iff in L. split; [|lia].
      intros _. left. apply Qle_lteq in L. destruct L as [L|L];
        [exact L | contradiction].
    + split; [lia|].
      intros [H|[H _]]; [|contradiction].
      exfalso.
      assert (Qle_bool (Week2.score b) (Week2.score a) = true) as L'.
      { apply Qle_bool_iff. apply Qlt_le_weak. exact H. }
      rewrite L' in L. discriminate L.
Qed.

Lemma week2_byScoreThenTitle_total (a b : Week2.Scored) :
  Week2.byScoreThenTitle localeCompare a b <= 0 \/
  Week2.byScoreThenTitle localeCompare b a <= 0.
Proof.
  rewrite (week2_byScoreThenTitle_le a b), (week2_byScoreThenTitle_le b a).
  destruct (Q_dec (Week2.score b) (Week2.score a)) as [[H|H]|H].
  - left. left. exact H.
  - right. left. exact H.
  - destruct (localeCompare_total (Week2.title (Week2.movie a))
                (Week2.title (Week2.movie b))) as [T|T].
    + left. right. auto.
    + right. right. split; [symmetry; exact H | exact T].
Qed.

Lemma week2_byScoreThenTitle_trans (a b c : Week2.Scored) :
  Week2.byScoreThenTitle localeCompare a b <= 0 ->
  Week2.byScoreThenTitle localeCompare b c <= 0 ->
  Week2.byScoreThenTitle localeCompare a c <= 0.
Proof.
  rewrite (week2_byScoreThenTitle_le a b), (week2_byScoreThenTitle_le b c),
          (week2_byScoreThenTitle_le a c).
  intros [H1|[H1 T1]] [H2|[H2 T2]].
  - left. exact (Qlt_trans _ _ _ H2 H1).
  - left. rewrite H2. exact H1.
  - left. rewrite <- H1. exact H2.
  - right. split; [rewrite H2; exact H1|].
    exact (localeCompare_trans _ _ _ T1 T2).
Qed.

(** X21. In [week2], [getRecommendations] changes nothing when the
    dropdown or the result element is missing, asks to choose a movie when
    the selection is empty and reports 'not found' when no movie has the
    selected id. Otherwise, with a title comparison that is a total
    preorder, the candidates are the movies with another id, each scored
    against the selected movie's genres, in order of falling score and of
    title among equal scores; the titles shown are those of the first two,
    and no candidate left out scores higher than one shown. *)
Theorem X21_week2_recommends_two_best (s : Week2.State) :
  ((Week2.movieSelect s = None \/ Week2.result s = None) ->
   Week2.getRecommendations localeCompare s = s) /\
  (forall r0, Week2.result s = Some r0 ->
     Week2.movieSelect s = Some Week2.Empty ->
     Week2.getRecommendations localeCompare s =
       Week2.set_result (Week2.Text "Please choose a movie first.") s) /\
  (forall r0 v, Week2.result s = Some r0 ->
     Week2.movieSelect s = Some (Week2.Value v) ->
     (forall n m, v = Some n -> In m (Week2.movies s) -> Week2.id m <> n) ->
     Week2.getRecommendations localeCompare s =
       Week2.set_result
         (Week2.Text "Selected movie was not found. Please try another.") s) /\
  (forall r0 n liked, Week2.result s = Some r0 ->
     Week2.movieSelect s = Some (Week2.Value (Some n)) ->
     find (fun m => Week2.id m =? n) (Week2.movies s) = Some liked ->
     let ranked := Week2.scoredCandidates localeCompare s liked in
     let top := firstn 2 ranked in
     Week2.getRecommendations localeCompare s =
       Week2.set_result
         (match top with
          | [] => Week2.NoSimilar (Week2.title liked)
          | _ => Week2.Recommend (Week2.title liked)
                   (map (fun x => Week2.title (Week2.movie x)) top)
          end) s /\
     Permutation (map Week2.movie ranked)
       (filter (fun m => negb (Week2.id m =? n)) (Week2.movies s)) /\
     (forall x, In x ranked ->
        Week2.score x =
          Week2.jaccard (Week2.setOf (Week2.genres liked))
                        (Week2.setOf (Week2.genres (Week2.movie x)))) /\
     StronglySorted
       (fun x y => Week2.byScoreThenTitle localeCompare x y <= 0) ranked /\
     (forall x y, In x top -> In y (skipn 2 ranked) ->
        (Week2.score y <= Week2.score x)%Q)).
Proof.
  split; [|split; [|split]].
  - unfold Week2.getRecommendations.
    intros [E|E]; rewrite E; [reflexivity|].
    destruct (Week2.movieSelect s); reflexivity.
  - intros r0 Er Es. unfold Week2.getRecommendations.
    rewrite Er, Es. reflexivity.
  - intros r0 v Er Es Hno. unfold Week2.getRecommendations. rewrite Er, Es.
    destruct v as [n|]; [|reflexivity].
    destruct (find (fun m => Week2.id m =? n) (Week2.movies s))
      as [liked|] eqn:F; [|reflexivity].
    exfalso. destruct (find_some _ _ F) as [Hin Hid].
    apply (Hno n liked eq_refl Hin). apply Z.eqb_eq. exact Hid.
  - intros r0 n liked Er Es F. cbv zeta.
    destruct (find_some _ _ F) as [Hin Hid]. apply Z.eqb_eq in Hid.
    set (scored :=
           map (fun cand =>
                  Week2.mkScored cand
                    (Week2.jaccard (Week2.setOf (Week2.genres liked))
                       (Week2.setOf (Week2.genres cand))))
               (filter (fun m => negb (Week2.id m =? n)) (Week2.movies s))).
    assert (Hr : Week2.scoredCandidates localeCompare s liked =
                 sortBy (Week2.byScoreThenTitle localeCompare) scored).
    { unfold Week2.scoredCandidates. cbv zeta. rewrite Hid. reflexivity. }
    rewrite Hr.
    pose proof (sortBy_Permutation (Week2.byScoreThenTitle localeCompare) scored)
      as P.
    assert (Hsorted : StronglySorted
              (fun x y => Week2.byScoreThenTitle localeCompare x y <= 0)
              (sortBy (Week2.byScoreThenTitle localeCompare) scored)).
    { apply sortBy_sorted.
      - exact week2_byScoreThenTitle_total.
      - exact week2_byScoreThenTitle_trans. }
    split; [|split; [|split; [|split]]].
    + unfold Week2.getRecommendations. rewrite Er, Es, F, Hr.
      destruct (firstn 2 _); reflexivity.
    + rewrite (Permutation_map Week2.movie P). unfold scored.
      rewrite map_map. simpl. rewrite map_id. apply Permutation_refl.
    + intros x Hx. apply (Permutation_in x P) in Hx. unfold scored in Hx.
      apply in_map_iff in Hx. destruct Hx as (cand & <- & _). reflexivity.
    + exact Hsorted.
    + intros x y Hx Hy.
      rewrite <- (firstn_skipn 2
                    (sortBy (Week2.byScoreThenTitle localeCompare) scored))
        in Hsorted.
      pose proof (StronglySorted_app_cross _ _ _ Hsorted x y Hx Hy) as R.
      simpl in R. apply week2_byScoreThenTitle_le in R.
      destruct R as [R|[R _]]; [apply Qlt_le_weak; exact R|].
      rewrite R. apply Qle_refl.
Qed.

End Week2Recommendations.

Lemma X21_witness :
  Week2.result (Week2.getRecommendations Scenario.byTitle Scenario.week2Page) =
    Some (Week2.Recommend "Toy Story (1995)"
            ["Aladdin (1992)"; "Babe (1995)"]%string) /\
  StronglySorted
    (fun x y => Week2.byScoreThenTitle Scenario.byTitle x y <= 0)
    (Week2.scoredCandidates Scenario.byTitle Scenario.week2Page
       Scenario.week2Liked).
Proof.
  split; [vm_compute; reflexivity|].
  destruct (X21_week2_recommends_two_best Scenario.byTitle byTitle_total
              byTitle_trans Scenario.week2Page) as (_ & _ & _ & H).
  exact (proj1 (proj2 (proj2 (proj2
           (H (Week2.Text "") 1 Scenario.week2Liked eq_refl eq_refl eq_refl))))).
Defined.

(** ** The first recommender: loading the page *)

(** X22. [window.onload] of [week2] never throws. When [u.item] cannot
    be loaded nothing is assigned; when only [u.data] cannot be loaded the
    movies are assigned but the dropdown is not filled; in both cases the
    dropdown and what it reports as chosen are as before and the result
    element, if present, shows the error's message. When both load, the
    result element shows 'Data loaded. Please select a movie.' and the
    dropdown, if present, holds one option per movie, in title order when
    the comparison is a total preorder; a drop-down then reports its first
    option as chosen (none when there is no movie), a list box none. *)
Theorem X22_week2_onload
    (item : completion (list Week2.Movie))
    (data : completion (list Week2.Rating))
    (localeCompare : string -> string -> Z) (s : Week2.State) :
  let s' := snd (Week2.onload item data localeCompare s) in
  fst (Week2.onload item data localeCompare s) = Normal tt /\
  (forall e, item = Throw e ->
     Week2.movies s' = Week2.movies s /\ Week2.ratings s' = Week2.ratings s /\
     Week2.movieOptions s' = Week2.movieOptions s /\
     Week2.movieSelect s' = Week2.movieSelect s /\
     Week2.result s' =
       option_map (fun _ => Week2.LoadError (message e)) (Week2.result s)) /\
  (forall ms e, item = Normal ms -> data = Throw e ->
     Week2.movies s' = ms /\ Week2.ratings s' = Week2.ratings s /\
     Week2.movieOptions s' = Week2.movieOptions s /\
     Week2.movieSelect s' = Week2.movieSelect s /\
     Week2.result s' =
       option_map (fun _ => Week2.LoadError (message e)) (Week2.result s)) /\
  (forall ms rs, item = Normal ms -> data = Normal rs ->
     Week2.movies s' = ms /\ Week2.ratings s' = rs /\
     Week2.result s' =
       option_map (fun _ => Week2.Text "Data loaded. Please select a movie.")
         (Week2.result s) /\
     (Week2.movieSelect s = None ->
      Week2.movieOptions s' = Week2.movieOptions s /\
      Week2.movieSelect s' = None) /\
     (Week2.movieSelect s <> None ->
      Permutation (Week2.movieOptions s')
        (map (fun m => (Week2.id m, Week2.title m)) ms) /\
      Week2.movieSelect s' =
        Some (if Week2.listBox s then Week2.Empty
              else match Week2.movieOptions s' with
                   | [] => Week2.Empty
                   | (id, _) :: _ => Week2.Value (Some id)
                   end) /\
      ((forall a b, localeCompare a b <= 0 \/ localeCompare b a <= 0) ->
       (forall a b c, localeCompare a b <= 0 -> localeCompare b c <= 0 ->
                      localeCompare a c <= 0) ->
       StronglySorted (fun a b => localeCompare (snd a) (snd b) <= 0)
         (Week2.movieOptions s')))).
Proof.
  cbv zeta. destruct s as [ms0 rs0 sel lb opts res].
  split; [|split; [|split]].
  - destruct item, data, res, sel; reflexivity.
  - intros e ->. destruct data, res; repeat split; reflexivity.
  - intros ms e -> ->. destruct res; repeat split; reflexivity.
  - intros ms rs -> ->.
    split; [destruct res, sel; reflexivity|].
    split; [destruct res, sel; reflexivity|].
    split; [destruct res, sel; reflexivity|].
    split.
    + simpl. intros ->. destruct res; split; reflexivity.
    + simpl. intros Hsel. destruct sel as [v|]; [|contradiction].
      assert (E : Week2.movieOptions
                    (snd (Week2.onload (Normal ms) (Normal rs) localeCompare
                            (Week2.mkState ms0 rs0 (Some v) lb opts res))) =
                  map (fun m => (Week2.id m, Week2.title m))
                    (sortBy (fun a b => localeCompare (Week2.title a)
                                          (Week2.title b)) ms)).
      { destruct res; reflexivity. }
      rewrite E. split; [|split].
      * apply Permutation_map. apply sortBy_Permutation.
      * destruct res; reflexivity.
      * intros Ht Htr.
        apply (StronglySorted_map (fun m => (Week2.id m, Week2.title m))
                 (fun a b => localeCompare (snd a) (snd b) <= 0)).
        simpl.
        apply (sortBy_sorted
                 (fun a b => localeCompare (Week2.title a) (Week2.title b))).
        -- intros a b. apply Ht.
        -- intros a b c. apply Htr.
Qed.

(** ** The genre flags of a line of [u.item] *)

Lemma pushGenre_app (parts : list string) (start : nat)
    (acc : list string) (i : nat) :
  Week2.pushGenre parts start acc i = acc ++ Week2.pushGenre parts start [] i.
Proof.
  unfold Week2.pushGenre.
  destruct (nth_error parts (start + i)) as [flag|];
    [|rewrite app_nil_r; reflexivity].
  destruct (String.eqb flag "1"); [|rewrite app_nil_r; reflexivity].
  destruct (0 <? i)%nat; [|rewrite app_nil_r; reflexivity].
  destruct (nth_error Week2.GENRES_18 (i - 1)) as [g|];
    [|rewrite app_nil_r; reflexivity].
  destruct (negb (String.eqb g "")); [reflexivity|].
  rewrite app_nil_r; reflexivity.
Qed.

Lemma pushGenre_fold (parts : list string) (start : nat) (l : list nat) :
  forall acc,
    fold_left (Week2.pushGenre parts start) l acc =
      acc ++ flat_map (Week2.pushGenre parts start []) l.
Proof.
  induction l as [|i l IH]; intros acc; simpl.
  - rewrite app_nil_r. reflexivity.
  - rewrite IH, (pushGenre_app parts start acc i), <- app_assoc. reflexivity.
Qed.

Lemma week2_names_nonempty (g : string) :
  In g Week2.GENRES_18 -> g <> ""%string.
Proof.
  intros H ->. revert H. vm_compute.
  intuition discriminate.
Qed.

Lemma pushGenre_In (parts : list string) (start i : nat) (g : string) :
  In g (Week2.pushGenre parts start [] i) <->
  nth_error parts (start + i) = Some "1"%string /\ (0 < i)%nat /\
  nth_error Week2.GENRES_18 (i - 1) = Some g.
Proof.
  unfold Week2.pushGenre.
  destruct (nth_error parts (start + i)) as [flag|];
    [|simpl; split; [contradiction | intros [H _]; discriminate H]].
  destruct (String.eqb_spec flag "1") as [->|N].
  - destruct (Nat.ltb_spec 0 i) as [Hi|Hi].
    + destruct (nth_error Week2.GENRES_18 (i - 1)) as [gName|] eqn:G.
      * destruct (String.eqb_spec gName "") as [E|E]; simpl.
        -- exfalso. apply (week2_names_nonempty gName);
             [exact (nth_error_In _ _ G) | exact E].
        -- split.
           ++ intros [<-|[]]. auto.
           ++ intros (_ & _ & H). injection H as <-. left. reflexivity.
      * simpl. split; [contradiction|]. intros (_ & _ & H). discriminate H.
    + simpl. split; [contradiction|]. intros (_ & H & _). lia.
  - simpl. split; [contradiction|]. intros (H & _). injection H as H.
    contradiction.
Qed.

Definition flagBit (flag : string) : Z :=
  if String.eqb flag "1" then 1 else 0.

(** X23. The flag loop of [parseItemData] in [week2/data.js] skips a line
    with fewer than 19 fields. Otherwise it reads the last 19 fields: the
    first of them (the flag of 'unknown') is ignored and the genres are the
    names of [GENRES_18] whose field is the string '1', so every genre is a
    name that [toGenreVector] of [part_001] knows, and the genre vector of
    the parsed genres is the last 18 fields read as bits. *)
Theorem X23_genre_flags_round_trip (parts : list string) :
  ((length parts < 19)%nat -> Week2.genresOf parts = None) /\
  ((19 <= length parts)%nat ->
   exists gs,
     Week2.genresOf parts = Some gs /\
     (forall g, In g gs <->
        exists j, nth_error Week2.GENRES_18 j = Some g /\
                  nth_error parts (length parts - 18 + j) = Some "1"%string) /\
     Forall (fun g => In g Content.GENRES_18) gs /\
     Content.toGenreVector (Some gs) =
       map flagBit (skipn (length parts - 18) parts)).
Proof.
  split.
  - intros H. unfold Week2.genresOf. cbv zeta.
    destruct (Z.ltb_spec (Z.of_nat (length parts) - 19) 0) as [_|N];
      [reflexivity | lia].
  - intros H. unfold Week2.genresOf. cbv zeta.
    destruct (Z.ltb_spec (Z.of_nat (length parts) - 19) 0) as [N|_]; [lia|].
    replace (Z.to_nat (Z.of_nat (length parts) - 19))
      with (length parts - 19)%nat by lia.
    set (start := (length parts - 19)%nat).
    eexists. split; [reflexivity|].
    rewrite pushGenre_fold. cbn [app].
    set (gs := flat_map (Week2.pushGenre parts start []) (seq 0 19)).
    assert (Hin : forall g, In g gs <->
              exists j, nth_error Week2.GENRES_18 j = Some g /\
                        nth_error parts (length parts - 18 + j) = Some "1"%string).
    { intros g. unfold gs. rewrite in_flat_map. split.
      - intros (i & Hi & Hg). apply pushGenre_In in Hg.
        destruct Hg as (Hf & Hpos & Hn). exists (i - 1)%nat.
        split; [exact Hn|].
        replace (length parts - 18 + (i - 1))%nat with (start + i)%nat
          by (unfold start; lia).
        exact Hf.
      - intros (j & Hn & Hf).
        assert (Hj : (j < 18)%nat).
        { apply (nth_error_Some Week2.GENRES_18 j). rewrite Hn. discriminate. }
        exists (S j). split; [apply in_seq; lia|].
        apply pushGenre_In.
        replace (start + S j)%nat with (length parts - 18 + j)%nat
          by (unfold start; lia).
        split; [exact Hf|]. split; [lia|].
        replace (S j - 1)%nat with j by lia. exact Hn. }
    split; [exact Hin|].
    assert (Hknown : Forall (fun g => In g Content.GENRES_18) gs).
    { apply Forall_forall. intros g Hg. apply Hin in Hg.
      destruct Hg as (j & Hn & _). exact (nth_error_In _ _ Hn). }
    split; [exact Hknown|].
    rewrite toGenreVector_indicator.
    apply (nth_ext _ _ 0 0).
    + rewrite !length_map, length_skipn. simpl. lia.
    + intros j Hj. rewrite length_map in Hj. simpl in Hj.
      assert (Hg : exists g, nth_error Content.GENRES_18 j = Some g).
      { destruct (nth_error Content.GENRES_18 j) as [g|] eqn:E; [eauto|].
        apply nth_error_None in E. simpl in E. lia. }
      destruct Hg as [g Hg].
      assert (Hf : exists flag,
                nth_error parts (length parts - 18 + j) = Some flag).
      { destruct (nth_error parts (length parts - 18 + j)) as [f|] eqn:E;
          [eauto|].
        apply nth_error_None in E. lia. }
      destruct Hf as [flag Hf].
      assert (Hl : nth j (map (indicator gs) Content.GENRES_18) 0 =
                   indicator gs g).
      { apply nth_error_nth. rewrite nth_error_map, Hg. reflexivity. }
      assert (Hr : nth j (map flagBit (skipn (length parts - 18) parts)) 0 =
                   flagBit flag).
      { apply nth_error_nth.
        rewrite nth_error_map, nth_error_skipn, Hf. reflexivity. }
      rewrite Hl, Hr. unfold indicator, flagBit.
      destruct (Week2.has gs g) eqn:E.
      * apply has_spec in E. apply Hin in E. destruct E as (j' & Hn & Hf').
        assert (j' = j).
        { apply (proj1 (NoDup_nth_error Content.GENRES_18) GENRES_18_NoDup).
          - apply (nth_error_Some Content.GENRES_18 j').
            change Content.GENRES_18 with Week2.GENRES_18.
            rewrite Hn. discriminate.
          - change Content.GENRES_18 with Week2.GENRES_18.
            rewrite Hn. symmetry. exact Hg. }
        subst j'. rewrite Hf in Hf'. injection Hf' as ->. reflexivity.
      * destruct (String.eqb_spec flag "1") as [->|N]; [|reflexivity].
        exfalso.
        assert (In g gs) as Hgs by (apply Hin; exists j; auto).
        apply has_spec in Hgs. rewrite Hgs in E. discriminate E.
Qed.

Lemma X23_witness :
  exists gs,
    Week2.genresOf Scenario.toyStoryFields = Some gs /\
    gs = ["Animation"; "Children's"; "Comedy"]%string /\
    Content.toGenreVector (Some gs) =
      [0; 0; 1; 1; 1; 0; 0; 0; 0; 0; 0; 0; 0; 0; 0; 0; 0; 0].
Proof.
  destruct (proj2 (X23_genre_flags_round_trip Scenario.toyStoryFields)
              ltac:(vm_compute; lia)) as (gs & E & _ & _ & V).
  exists gs. split; [exact E|]. split; [|rewrite V; reflexivity].
  revert E. vm_compute. intros E. injection E as <-. reflexivity.
Defined.

Lemma X24_witness :
  map (fun x => (Content.id (Content.movie x), Content.fmt (Content.score x)))
    (firstn Content.TOP_N
       (Content.scoredCandidates (fun _ _ => None) Scenario.byTitle
          Scenario.contentPage Scenario.likedMovie)) =
    [(6, 750); (5, 500); (7, 333); (4, 200); (8, 0)] /\
  StronglySorted (fun a b => snd b <= snd a)
    (map (fun x => (Content.title (Content.movie x),
                    Content.fmt (Content.score x)))
       (firstn Content.TOP_N
          (Content.scoredCandidates (fun _ _ => None) Scenario.byTitle
             Scenario.contentPage Scenario.likedMovie))).
Proof.
  split; [vm_compute; reflexivity|].
  exact (proj1 (proj2 (X24_printed_figures_never_rise (fun _ _ => None)
                         Scenario.byTitle byTitle_total byTitle_trans
                         Scenario.contentPage Scenario.likedMovie eq_refl))).
Defined.
